(** * Inventory REST back end: products, stock and employees

    A shallow embedding of the two Express servers of the repository,

    - [inventory_backend.js] (module [InventoryBackend]): routes by internal
      id, required-field validation, stock creation that accumulates;
    - [unnamed/part_000] (module [Part000]): routes by business key,
      [?search=] filters, stock creation that rejects duplicates;

    over a model of the PostgreSQL schema that [createTables] declares
    (module [Pg]).  Every handler is a function from the database state to a
    response and a new database state; the SQL statements it issues are the
    functions of [Pg]. *)

From Stdlib Require Import ZArith List String Ascii Bool Lia DecimalString.
From Stdlib Require Import Permutation Sorted.
Import ListNotations.

Local Open Scope string_scope.
Local Open Scope Z_scope.
Local Open Scope list_scope.

(** ** The database *)

Module Pg.

(** *** Rows

    One record per table of [createTables]; a nullable column is an
    [option].  A string is a sequence of characters, and a stored value is
    within the type of its column ([typed_product], [typed_stock] and
    [typed_employee] below): the statements that write a value check it. *)

(** [products (id SERIAL PRIMARY KEY, id_produk VARCHAR(50) UNIQUE NOT NULL,
    nama_produk VARCHAR(100) NOT NULL, kategori_produk VARCHAR(100))] *)
Record product := mkProduct {
  p_id : Z;
  p_id_produk : string;
  p_nama_produk : string;
  p_kategori_produk : option string
}.

(** [stock (id SERIAL PRIMARY KEY, id_produk VARCHAR(50) UNIQUE REFERENCES
    products(id_produk) ON DELETE CASCADE, nama_produk VARCHAR(100) NOT NULL,
    jumlah_stok INTEGER DEFAULT 0)] *)
Record stock_row := mkStock {
  s_id : Z;
  s_id_produk : option string;
  s_nama_produk : string;
  s_jumlah_stok : option Z
}.

(** [employees (id SERIAL PRIMARY KEY, nama VARCHAR(100) NOT NULL,
    posisi VARCHAR(100), email VARCHAR(100))] *)
Record employee := mkEmployee {
  e_id : Z;
  e_nama : string;
  e_posisi : option string;
  e_email : option string
}.

(** The three tables, each with the sequence behind its [SERIAL] column:
    the value the next [nextval] returns, which is beyond [INTEGER] once
    the sequence has run out. *)
Record db := mkDb {
  products : list product;
  stock : list stock_row;
  employees : list employee;
  products_id_seq : Z;
  stock_id_seq : Z;
  employees_id_seq : Z
}.

Definition empty : db := mkDb [] [] [] 1 1 1.

(** *** Errors and the query monad *)

Inductive sqlstate :=
| cardinality_violation
| string_data_right_truncation
| numeric_value_out_of_range
| sequence_generator_limit_exceeded
| invalid_text_representation
| not_null_violation
| foreign_key_violation
| unique_violation.

(** The [error.code] the driver reports. *)
Definition code (e : sqlstate) : string :=
  match e with
  | cardinality_violation => "21000"
  | string_data_right_truncation => "22001"
  | numeric_value_out_of_range => "22003"
  | sequence_generator_limit_exceeded => "2200H"
  | invalid_text_representation => "22P02"
  | not_null_violation => "23502"
  | foreign_key_violation => "23503"
  | unique_violation => "23505"
  end.

Inductive outcome (A : Type) :=
| Done (a : A)
| Raise (e : sqlstate).
Arguments Done {A} a.
Arguments Raise {A} e.

(** [await pool.query(...)]: a result or a thrown error, and the database
    afterwards. *)
Definition query (A : Type) := db -> outcome A * db.

Definition ret {A} (a : A) : query A := fun d => (Done a, d).

(** A step of a statement that does not touch the database: reading a
    parameter, coercing a value. *)
Definition lift {A} (o : outcome A) : query A := fun d => (o, d).

Definition bind {A B} (m : query A) (k : A -> query B) : query B :=
  fun d =>
    match m d with
    | (Done a, d') => k a d'
    | (Raise e, d') => (Raise e, d')
    end.

(** [try { body } catch (err) { handler }] around awaited queries. *)
Definition try_catch {R} (body : query R) (handler : sqlstate -> R) : db -> R * db :=
  fun d =>
    match body d with
    | (Done r, d') => (r, d')
    | (Raise e, d') => (handler e, d')
    end.

Declare Scope query_scope.
Delimit Scope query_scope with query.
Notation "'let*' x ':=' m 'in' k" := (bind m (fun x => k))
  (at level 10, x name, m at level 100, k at level 200) : query_scope.

(** [result.rowCount] *)
Definition rowCount {A} (rows : list A) : Z := Z.of_nat (List.length rows).

(** *** Column types

    A statement reads its parameters before it runs.  The driver sends every
    parameter as text.  The text for an [INTEGER] column or comparison is
    read when the parameters are bound, and the database raises 22003 or
    22P02 for a text it cannot read as an [INTEGER].  A text for a
    [VARCHAR(n)] column is cut to size when the statement is planned (the
    parameters are constants of the plan), before any row is looked at; a
    text compared with such a column is not. *)

(** [INTEGER]: four bytes. *)
Definition int4 (z : Z) : bool := (-2147483648 <=? z) && (z <=? 2147483647).

(** An id that the sequence of a [SERIAL] column hands out: such a
    sequence stops at the largest [INTEGER], and [nextval] raises 2200H
    from there on. *)
Definition serial (id : Z) : bool := id <=? 2147483647.

(** A JSON number among the parameters: the integer it is, or a number that
    is no integer (1.5).  The driver sends [String(value)], which for an
    integer is its digits below 10^21 and an exponent form from there on. *)
Inductive number :=
| Int (z : Z)
| NotInt.

(** The parameter of an [INTEGER] column: [int4in] on the text sent. *)
Definition integer (v : option number) : outcome (option Z) :=
  match v with
  | None => Done None
  | Some (Int z) =>
      if int4 z then Done (Some z)
      else if Z.abs z <? 10 ^ 21 then Raise numeric_value_out_of_range
      else Raise invalid_text_representation
  | Some NotInt => Raise invalid_text_representation
  end.

(** What [int4in] makes of the text of a route parameter: the [INTEGER] it
    denotes, digits beyond [INTEGER] (22003), or no integer at all (22P02). *)
Inductive int4in :=
| Reads (z : Z)
| OutOfRange
| Invalid.

(** A statement with the parameter [id] compared with an [INTEGER] column. *)
Definition with_id {A} (id : int4in) (statement : Z -> query A) : query A :=
  match id with
  | Reads z => statement z
  | OutOfRange => lift (Raise numeric_value_out_of_range)
  | Invalid => lift (Raise invalid_text_representation)
  end.

Fixpoint take (n : nat) (s : string) : string :=
  match n, s with
  | S n', String c s' => String c (take n' s')
  | _, _ => EmptyString
  end.

Fixpoint drop (n : nat) (s : string) : string :=
  match n, s with
  | S n', String _ s' => drop n' s'
  | _, _ => s
  end.

Fixpoint spaces (s : string) : bool :=
  match s with
  | EmptyString => true
  | String c s' => Ascii.eqb c " " && spaces s'
  end.

(** The value stored in a [VARCHAR(n)] column: at most [n] characters pass
    as they are, spaces beyond the [n]th are cut off, and anything else
    beyond it is the error 22001. *)
Definition varchar (n : nat) (v : option string) : outcome (option string) :=
  match v with
  | None => Done None
  | Some s =>
      if (String.length s <=? n)%nat then Done (Some s)
      else if spaces (drop n s) then Done (Some (take n s))
      else Raise string_data_right_truncation
  end.

(** A value that a [VARCHAR(n)] column takes as it is. *)
Definition fits (n : nat) (v : option string) : Prop :=
  match v with
  | Some s => (String.length s <= n)%nat
  | None => True
  end.

(** The rows the column types of [createTables] allow. *)
Definition typed_product (p : product) : Prop :=
  fits 50 (Some (p_id_produk p)) /\ fits 100 (Some (p_nama_produk p)) /\
  fits 100 (p_kategori_produk p).

Definition typed_quantity (q : option Z) : Prop :=
  match q with
  | Some z => int4 z = true
  | None => True
  end.

Definition typed_stock (s : stock_row) : Prop :=
  fits 50 (s_id_produk s) /\ fits 100 (Some (s_nama_produk s)) /\
  typed_quantity (s_jumlah_stok s).

Definition typed_employee (e : employee) : Prop :=
  fits 100 (Some (e_nama e)) /\ fits 100 (e_posisi e) /\ fits 100 (e_email e).

(** [UPDATE ... SET ... WHERE ...] on a table: the rows that do not match
    stay as they are, and the new versions of those that match are written
    after them. *)
Definition update {A} (where_ : A -> bool) (set : A -> A) (table : list A) : list A :=
  filter (fun x => negb (where_ x)) table ++ map set (filter where_ table).

(** *** Comparisons against a nullable column *)

(** [column = value]: NULL equals nothing. *)
Definition null_eqb (column : option string) (value : string) : bool :=
  match column with
  | Some k => String.eqb k value
  | None => false
  end.

(** *** Statements on [products] *)

Definition select_products (where_ : product -> bool) : query (list product) :=
  fun d => (Done (filter where_ (products d)), d).

(** The executor's part of the INSERT.  The id is drawn from the sequence
    first, unless the sequence has run out (an insert that fails from there
    on still consumes the id); NOT NULL is checked before the unique
    indexes. *)
Definition exec_insert_product (k n c : option string) : query (list product) :=
  fun d =>
    let id := products_id_seq d in
    let d1 := mkDb (products d) (stock d) (employees d)
                   (id + 1) (stock_id_seq d) (employees_id_seq d) in
    if negb (serial id) then (Raise sequence_generator_limit_exceeded, d)
    else
      match k, n with
      | Some k, Some n =>
          if existsb (fun p => p_id p =? id) (products d) then (Raise unique_violation, d1)
          else if existsb (fun p => String.eqb (p_id_produk p) k) (products d)
          then (Raise unique_violation, d1)
          else
            let row := mkProduct id k n c in
            (Done [row],
             mkDb (products d ++ [row]) (stock d) (employees d)
                  (id + 1) (stock_id_seq d) (employees_id_seq d))
      | _, _ => (Raise not_null_violation, d1)
      end.

(** [INSERT INTO products (id_produk, nama_produk, kategori_produk)
    VALUES ($1, $2, $3) RETURNING *] *)
Definition insert_product (k n c : option string) : query (list product) :=
  (let* k := lift (varchar 50 k) in
   let* n := lift (varchar 100 n) in
   let* c := lift (varchar 100 c) in
   exec_insert_product k n c)%query.

(** [SET nama_produk = n, kategori_produk = c] on a row. *)
Definition set_product (n : string) (c : option string) (p : product) : product :=
  mkProduct (p_id p) (p_id_produk p) n c.

(** The executor's part of the UPDATE.  With no matching row NOT NULL is not
    checked. *)
Definition exec_update_products (where_ : product -> bool) (n c : option string)
  : query (list product) :=
  fun d =>
    if existsb where_ (products d) then
      match n with
      | None => (Raise not_null_violation, d)
      | Some n =>
          (Done (map (set_product n c) (filter where_ (products d))),
           mkDb (update where_ (set_product n c) (products d)) (stock d) (employees d)
                (products_id_seq d) (stock_id_seq d) (employees_id_seq d))
      end
    else (Done [], d).

(** [UPDATE products SET nama_produk = $1, kategori_produk = $2 WHERE ...
    RETURNING *] *)
Definition update_products (where_ : product -> bool) (n c : option string)
  : query (list product) :=
  (let* n := lift (varchar 100 n) in
   let* c := lift (varchar 100 c) in
   exec_update_products where_ n c)%query.

(** The stock rows that reference one of the deleted products. *)
Definition references (gone : list product) (s : stock_row) : bool :=
  match s_id_produk s with
  | Some k => existsb (fun p => String.eqb (p_id_produk p) k) gone
  | None => false
  end.

(** [DELETE FROM products WHERE ...], with or without RETURNING, with the
    [ON DELETE CASCADE] of [stock.id_produk]. *)
Definition delete_products (where_ : product -> bool) : query (list product) :=
  fun d =>
    let gone := filter where_ (products d) in
    (Done gone,
     mkDb (filter (fun p => negb (where_ p)) (products d))
          (filter (fun s => negb (references gone s)) (stock d))
          (employees d)
          (products_id_seq d) (stock_id_seq d) (employees_id_seq d)).

(** *** Statements on [stock] *)

Definition select_stock (where_ : stock_row -> bool) : query (list stock_row) :=
  fun d => (Done (filter where_ (stock d)), d).

(** The executor's part of the INSERT.  The id is drawn first, unless the
    sequence has run out.  The column list names [jumlah_stok], so a NULL
    parameter is stored as NULL (the default 0 is not used).  The foreign
    key is checked last, and not at all for a NULL key. *)
Definition exec_insert_stock (k n : option string) (q : option Z) : query (list stock_row) :=
  fun d =>
    let id := stock_id_seq d in
    let d1 := mkDb (products d) (stock d) (employees d)
                   (products_id_seq d) (id + 1) (employees_id_seq d) in
    if negb (serial id) then (Raise sequence_generator_limit_exceeded, d)
    else
      match n with
      | None => (Raise not_null_violation, d1)
      | Some n =>
          if existsb (fun s => s_id s =? id) (stock d) then (Raise unique_violation, d1)
          else if match k with
                  | Some k => existsb (fun s => null_eqb (s_id_produk s) k) (stock d)
                  | None => false
                  end
          then (Raise unique_violation, d1)
          else if match k with
                  | Some k => negb (existsb (fun p => String.eqb (p_id_produk p) k) (products d))
                  | None => false
                  end
          then (Raise foreign_key_violation, d1)
          else
            let row := mkStock id k n q in
            (Done [row],
             mkDb (products d) (stock d ++ [row]) (employees d)
                  (products_id_seq d) (id + 1) (employees_id_seq d))
      end.

(** [INSERT INTO stock (id_produk, nama_produk, jumlah_stok)
    VALUES ($1, $2, $3) RETURNING *] *)
Definition insert_stock (k n : option string) (q : option number) : query (list stock_row) :=
  (let* q := lift (integer q) in
   let* k := lift (varchar 50 k) in
   let* n := lift (varchar 100 n) in
   exec_insert_stock k n q)%query.

(** [SET jumlah_stok = q] on a row. *)
Definition set_jumlah_stok (q : option Z) (s : stock_row) : stock_row :=
  mkStock (s_id s) (s_id_produk s) (s_nama_produk s) q.

Definition exec_update_stock_jumlah (where_ : stock_row -> bool) (q : option Z)
  : query (list stock_row) :=
  fun d =>
    (Done (map (set_jumlah_stok q) (filter where_ (stock d))),
     mkDb (products d) (update where_ (set_jumlah_stok q) (stock d)) (employees d)
          (products_id_seq d) (stock_id_seq d) (employees_id_seq d)).

(** [UPDATE stock SET jumlah_stok = $1 WHERE ... RETURNING *] *)
Definition update_stock_jumlah (where_ : stock_row -> bool) (q : option number)
  : query (list stock_row) :=
  (let* q := lift (integer q) in
   exec_update_stock_jumlah where_ q)%query.

(** A scalar subquery: NULL for no row, an error for more than one. *)
Definition scalar {A} (rows : list A) : outcome (option A) :=
  match rows with
  | [] => Done None
  | [x] => Done (Some x)
  | _ => Raise cardinality_violation
  end.

(** [SET nama_produk = n] on a row. *)
Definition set_nama_produk (n : string) (s : stock_row) : stock_row :=
  mkStock (s_id s) (s_id_produk s) n (s_jumlah_stok s).

Definition exec_update_stock_nama (n : option string) (id : Z) : query (list stock_row) :=
  fun d =>
    match scalar (map p_id_produk (filter (fun p => p_id p =? id) (products d))) with
    | Raise e => (Raise e, d)
    | Done None => (Done [], d)
    | Done (Some k) =>
        let where_ s := null_eqb (s_id_produk s) k in
        if existsb where_ (stock d) then
          match n with
          | None => (Raise not_null_violation, d)
          | Some n =>
              (Done (map (set_nama_produk n) (filter where_ (stock d))),
               mkDb (products d) (update where_ (set_nama_produk n) (stock d)) (employees d)
                    (products_id_seq d) (stock_id_seq d) (employees_id_seq d))
          end
        else (Done [], d)
    end.

(** [UPDATE stock SET nama_produk = $1
     WHERE id_produk = (SELECT id_produk FROM products WHERE id = $2)] *)
Definition update_stock_nama (n : option string) (id : Z) : query (list stock_row) :=
  (let* n := lift (varchar 100 n) in
   exec_update_stock_nama n id)%query.

(** [DELETE FROM stock WHERE ...], with or without RETURNING *)
Definition delete_stock (where_ : stock_row -> bool) : query (list stock_row) :=
  fun d =>
    (Done (filter where_ (stock d)),
     mkDb (products d) (filter (fun s => negb (where_ s)) (stock d)) (employees d)
          (products_id_seq d) (stock_id_seq d) (employees_id_seq d)).

(** [FROM stock s LEFT JOIN products p ON s.id_produk = p.id_produk]: every
    stock row with each matching product, or once with no product. *)
Definition left_join (d : db) : list (stock_row * option product) :=
  flat_map
    (fun s =>
       match filter (fun p => null_eqb (s_id_produk s) (p_id_produk p)) (products d) with
       | [] => [(s, None)]
       | ps => map (fun p => (s, Some p)) ps
       end)
    (stock d).

Definition select_left_join (where_ : stock_row * option product -> bool)
  : query (list (stock_row * option product)) :=
  fun d => (Done (filter where_ (left_join d)), d).

(** *** Statements on [employees] *)

Definition select_employees (where_ : employee -> bool) : query (list employee) :=
  fun d => (Done (filter where_ (employees d)), d).

(** The executor's part of the INSERT: the id is drawn first, unless the
    sequence has run out. *)
Definition exec_insert_employee (n p m : option string) : query (list employee) :=
  fun d =>
    let id := employees_id_seq d in
    let d1 := mkDb (products d) (stock d) (employees d)
                   (products_id_seq d) (stock_id_seq d) (id + 1) in
    if negb (serial id) then (Raise sequence_generator_limit_exceeded, d)
    else
      match n with
      | None => (Raise not_null_violation, d1)
      | Some n =>
          if existsb (fun e => e_id e =? id) (employees d) then (Raise unique_violation, d1)
          else
            let row := mkEmployee id n p m in
            (Done [row],
             mkDb (products d) (stock d) (employees d ++ [row])
                  (products_id_seq d) (stock_id_seq d) (id + 1))
      end.

(** [INSERT INTO employees (nama, posisi, email) VALUES ($1, $2, $3)
    RETURNING *] *)
Definition insert_employee (n p m : option string) : query (list employee) :=
  (let* n := lift (varchar 100 n) in
   let* p := lift (varchar 100 p) in
   let* m := lift (varchar 100 m) in
   exec_insert_employee n p m)%query.

(** [SET nama = n, posisi = p, email = m] on a row. *)
Definition set_employee (n : string) (p m : option string) (e : employee) : employee :=
  mkEmployee (e_id e) n p m.

Definition exec_update_employees (id : Z) (n p m : option string) : query (list employee) :=
  fun d =>
    let where_ e := e_id e =? id in
    if existsb where_ (employees d) then
      match n with
      | None => (Raise not_null_violation, d)
      | Some n =>
          (Done (map (set_employee n p m) (filter where_ (employees d))),
           mkDb (products d) (stock d) (update where_ (set_employee n p m) (employees d))
                (products_id_seq d) (stock_id_seq d) (employees_id_seq d))
      end
    else (Done [], d).

(** [UPDATE employees SET nama = $1, posisi = $2, email = $3 WHERE id = $4
    RETURNING *] *)
Definition update_employees (id : Z) (n p m : option string) : query (list employee) :=
  (let* n := lift (varchar 100 n) in
   let* p := lift (varchar 100 p) in
   let* m := lift (varchar 100 m) in
   exec_update_employees id n p m)%query.

(** [DELETE FROM employees WHERE id = $1], with or without RETURNING *)
Definition delete_employees (id : Z) : query (list employee) :=
  fun d =>
    (Done (filter (fun e => e_id e =? id) (employees d)),
     mkDb (products d) (stock d) (filter (fun e => negb (e_id e =? id)) (employees d))
          (products_id_seq d) (stock_id_seq d) (employees_id_seq d)).

(** *** [ORDER BY id DESC] *)

Section OrderBy.
Context {A : Type} (key : A -> Z).

Fixpoint insert_desc (x : A) (l : list A) : list A :=
  match l with
  | [] => [x]
  | y :: l' => if key y <? key x then x :: l else y :: insert_desc x l'
  end.

Definition order_by_desc (l : list A) : list A :=
  fold_right insert_desc [] l.
End OrderBy.

(** *** Aggregates *)






End Pg.

(** An integer stands for the JSON number it is, also as a field that is
    present. *)
Coercion Pg.Int : Z >-> Pg.number.
Arguments Some {A} & a.

(** ** [ILIKE] *)

Module Ilike.

(** Case folding, on the ASCII letters. *)
Definition lower (c : ascii) : ascii :=
  let n := N_of_ascii c in
  if ((65 <=? n) && (n <=? 90))%N then ascii_of_N (n + 32) else c.

Fixpoint lower_string (s : string) : string :=
  match s with
  | EmptyString => EmptyString
  | String c s' => String (lower c) (lower_string s')
  end.

(** [text LIKE pattern]: [%] stands for any run of characters, [_] for any
    one character, and a backslash takes the next pattern character
    literally.  A pattern that ends in a lone backslash is an error of the
    database and matches nothing here; the patterns of the handlers end in
    [%], so they never end in one. *)
Fixpoint like (pattern : string) : string -> bool :=
  match pattern with
  | EmptyString => fun text => match text with EmptyString => true | _ => false end
  | String c p =>
      if Ascii.eqb c "%" then
        fix any (text : string) : bool :=
          like p text
          || match text with EmptyString => false | String _ t => any t end
      else if Ascii.eqb c "_" then
        fun text => match text with EmptyString => false | String _ t => like p t end
      else if Ascii.eqb c "\" then
        match p with
        | EmptyString => fun _ => false
        | String e p' =>
            fun text =>
              match text with
              | EmptyString => false
              | String a t => Ascii.eqb a e && like p' t
              end
        end
      else
        fun text =>
          match text with
          | EmptyString => false
          | String a t => Ascii.eqb a c && like p t
          end
  end.

(** [column ILIKE pattern], NULL on a NULL column. *)
Definition ilike (column : option string) (pattern : string) : option bool :=
  match column with
  | Some text => Some (like (lower_string pattern) (lower_string text))
  | None => None
  end.

(** SQL's three-valued [OR]. *)
Definition sql_or (a b : option bool) : option bool :=
  match a, b with
  | Some true, _ | _, Some true => Some true
  | Some false, Some false => Some false
  | _, _ => None
  end.

(** A [WHERE] clause keeps a row when its condition is true. *)
Definition holds (a : option bool) : bool :=
  match a with
  | Some true => true
  | _ => false
  end.



(** Substring search, the reading the specification gives to a filter. *)
Fixpoint prefixb (s text : string) : bool :=
  match s, text with
  | EmptyString, _ => true
  | String a s', String b t => Ascii.eqb a b && prefixb s' t
  | String _ _, EmptyString => false
  end.

Fixpoint infixb (s text : string) : bool :=
  prefixb s text
  || match text with EmptyString => false | String _ t => infixb s t end.

Definition contains_ci (s text : string) : bool :=
  infixb (lower_string s) (lower_string text).


End Ilike.

(** ** Requests and responses *)

Module Http.

(** [req.body] after [express.json()]: the fields the handlers read.  A
    field is absent ([None]: undefined or null) or carries a JSON value of
    the kind of its column: a string of any length for a text column, a
    number for [jumlah_stok]. *)
Record req_body := mkBody {
  id_produk : option string;
  nama_produk : option string;
  kategori_produk : option string;
  jumlah_stok : option Pg.number;
  nama : option string;
  posisi : option string;
  email : option string
}.

(** The same body with another [nama_produk], or another [jumlah_stok]. *)
Definition with_nama_produk (b : req_body) (n : option string) : req_body :=
  mkBody (id_produk b) n (kategori_produk b) (jumlah_stok b) (nama b) (posisi b) (email b).

Definition with_jumlah_stok (b : req_body) (q : option Pg.number) : req_body :=
  mkBody (id_produk b) (nama_produk b) (kategori_produk b) q (nama b) (posisi b) (email b).

(** [!field] on a text field: undefined, null and the empty string are
    falsy. *)
Definition falsy (field : option string) : bool :=
  match field with
  | Some s => String.eqb s ""
  | None => true
  end.

(** [typeof field !== "number"] *)
Definition not_number (field : option Pg.number) : bool :=
  match field with
  | Some _ => false
  | None => true
  end.

Inductive body (A : Type) :=
| Json (a : A)                          (* res.json(a) *)
| Send (text : string)                  (* res.send(text) *)
| NoBody                                (* res.send() *)
| ErrorJson (error message : string)    (* res.json({ error, message }) *)
| QueryError (message : string) (e : Pg.sqlstate).
    (* res.json({ error: "Internal Server Error", message: `${message}: ${e.message}` }) *)
Arguments Json {A} a.
Arguments Send {A} text.
Arguments NoBody {A}.
Arguments ErrorJson {A} error message.
Arguments QueryError {A} message e.

Record response (A : Type) := mkResponse {
  status : Z;
  payload : body A
}.
Arguments mkResponse {A} status payload.
Arguments status {A} r.
Arguments payload {A} r.

(** [{ message, deleted_... : row }] *)
Record deleted (A : Type) := mkDeleted {
  message : string;
  deleted_row : option A
}.
Arguments mkDeleted {A} message deleted_row.

(** The rows of a listing. *)
Definition rows {A} (r : response (list A)) : list A :=
  match payload r with
  | Json l => l
  | _ => []
  end.

(** [req.params.id]: the text of the route parameter, with what the
    database makes of it when it is compared with an [INTEGER] column. *)
Record route_id := mkRouteId {
  text : string;
  read : Pg.int4in
}.

(** The digits of an id. *)
Definition template (id : Z) : string := NilEmpty.string_of_int (Z.to_int id).

(** The route parameter that names the row of id [id]. *)
Definition route (id : Z) : route_id := mkRouteId (template id) (Pg.Reads id).

(** A handler: the response sent and the database left behind. *)
Definition handler (A : Type) := Pg.db -> response A * Pg.db.

End Http.

(** An id stands for the route parameter that names it. *)
Coercion Http.route : Z >-> Http.route_id.

(** ** [unnamed/part_000]: routes by business key, duplicates rejected *)

Module Part000.
Import Pg Ilike Http.
Local Open Scope query_scope.

(** [handleQueryError(res, error, message)] *)
Definition handleQueryError {A} (message : string) (error : sqlstate) : response A :=
  mkResponse 500 (QueryError message error).

(** [if (search)]: the filter is applied for a non-empty parameter, with
    the pattern [`%${search}%`]. *)
Definition pattern (search : string) : string := "%" ++ search ++ "%".

(** [WHERE nama_produk ILIKE $1 OR kategori_produk ILIKE $1
    OR id_produk ILIKE $1] *)
Definition products_where (search : option string) (p : product) : bool :=
  if falsy search then true
  else
    let s := match search with Some s => s | None => "" end in
    holds (sql_or (sql_or (ilike (Some (p_nama_produk p)) (pattern s))
                          (ilike (p_kategori_produk p) (pattern s)))
                  (ilike (Some (p_id_produk p)) (pattern s))).

(** [GET /api/products] *)
Definition get_products (search : option string) : handler (list product) :=
  try_catch
    (let* rows := select_products (products_where search) in
     ret (mkResponse 200 (Json rows)))
    (handleQueryError "Gagal mengambil data produk.").

(** [POST /api/products] *)
Definition post_products (b : req_body) : handler (option product) :=
  try_catch
    (let* rows := insert_product (id_produk b) (nama_produk b) (kategori_produk b) in
     ret (mkResponse 201 (Json (hd_error rows))))
    (fun error =>
       if String.eqb (code error) "23505"
       then mkResponse 409 (ErrorJson "Conflict" "ID Produk sudah ada.")
       else handleQueryError "Gagal menambah produk baru." error).

(** [PUT /api/products/:id_produk] *)
Definition put_products (param : string) (b : req_body) : handler (option product) :=
  try_catch
    (let* rows := update_products (fun p => String.eqb (p_id_produk p) param)
                                  (nama_produk b) (kategori_produk b) in
     if rowCount rows =? 0
     then ret (mkResponse 404 (ErrorJson "Not Found" "Produk tidak ditemukan."))
     else ret (mkResponse 200 (Json (hd_error rows))))
    (handleQueryError ("Gagal mengubah produk dengan ID " ++ param ++ ".")).

(** [DELETE /api/products/:id_produk] *)
Definition delete_products (param : string) : handler (deleted product) :=
  try_catch
    (let* rows := Pg.delete_products (fun p => String.eqb (p_id_produk p) param) in
     if rowCount rows =? 0
     then ret (mkResponse 404 (ErrorJson "Not Found" "Produk tidak ditemukan."))
     else ret (mkResponse 200 (Json (mkDeleted "Produk berhasil dihapus" (hd_error rows)))))
    (handleQueryError ("Gagal menghapus produk dengan ID " ++ param ++ ".")).

(** A row of [SELECT s.id, s.id_produk, s.nama_produk, s.jumlah_stok,
    p.kategori_produk]. *)
Record stock_listing := mkListing {
  l_id : Z;
  l_id_produk : option string;
  l_nama_produk : string;
  l_jumlah_stok : option Z;
  l_kategori_produk : option string
}.

Definition select_listing (sp : stock_row * option product) : stock_listing :=
  let (s, p) := sp in
  mkListing (s_id s) (s_id_produk s) (s_nama_produk s) (s_jumlah_stok s)
            (match p with Some p => p_kategori_produk p | None => None end).

(** [WHERE s.nama_produk ILIKE $1 OR s.id_produk ILIKE $1] *)
Definition stock_where (search : option string) (sp : stock_row * option product) : bool :=
  if falsy search then true
  else
    let s := match search with Some s => s | None => "" end in
    holds (sql_or (ilike (Some (s_nama_produk (fst sp))) (pattern s))
                  (ilike (s_id_produk (fst sp)) (pattern s))).

(** [GET /api/stock] *)
Definition get_stock (search : option string) : handler (list stock_listing) :=
  try_catch
    (let* rows := select_left_join (stock_where search) in
     ret (mkResponse 200 (Json (map select_listing rows))))
    (handleQueryError "Gagal mengambil data stok. Pastikan tabel stock sudah dibuat.").

(** [POST /api/stock] *)
Definition post_stock (b : req_body) : handler (option stock_row) :=
  try_catch
    (let* rows := insert_stock (id_produk b) (nama_produk b) (jumlah_stok b) in
     ret (mkResponse 201 (Json (hd_error rows))))
    (fun error =>
       if String.eqb (code error) "23503"
       then mkResponse 400 (ErrorJson "Bad Request" "ID Produk tidak ada di tabel Produk.")
       else if String.eqb (code error) "23505"
       then mkResponse 409
              (ErrorJson "Conflict"
                 "Stok untuk ID Produk ini sudah ada. Gunakan PUT untuk mengubah jumlah.")
       else handleQueryError "Gagal menambah stok baru." error).

(** [PUT /api/stock/:id_produk] *)
Definition put_stock (param : string) (b : req_body) : handler (option stock_row) :=
  try_catch
    (let* rows := update_stock_jumlah (fun s => null_eqb (s_id_produk s) param) (jumlah_stok b) in
     if rowCount rows =? 0
     then ret (mkResponse 404 (ErrorJson "Not Found" "Stok untuk produk ini tidak ditemukan."))
     else ret (mkResponse 200 (Json (hd_error rows))))
    (handleQueryError ("Gagal mengubah stok untuk ID " ++ param ++ ".")).

(** [DELETE /api/stock/:id_produk] *)
Definition delete_stock (param : string) : handler (deleted stock_row) :=
  try_catch
    (let* rows := Pg.delete_stock (fun s => null_eqb (s_id_produk s) param) in
     if rowCount rows =? 0
     then ret (mkResponse 404 (ErrorJson "Not Found" "Stok untuk produk ini tidak ditemukan."))
     else ret (mkResponse 200 (Json (mkDeleted "Stok berhasil dihapus" (hd_error rows)))))
    (handleQueryError ("Gagal menghapus stok untuk ID " ++ param ++ ".")).

(** [WHERE nama ILIKE $1 OR posisi ILIKE $1 OR email ILIKE $1] *)
Definition employees_where (search : option string) (e : employee) : bool :=
  if falsy search then true
  else
    let s := match search with Some s => s | None => "" end in
    holds (sql_or (sql_or (ilike (Some (e_nama e)) (pattern s))
                          (ilike (e_posisi e) (pattern s)))
                  (ilike (e_email e) (pattern s))).

(** [GET /api/employees] *)
Definition get_employees (search : option string) : handler (list employee) :=
  try_catch
    (let* rows := select_employees (employees_where search) in
     ret (mkResponse 200 (Json rows)))
    (handleQueryError "Gagal mengambil data karyawan. Pastikan tabel employees sudah dibuat.").

(** [POST /api/employees] *)
Definition post_employees (b : req_body) : handler (option employee) :=
  try_catch
    (let* rows := insert_employee (nama b) (posisi b) (email b) in
     ret (mkResponse 201 (Json (hd_error rows))))
    (handleQueryError "Gagal menambah karyawan baru.").

(** [PUT /api/employees/:id] *)
Definition put_employees (id : route_id) (b : req_body) : handler (option employee) :=
  try_catch
    (let* rows := with_id (read id) (fun id => update_employees id (nama b) (posisi b) (email b)) in
     if rowCount rows =? 0
     then ret (mkResponse 404 (ErrorJson "Not Found" "Karyawan tidak ditemukan."))
     else ret (mkResponse 200 (Json (hd_error rows))))
    (handleQueryError ("Gagal mengubah data karyawan dengan ID " ++ text id ++ ".")).

(** [DELETE /api/employees/:id] *)
Definition delete_employees (id : route_id) : handler (deleted employee) :=
  try_catch
    (let* rows := with_id (read id) Pg.delete_employees in
     if rowCount rows =? 0
     then ret (mkResponse 404 (ErrorJson "Not Found" "Karyawan tidak ditemukan."))
     else ret (mkResponse 200 (Json (mkDeleted "Karyawan berhasil dihapus" (hd_error rows)))))
    (handleQueryError ("Gagal menghapus karyawan dengan ID " ++ text id ++ ".")).



(** The requests that write, and the state each leaves. *)
Inductive request :=
| PostProducts (b : req_body)
| PutProducts (param : string) (b : req_body)
| DeleteProducts (param : string)
| PostStock (b : req_body)
| PutStock (param : string) (b : req_body)
| DeleteStock (param : string)
| PostEmployees (b : req_body)
| PutEmployees (id : route_id) (b : req_body)
| DeleteEmployees (id : route_id).

Definition serve (r : request) (d : db) : Z * db :=
  match r with
  | PostProducts b => let (res, d') := post_products b d in (status res, d')
  | PutProducts k b => let (res, d') := put_products k b d in (status res, d')
  | DeleteProducts k => let (res, d') := delete_products k d in (status res, d')
  | PostStock b => let (res, d') := post_stock b d in (status res, d')
  | PutStock k b => let (res, d') := put_stock k b d in (status res, d')
  | DeleteStock k => let (res, d') := delete_stock k d in (status res, d')
  | PostEmployees b => let (res, d') := post_employees b d in (status res, d')
  | PutEmployees i b => let (res, d') := put_employees i b d in (status res, d')
  | DeleteEmployees i => let (res, d') := delete_employees i d in (status res, d')
  end.

End Part000.

(** ** [inventory_backend.js]: routes by internal id, stock accumulated *)

Module InventoryBackend.
Import Pg Ilike Http.
Local Open Scope query_scope.

(** [GET /api/products]: [SELECT * FROM products ORDER BY id DESC] *)
Definition get_products : handler (list product) :=
  try_catch
    (let* rows := select_products (fun _ => true) in
     ret (mkResponse 200 (Json (order_by_desc p_id rows))))
    (fun _ => mkResponse 500 (Send "Internal Server Error")).

(** [POST /api/products] *)
Definition post_products (b : req_body) : handler (option product) :=
  if falsy (id_produk b) || falsy (nama_produk b)
  then fun d => (mkResponse 400 (Send "ID Produk dan Nama Produk wajib diisi."), d)
  else
    try_catch
      (let* rows := insert_product (id_produk b) (nama_produk b) (kategori_produk b) in
       ret (mkResponse 201 (Json (hd_error rows))))
      (fun _ => mkResponse 500 (Send "Gagal menambah produk. Mungkin ID Produk sudah ada.")).

(** [PUT /api/products/:id] *)
Definition put_products (id : route_id) (b : req_body) : handler (option product) :=
  try_catch
    (let* rows :=
       with_id (read id)
         (fun id => update_products (fun p => p_id p =? id) (nama_produk b) (kategori_produk b)) in
     if rowCount rows =? 0
     then ret (mkResponse 404 (Send "Produk tidak ditemukan."))
     else
       let* _ := with_id (read id) (update_stock_nama (nama_produk b)) in
       ret (mkResponse 200 (Json (hd_error rows))))
    (fun _ => mkResponse 500 (Send "Internal Server Error")).

(** [DELETE /api/products/:id] *)
Definition delete_products (id : route_id) : handler unit :=
  try_catch
    (let* rows := with_id (read id) (fun id => Pg.delete_products (fun p => p_id p =? id)) in
     if rowCount rows =? 0
     then ret (mkResponse 404 (Send "Produk tidak ditemukan."))
     else ret (mkResponse 204 NoBody))
    (fun _ => mkResponse 500 (Send "Internal Server Error")).

(** A row of [SELECT s.id, s.id_produk, p.nama_produk, s.jumlah_stok]. *)
Record stock_listing := mkListing {
  l_id : Z;
  l_id_produk : option string;
  l_nama_produk : option string;
  l_jumlah_stok : option Z
}.

Definition select_listing (sp : stock_row * option product) : stock_listing :=
  let (s, p) := sp in
  mkListing (s_id s) (s_id_produk s)
            (match p with Some p => Some (p_nama_produk p) | None => None end)
            (s_jumlah_stok s).

(** [GET /api/stock]: the join, [ORDER BY s.id DESC] *)
Definition get_stock : handler (list stock_listing) :=
  try_catch
    (let* rows := select_left_join (fun _ => true) in
     ret (mkResponse 200 (Json (map select_listing (order_by_desc (fun sp => s_id (fst sp)) rows)))))
    (fun _ =>
       mkResponse 500
         (Send "Internal Server Error: Gagal mengambil data stok. Pastikan tabel stock sudah dibuat.")).

(** [existingStock.rows[0].jumlah_stok + jumlah_stok]: the driver reads an
    [INTEGER] column as a number and a NULL as null, and null counts as 0
    in a sum with a number.  The sum of an integer and a number that is no
    integer is taken as no integer (the rounding of such a sum is not
    modelled). *)
Definition plus (existing : option Z) (jumlah_stok : number) : number :=
  match jumlah_stok with
  | Int z => Int (match existing with Some q => q + z | None => z end)
  | NotInt => NotInt
  end.

(** [POST /api/stock] *)
Definition post_stock (b : req_body) : handler (option stock_row) :=
  if falsy (id_produk b) || not_number (jumlah_stok b)
  then fun d => (mkResponse 400 (Send "ID Produk dan Jumlah Stok wajib diisi."), d)
  else
    let id_produk := match id_produk b with Some k => k | None => "" end in
    let jumlah_stok := match jumlah_stok b with Some q => q | None => Int 0 end in
    try_catch
      (let* productResult := select_products (fun p => String.eqb (p_id_produk p) id_produk) in
       match productResult with
       | [] => ret (mkResponse 404 (Send "Produk terkait tidak ditemukan."))
       | product :: _ =>
           let nama_produk := p_nama_produk product in
           let* existingStock := select_stock (fun s => null_eqb (s_id_produk s) id_produk) in
           let* rows :=
             match existingStock with
             | existing :: _ =>
                 let newStock := plus (s_jumlah_stok existing) jumlah_stok in
                 update_stock_jumlah (fun s => null_eqb (s_id_produk s) id_produk) (Some newStock)
             | [] => insert_stock (Some id_produk) (Some nama_produk) (Some jumlah_stok)
             end in
           ret (mkResponse 201 (Json (hd_error rows)))
       end)
      (fun _ => mkResponse 500 (Send "Gagal menambah/memperbarui stok.")).

(** [PUT /api/stock/:id] *)
Definition put_stock (id : route_id) (b : req_body) : handler (option stock_row) :=
  try_catch
    (let* rows :=
       with_id (read id) (fun id => update_stock_jumlah (fun s => s_id s =? id) (jumlah_stok b)) in
     if rowCount rows =? 0
     then ret (mkResponse 404 (Send "Stok tidak ditemukan."))
     else ret (mkResponse 200 (Json (hd_error rows))))
    (fun _ => mkResponse 500 (Send "Internal Server Error")).

(** [DELETE /api/stock/:id] *)
Definition delete_stock (id : route_id) : handler unit :=
  try_catch
    (let* rows := with_id (read id) (fun id => Pg.delete_stock (fun s => s_id s =? id)) in
     if rowCount rows =? 0
     then ret (mkResponse 404 (Send "Stok tidak ditemukan."))
     else ret (mkResponse 204 NoBody))
    (fun _ => mkResponse 500 (Send "Internal Server Error")).

(** [GET /api/employees]: [SELECT * FROM employees ORDER BY id DESC] *)
Definition get_employees : handler (list employee) :=
  try_catch
    (let* rows := select_employees (fun _ => true) in
     ret (mkResponse 200 (Json (order_by_desc e_id rows))))
    (fun _ =>
       mkResponse 500
         (Send "Internal Server Error: Gagal mengambil data karyawan. Pastikan tabel employees sudah dibuat.")).

(** [POST /api/employees] *)
Definition post_employees (b : req_body) : handler (option employee) :=
  if falsy (nama b) || falsy (posisi b)
  then fun d => (mkResponse 400 (Send "Nama dan Posisi wajib diisi."), d)
  else
    try_catch
      (let* rows := insert_employee (nama b) (posisi b) (email b) in
       ret (mkResponse 201 (Json (hd_error rows))))
      (fun _ => mkResponse 500 (Send "Gagal menambah karyawan.")).

(** [PUT /api/employees/:id] *)
Definition put_employees (id : route_id) (b : req_body) : handler (option employee) :=
  try_catch
    (let* rows := with_id (read id) (fun id => update_employees id (nama b) (posisi b) (email b)) in
     if rowCount rows =? 0
     then ret (mkResponse 404 (Send "Karyawan tidak ditemukan."))
     else ret (mkResponse 200 (Json (hd_error rows))))
    (fun _ => mkResponse 500 (Send "Internal Server Error")).

(** [DELETE /api/employees/:id] *)
Definition delete_employees (id : route_id) : handler unit :=
  try_catch
    (let* rows := with_id (read id) Pg.delete_employees in
     if rowCount rows =? 0
     then ret (mkResponse 404 (Send "Karyawan tidak ditemukan."))
     else ret (mkResponse 204 NoBody))
    (fun _ => mkResponse 500 (Send "Internal Server Error")).

(** The requests that write, and the state each leaves. *)
Inductive request :=
| PostProducts (b : req_body)
| PutProducts (id : route_id) (b : req_body)
| DeleteProducts (id : route_id)
| PostStock (b : req_body)
| PutStock (id : route_id) (b : req_body)
| DeleteStock (id : route_id)
| PostEmployees (b : req_body)
| PutEmployees (id : route_id) (b : req_body)
| DeleteEmployees (id : route_id).

Definition serve (r : request) (d : db) : Z * db :=
  match r with
  | PostProducts b => let (res, d') := post_products b d in (status res, d')
  | PutProducts i b => let (res, d') := put_products i b d in (status res, d')
  | DeleteProducts i => let (res, d') := delete_products i d in (status res, d')
  | PostStock b => let (res, d') := post_stock b d in (status res, d')
  | PutStock i b => let (res, d') := put_stock i b d in (status res, d')
  | DeleteStock i => let (res, d') := delete_stock i d in (status res, d')
  | PostEmployees b => let (res, d') := post_employees b d in (status res, d')
  | PutEmployees i b => let (res, d') := put_employees i b d in (status res, d')
  | DeleteEmployees i => let (res, d') := delete_employees i d in (status res, d')
  end.

End InventoryBackend.

(** ** The constraints of the schema, as a property of a state *)

Module Schema.
Import Pg.

(** The non-NULL business keys of a stock table. *)
Definition stock_keys (l : list stock_row) : list string :=
  flat_map (fun s => match s_id_produk s with Some k => [k] | None => [] end) l.

(** What [PRIMARY KEY], [UNIQUE], [REFERENCES], the sequences and the types
    of the columns guarantee. *)
Record consistent (d : db) : Prop := mkConsistent {
  products_pkey : NoDup (map p_id (products d));
  products_id_below : forall p, In p (products d) -> p_id p < products_id_seq d;
  products_id_produk_key : NoDup (map p_id_produk (products d));
  stock_pkey : NoDup (map s_id (stock d));
  stock_id_below : forall s, In s (stock d) -> s_id s < stock_id_seq d;
  stock_id_produk_key : NoDup (stock_keys (stock d));
  stock_id_produk_fkey :
    forall s k, In s (stock d) -> s_id_produk s = Some k ->
                exists p, In p (products d) /\ p_id_produk p = k;
  employees_pkey : NoDup (map e_id (employees d));
  employees_id_below : forall e, In e (employees d) -> e_id e < employees_id_seq d;
  products_typed : forall p, In p (products d) -> typed_product p;
  stock_typed : forall s, In s (stock d) -> typed_stock s;
  employees_typed : forall e, In e (employees d) -> typed_employee e
}.

(** The states either server can bring an empty database to. *)
Inductive reachable : db -> Prop :=
| reachable_empty : reachable empty
| reachable_part000 d r :
    reachable d -> reachable (snd (Part000.serve r d))
| reachable_inventory_backend d r :
    reachable d -> reachable (snd (InventoryBackend.serve r d)).

(** The states [inventory_backend.js] alone can bring it to. *)
Inductive reachable_inventory : db -> Prop :=
| inventory_empty : reachable_inventory empty
| inventory_step d r :
    reachable_inventory d -> reachable_inventory (snd (InventoryBackend.serve r d)).

(** Every stock row carries the name of the product it references. *)
Definition synced (d : db) : Prop :=
  forall s p, In s (stock d) -> In p (products d) ->
              s_id_produk s = Some (p_id_produk p) ->
              s_nama_produk s = p_nama_produk p.

Definition sound (d : db) : Prop := consistent d /\ synced d.

(** [UPDATE ... SET] as the handlers of [inventory_backend.js] use it: what
    becomes of each row of the table. *)
Definition rename_product (id : Z) (n : string) (c : option string) (p : product) : product :=
  if p_id p =? id then set_product n c p else p.

Definition rename_stock (k n : string) (s : stock_row) : stock_row :=
  if null_eqb (s_id_produk s) k then set_nama_produk n s else s.

Definition restock (k : string) (q : Z) (s : stock_row) : stock_row :=
  if null_eqb (s_id_produk s) k then set_jumlah_stok (Some q) s else s.

(** A query that keeps [I], whether it returns or throws. *)
Definition preserves (I : db -> Prop) {A} (q : query A) : Prop :=
  forall d, I d -> I (snd (q d)).

End Schema.

(** ** The statements of the specification *)

Module Spec.
Import Pg Ilike Http Schema.







(** The fields of an update are within the types of their columns. *)
Definition product_fields_fit (b : req_body) : Prop :=
  fits 100 (nama_produk b) /\ fits 100 (kategori_produk b).



(** The three tables hold the same rows (the sequences may have moved). *)
Definition same_tables (d' d : db) : Prop :=
  products d' = products d /\ stock d' = stock d /\ employees d' = employees d.

(** The request is answered [code] and the database is left as it was,
    sequences included: no statement reached it. *)
Definition answered_unchanged {A} (code : Z) (h : handler A) (d : db) : Prop :=
  status (fst (h d)) = code /\ snd (h d) = d.

(** No stock row carries the business key [k]. *)
Definition no_stock_for (k : string) (d : db) : Prop :=
  forall s, In s (stock d) -> s_id_produk s <> Some k.

(** The columns the two stock listings share. *)
Definition part000_columns (r : Part000.stock_listing)
  : Z * option string * option string * option Z :=
  (Part000.l_id r, Part000.l_id_produk r, Some (Part000.l_nama_produk r),
   Part000.l_jumlah_stok r).

Definition inventory_columns (r : InventoryBackend.stock_listing)
  : Z * option string * option string * option Z :=
  (InventoryBackend.l_id r, InventoryBackend.l_id_produk r,
   InventoryBackend.l_nama_produk r, InventoryBackend.l_jumlah_stok r).

(** A stock row whose copy of the name is not the name of its product. *)
Definition stale (d : db) (s : stock_row) (p : product) : Prop :=
  In s (stock d) /\ In p (products d) /\
  s_id_produk s = Some (p_id_produk p) /\
  s_nama_produk s <> p_nama_produk p.

End Spec.

(** ** Further statements about the two servers *)

Module Props.
Import Pg Ilike Http Schema.






(** The statuses a route can answer with, as its handler sends them. *)
Definition part000_statuses (r : Part000.request) : list Z :=
  match r with
  | Part000.PostProducts _ => [201; 409; 500]
  | Part000.PostStock _ => [201; 400; 409; 500]
  | Part000.PostEmployees _ => [201; 500]
  | _ => [200; 404; 500]
  end.

Definition inventory_statuses (r : InventoryBackend.request) : list Z :=
  match r with
  | InventoryBackend.PostProducts _ | InventoryBackend.PostEmployees _ => [201; 400; 500]
  | InventoryBackend.PostStock _ => [201; 400; 404; 500]
  | InventoryBackend.PutProducts _ _ | InventoryBackend.PutStock _ _
  | InventoryBackend.PutEmployees _ _ => [200; 404; 500]
  | _ => [204; 404; 500]
  end.

(** The requests about employees, and those about stock rows. *)
Definition part000_on_employees (r : Part000.request) : bool :=
  match r with
  | Part000.PostEmployees _ | Part000.PutEmployees _ _ | Part000.DeleteEmployees _ => true
  | _ => false
  end.

Definition part000_on_stock (r : Part000.request) : bool :=
  match r with
  | Part000.PostStock _ | Part000.PutStock _ _ | Part000.DeleteStock _ => true
  | _ => false
  end.

Definition inventory_on_employees (r : InventoryBackend.request) : bool :=
  match r with
  | InventoryBackend.PostEmployees _ | InventoryBackend.PutEmployees _ _
  | InventoryBackend.DeleteEmployees _ => true
  | _ => false
  end.

Definition inventory_on_stock (r : InventoryBackend.request) : bool :=
  match r with
  | InventoryBackend.PostStock _ | InventoryBackend.PutStock _ _
  | InventoryBackend.DeleteStock _ => true
  | _ => false
  end.

(** What a request may touch: employee requests leave products and stock
    alone, the others leave the employees alone, and stock requests leave
    the products alone. *)
Definition within_its_tables (on_employees on_stock : bool) (d d' : db) : Prop :=
  (if on_employees
   then products d' = products d /\ stock d' = stock d
   else employees d' = employees d) /\
  (on_stock = true -> products d' = products d).

(** Every product and every stock row of [d] was in [d0] under the same id
    and the same business key, or has an id drawn from a sequence since. *)
Definition keeps_identity (d0 d : db) : Prop :=
  products_id_seq d0 <= products_id_seq d /\
  stock_id_seq d0 <= stock_id_seq d /\
  (forall p, In p (products d) ->
             products_id_seq d0 <= p_id p \/
             exists p0, In p0 (products d0) /\
                        p_id p0 = p_id p /\ p_id_produk p0 = p_id_produk p) /\
  (forall s, In s (stock d) ->
             stock_id_seq d0 <= s_id s \/
             exists s0, In s0 (stock d0) /\
                        s_id s0 = s_id s /\ s_id_produk s0 = s_id_produk s).

End Props.

(** * Facts *)

(** ** Lists *)

Section ListFacts.
Context {A B : Type}.
Implicit Types (P : A -> bool) (l : list A).

Lemma existsb_false P l :
  existsb P l = false <-> forall x, In x l -> P x = false.
Proof.
  induction l as [|a l IH]; simpl.
  - split; [intros _ x [] | reflexivity].
  - rewrite orb_false_iff, IH. split.
    + intros [Ha Hl] x [<-|Hx]; auto.
    + intros H. split; auto.
Qed.

Lemma filter_nil P l :
  (forall x, In x l -> P x = false) -> filter P l = [].
Proof.
  induction l as [|a l IH]; simpl; intros H; [reflexivity|].
  rewrite (H a (or_introl eq_refl)). apply IH. intros x Hx. apply H. now right.
Qed.

Lemma filter_id P l :
  (forall x, In x l -> P x = true) -> filter P l = l.
Proof.
  induction l as [|a l IH]; simpl; intros H; [reflexivity|].
  rewrite (H a (or_introl eq_refl)). f_equal. apply IH. intros x Hx. apply H. now right.
Qed.


Lemma map_key_update (key : A -> B) (f : A -> A) l :
  (forall x, key (f x) = key x) -> map key (map f l) = map key l.
Proof.
  intros H. rewrite map_map. apply map_ext. exact H.
Qed.

Lemma NoDup_map_filter (key : A -> B) P l :
  NoDup (map key l) -> NoDup (map key (filter P l)).
Proof.
  induction l as [|a l IH]; simpl; intros H; [constructor|].
  inversion H as [|? ? Hnot Hnd]; subst.
  destruct (P a); simpl; auto.
  constructor; auto.
  intros Hin. apply Hnot. apply in_map_iff in Hin as (x & Hx & Hin).
  apply filter_In in Hin as [Hin _]. apply in_map_iff. eauto.
Qed.

Lemma NoDup_snoc l x : NoDup l -> ~ In x l -> NoDup (l ++ [x]).
Proof.
  intros Hl Hx. apply NoDup_app; auto.
  - constructor; [intros [] | constructor].
  - intros a Ha [<-|[]]. contradiction.
Qed.
End ListFacts.

(** ** Column types and updates *)

Section Columns.
Import Pg.

Lemma length_take n s : (String.length (take n s) <= n)%nat.
Proof.
  revert s. induction n as [|n IH]; intros [|c s]; simpl; try lia.
  specialize (IH s). lia.
Qed.

Lemma varchar_fits n v : fits n v -> varchar n v = Done v.
Proof.
  destruct v as [s|]; simpl; [|reflexivity].
  intros H. apply Nat.leb_le in H. now rewrite H.
Qed.

Lemma varchar_done n v v' : varchar n v = Done v' -> fits n v'.
Proof.
  destruct v as [s|]; simpl.
  - destruct (String.length s <=? n)%nat eqn:E.
    + intros [= <-]. now apply Nat.leb_le.
    + destruct (spaces (drop n s)); [|discriminate].
      intros [= <-]. apply length_take.
  - now intros [= <-].
Qed.

(** A parameter that is NULL stays NULL, and one that is not stays so. *)
Lemma varchar_null n v v' :
  varchar n v = Done v' -> (v' = None <-> v = None).
Proof.
  destruct v as [s|]; simpl.
  - destruct (String.length s <=? n)%nat; [intros [= <-]; split; intros [=]|].
    destruct (spaces (drop n s)); [intros [= <-]; split; intros [=] | intros [=]].
  - intros [= <-]. tauto.
Qed.

Lemma integer_done v q : integer v = Done q -> typed_quantity q.
Proof.
  destruct v as [[z|]|]; simpl; try discriminate.
  - destruct (int4 z) eqn:E; [now intros [= <-]|].
    destruct (Z.abs z <? _); discriminate.
  - now intros [= <-].
Qed.

Lemma integer_int4 z : int4 z = true -> integer (Some (Int z)) = Done (Some z).
Proof. intros H. simpl. now rewrite H. Qed.

Lemma integer_raises z :
  int4 z = false -> exists e, integer (Some (Int z)) = Raise e.
Proof.
  intros H. simpl. rewrite H. destruct (Z.abs z <? _); eauto.
Qed.

Lemma varchar_raise n v e : varchar n v = Raise e -> e = string_data_right_truncation.
Proof.
  destruct v as [s|]; simpl; [|discriminate].
  destruct (String.length s <=? n)%nat; [discriminate|].
  destruct (spaces (drop n s)); [discriminate|]. now intros [= <-].
Qed.

Lemma integer_raise v e :
  integer v = Raise e ->
  e = numeric_value_out_of_range \/ e = invalid_text_representation.
Proof.
  destruct v as [[z|]|]; simpl; try discriminate.
  - destruct (int4 z); [discriminate|].
    destruct (Z.abs z <? _); intros [= <-]; auto.
  - intros [= <-]. auto.
Qed.



Lemma insert_stock_exec k n q q' d :
  integer q = Done q' -> fits 50 k -> fits 100 n ->
  insert_stock k n q d = exec_insert_stock k n q' d.
Proof.
  intros Fq Fk Fn. unfold insert_stock, bind, lift.
  now rewrite Fq, (varchar_fits _ _ Fk), (varchar_fits _ _ Fn).
Qed.

Lemma update_stock_jumlah_exec where_ q q' d :
  integer q = Done q' ->
  update_stock_jumlah where_ q d = exec_update_stock_jumlah where_ q' d.
Proof.
  intros Fq. unfold update_stock_jumlah, bind, lift. now rewrite Fq.
Qed.

Lemma update_stock_nama_exec n id d :
  fits 100 n -> update_stock_nama n id d = exec_update_stock_nama n id d.
Proof.
  intros Fn. unfold update_stock_nama, bind, lift. now rewrite (varchar_fits _ _ Fn).
Qed.



(** An INSERT against a sequence that has run out raises an error, which
    is not one of a constraint, and leaves the database as it was. *)
Lemma insert_product_exhausted k n c d :
  serial (products_id_seq d) = false ->
  exists e, insert_product k n c d = (Raise e, d) /\
            e <> foreign_key_violation /\ e <> unique_violation.
Proof.
  intros H. unfold insert_product, bind, lift.
  destruct (varchar 50 k) as [k'|e] eqn:Ek;
    [|apply varchar_raise in Ek as ->; eexists; now repeat split].
  destruct (varchar 100 n) as [n'|e] eqn:En;
    [|apply varchar_raise in En as ->; eexists; now repeat split].
  destruct (varchar 100 c) as [c'|e] eqn:Ec;
    [|apply varchar_raise in Ec as ->; eexists; now repeat split].
  unfold exec_insert_product. rewrite H. cbn [negb]. eexists. now repeat split.
Qed.

Lemma insert_stock_exhausted k n q d :
  serial (stock_id_seq d) = false ->
  exists e, insert_stock k n q d = (Raise e, d) /\
            e <> foreign_key_violation /\ e <> unique_violation.
Proof.
  intros H. unfold insert_stock, bind, lift.
  destruct (integer q) as [q'|e] eqn:Eq;
    [|apply integer_raise in Eq as [-> | ->]; eexists; now repeat split].
  destruct (varchar 50 k) as [k'|e] eqn:Ek;
    [|apply varchar_raise in Ek as ->; eexists; now repeat split].
  destruct (varchar 100 n) as [n'|e] eqn:En;
    [|apply varchar_raise in En as ->; eexists; now repeat split].
  unfold exec_insert_stock. rewrite H. cbn [negb]. eexists. now repeat split.
Qed.

Lemma insert_employee_exhausted n p m d :
  serial (employees_id_seq d) = false ->
  exists e, insert_employee n p m d = (Raise e, d) /\
            e <> foreign_key_violation /\ e <> unique_violation.
Proof.
  intros H. unfold insert_employee, bind, lift.
  destruct (varchar 100 n) as [n'|e] eqn:En;
    [|apply varchar_raise in En as ->; eexists; now repeat split].
  destruct (varchar 100 p) as [p'|e] eqn:Ep;
    [|apply varchar_raise in Ep as ->; eexists; now repeat split].
  destruct (varchar 100 m) as [m'|e] eqn:Em;
    [|apply varchar_raise in Em as ->; eexists; now repeat split].
  unfold exec_insert_employee. rewrite H. cbn [negb]. eexists. now repeat split.
Qed.

Context {A : Type}.
Implicit Types (cond : A -> bool) (set : A -> A) (l : list A).

Lemma in_update cond set l x :
  In x (update cond set l) <->
  (In x l /\ cond x = false) \/ (exists y, In y l /\ cond y = true /\ x = set y).
Proof.
  unfold update. rewrite in_app_iff, filter_In, in_map_iff, negb_true_iff.
  split.
  - intros [H|(y & <- & Hy)]; [now left|].
    apply filter_In in Hy as [Hy Hw]. right. eauto.
  - intros [H|(y & Hy & Hw & ->)]; [now left|].
    right. exists y. split; [reflexivity|]. now apply filter_In.
Qed.

Lemma update_in cond set l y :
  In y l -> In (if cond y then set y else y) (update cond set l).
Proof.
  intros Hy. apply in_update. destruct (cond y) eqn:Hw; [right; eauto | now left].
Qed.

(** The table after an update, up to the order of its rows. *)
Lemma update_permutation cond set l :
  Permutation (update cond set l) (map (fun x => if cond x then set x else x) l).
Proof.
  unfold update. induction l as [|a l IH]; simpl; [constructor|].
  destruct (cond a); simpl.
  - etransitivity; [symmetry; apply Permutation_middle|]. now constructor.
  - now constructor.
Qed.

Lemma update_keeps_key {B} (key : A -> B) cond set l :
  (forall x, key (set x) = key x) ->
  Permutation (map key (update cond set l)) (map key l).
Proof.
  intros H. etransitivity; [apply Permutation_map, update_permutation|].
  rewrite map_map. erewrite map_ext; [reflexivity|].
  intros a. simpl. now destruct (cond a).
Qed.

Lemma update_none cond set l :
  (forall x, In x l -> cond x = false) -> update cond set l = l.
Proof.
  intros H. unfold update. rewrite (filter_nil cond l H). simpl. rewrite app_nil_r.
  apply filter_id. intros x Hx. now rewrite (H x Hx).
Qed.

Lemma update_length cond set l : List.length (update cond set l) = List.length l.
Proof.
  rewrite (Permutation_length (update_permutation cond set l)). apply length_map.
Qed.
End Columns.

(** ** The query monad *)

Section Preserves.
Import Pg.
Import Schema.
Variable I : db -> Prop.

Lemma preserves_ret {A} (a : A) : preserves I (ret a).
Proof. intros d H. exact H. Qed.

Lemma preserves_bind {A B} (m : query A) (k : A -> query B) :
  preserves I m -> (forall a, preserves I (k a)) -> preserves I (bind m k).
Proof.
  intros Hm Hk d H. unfold bind.
  specialize (Hm d H). destruct (m d) as [[a|e] d']; simpl in *.
  - apply Hk, Hm.
  - exact Hm.
Qed.

Lemma preserves_try_catch {R} (body : query R) (handler : sqlstate -> R) d :
  preserves I body -> I d -> I (snd (try_catch body handler d)).
Proof.
  intros Hb H. unfold try_catch.
  specialize (Hb d H). destruct (body d) as [[a|e] d']; exact Hb.
Qed.

Lemma preserves_if {A} (c : bool) (q1 q2 : query A) :
  preserves I q1 -> preserves I q2 -> preserves I (if c then q1 else q2).
Proof. destruct c; auto. Qed.

Lemma preserves_lift {A} (o : outcome A) : preserves I (lift o).
Proof. intros d H. exact H. Qed.

Lemma preserves_with_id {A} (id : int4in) (statement : Z -> query A) :
  (forall z, preserves I (statement z)) -> preserves I (with_id id statement).
Proof. intros H. destruct id; simpl; auto using preserves_lift. Qed.

(** A coerced parameter is used only when it is within its column. *)
Lemma preserves_varchar {B} n v (k : option string -> query B) :
  (forall v', fits n v' -> preserves I (k v')) ->
  preserves I (bind (lift (varchar n v)) k).
Proof.
  intros H d Hd. unfold bind, lift.
  destruct (varchar n v) as [v'|e] eqn:E; [|exact Hd].
  apply H; [|exact Hd]. now apply varchar_done in E.
Qed.

Lemma preserves_integer {B} v (k : option Z -> query B) :
  (forall q, typed_quantity q -> preserves I (k q)) ->
  preserves I (bind (lift (integer v)) k).
Proof.
  intros H d Hd. unfold bind, lift.
  destruct (integer v) as [q|e] eqn:E; [|exact Hd].
  apply H; [|exact Hd]. now apply integer_done in E.
Qed.
End Preserves.

(** ** Every statement keeps the constraints *)

Section Constraints.
Import Pg Schema.

Lemma in_stock_keys k l :
  In k (stock_keys l) <-> exists s, In s l /\ s_id_produk s = Some k.
Proof.
  unfold stock_keys. rewrite in_flat_map. split.
  - intros (s & Hs & Hk). exists s. split; auto.
    destruct (s_id_produk s); simpl in Hk; [|contradiction].
    destruct Hk as [->|[]]. reflexivity.
  - intros (s & Hs & Hk). exists s. split; auto. rewrite Hk. now left.
Qed.

Lemma stock_keys_filter P l :
  NoDup (stock_keys l) -> NoDup (stock_keys (filter P l)).
Proof.
  induction l as [|s l IH]; simpl; intros H; [constructor|].
  assert (Hl : NoDup (stock_keys l)).
  { destruct (s_id_produk s); simpl in H; [now inversion H | exact H]. }
  destruct (P s); simpl; auto.
  destruct (s_id_produk s) as [k|] eqn:Hk; simpl in *; auto.
  inversion H as [|? ? Hnot _]; subst. constructor; auto.
  intros Hin. apply Hnot. apply in_stock_keys in Hin as (x & Hx & Hxk).
  apply filter_In in Hx as [Hx _]. apply in_stock_keys. eauto.
Qed.

Lemma stock_keys_map (f : stock_row -> stock_row) l :
  (forall s, s_id_produk (f s) = s_id_produk s) ->
  stock_keys (map f l) = stock_keys l.
Proof.
  intros H. induction l as [|s l IH]; simpl; [reflexivity|].
  now rewrite H, IH.
Qed.

Lemma stock_keys_snoc l s :
  stock_keys (l ++ [s]) =
  stock_keys l ++ match s_id_produk s with Some k => [k] | None => [] end.
Proof.
  unfold stock_keys. rewrite flat_map_app. simpl. now rewrite app_nil_r.
Qed.

Lemma update_keeps_stock_keys where_ (set : stock_row -> stock_row) l :
  (forall s, s_id_produk (set s) = s_id_produk s) ->
  Permutation (stock_keys (update where_ set l)) (stock_keys l).
Proof.
  intros H. unfold stock_keys at 1.
  rewrite (Permutation_flat_map _ (update_permutation where_ set l)).
  fold (stock_keys (map (fun x => if where_ x then set x else x) l)).
  rewrite stock_keys_map; [reflexivity|].
  intros s. now destruct (where_ s).
Qed.

Lemma not_in_ids {A} (key : A -> Z) (l : list A) (id : Z) :
  (forall x, In x l -> key x < id) -> ~ In id (map key l).
Proof.
  intros H Hin. apply in_map_iff in Hin as (x & Hx & Hin).
  specialize (H x Hin). lia.
Qed.

Lemma below_snoc {A} (key : A -> Z) (l : list A) (x : A) (id : Z) :
  (forall y, In y l -> key y < id) -> key x = id ->
  forall y, In y (l ++ [x]) -> key y < id + 1.
Proof.
  intros H Hx y Hy. apply in_app_iff in Hy as [Hy|[<-|[]]].
  - specialize (H y Hy). lia.
  - lia.
Qed.

Lemma below_next {A} (key : A -> Z) (l : list A) (id : Z) :
  (forall y, In y l -> key y < id) -> forall y, In y l -> key y < id + 1.
Proof. intros H y Hy. specialize (H y Hy). lia. Qed.

Lemma exec_insert_product_consistent k n c :
  fits 50 k -> fits 100 n -> fits 100 c ->
  preserves consistent (exec_insert_product k n c).
Proof.
  intros Fk Fn Fc d [H1 H2 H3 H4 H5 H6 H7 H8 H9 T1 T2 T3]. unfold exec_insert_product.
  assert (Hnext : consistent
            (mkDb (products d) (stock d) (employees d)
                  (products_id_seq d + 1) (stock_id_seq d) (employees_id_seq d))).
  { constructor; simpl; auto; intros x Hx;
    first [specialize (H2 x Hx) | specialize (H5 x Hx) | specialize (H9 x Hx)]; lia. }
  destruct (serial _); cbn [negb]; [|now constructor].
  destruct k as [k|], n as [n|]; simpl; auto.
  destruct (existsb (fun p => p_id p =? _) _) eqn:Hid; simpl; auto.
  destruct (existsb (fun p => String.eqb (p_id_produk p) k) _) eqn:Hkey; simpl; auto.
  rewrite existsb_false in Hkey.
  constructor; simpl; auto.
  - rewrite map_app. simpl. apply NoDup_snoc; auto.
    apply not_in_ids. exact H2.
  - apply below_snoc; auto.
  - rewrite map_app. simpl. apply NoDup_snoc; auto.
    intros Hin. apply in_map_iff in Hin as (p & Hp & Hin).
    specialize (Hkey p Hin). apply String.eqb_neq in Hkey. contradiction.
  - intros s k' Hs Hk'. destruct (H7 s k' Hs Hk') as (p & Hp & Hpk).
    exists p. split; auto. apply in_app_iff. now left.
  - intros p Hp. apply in_app_iff in Hp as [Hp|[<-|[]]]; auto.
    repeat split; assumption.
Qed.

Lemma insert_product_consistent k n c : preserves consistent (insert_product k n c).
Proof.
  unfold insert_product.
  apply preserves_varchar; intros k' Fk.
  apply preserves_varchar; intros n' Fn.
  apply preserves_varchar; intros c' Fc.
  now apply exec_insert_product_consistent.
Qed.

Lemma exec_update_products_consistent where_ n c :
  fits 100 n -> fits 100 c ->
  preserves consistent (exec_update_products where_ n c).
Proof.
  intros Fn Fc d [H1 H2 H3 H4 H5 H6 H7 H8 H9 T1 T2 T3]. unfold exec_update_products.
  destruct (existsb where_ (products d)); [|constructor; auto].
  destruct n as [n|]; simpl; [|constructor; auto].
  set (set := set_product n c).
  constructor; simpl; auto.
  - eapply Permutation_NoDup; [|exact H1].
    symmetry. now apply update_keeps_key.
  - intros p Hp. apply in_update in Hp as [[Hp _]|(p0 & Hp0 & _ & ->)]; simpl; auto.
  - eapply Permutation_NoDup; [|exact H3].
    symmetry. now apply update_keeps_key.
  - intros s k Hs Hk. destruct (H7 s k Hs Hk) as (p & Hp & Hpk).
    exists (if where_ p then set p else p). split; [now apply update_in|].
    now destruct (where_ p).
  - intros p Hp. apply in_update in Hp as [[Hp _]|(p0 & Hp0 & _ & ->)]; auto.
    destruct (T1 p0 Hp0) as (Tk & _ & _). repeat split; assumption.
Qed.

Lemma update_products_consistent where_ n c :
  preserves consistent (update_products where_ n c).
Proof.
  unfold update_products.
  apply preserves_varchar; intros n' Fn.
  apply preserves_varchar; intros c' Fc.
  now apply exec_update_products_consistent.
Qed.

Lemma delete_products_consistent where_ :
  preserves consistent (delete_products where_).
Proof.
  intros d [H1 H2 H3 H4 H5 H6 H7 H8 H9 T1 T2 T3]. unfold delete_products. simpl.
  constructor; simpl; auto using NoDup_map_filter, stock_keys_filter.
  - intros p Hp. apply filter_In in Hp as [Hp _]. auto.
  - intros s Hs. apply filter_In in Hs as [Hs _]. auto.
  - intros s k Hs Hk. apply filter_In in Hs as [Hs Href].
    destruct (H7 s k Hs Hk) as (p & Hp & Hpk).
    exists p. split; auto. apply filter_In. split; auto.
    destruct (where_ p) eqn:Hw; auto.
    unfold references in Href. rewrite Hk in Href.
    apply negb_true_iff in Href. rewrite existsb_false in Href.
    specialize (Href p). rewrite filter_In in Href.
    specialize (Href (conj Hp Hw)). rewrite Hpk, String.eqb_refl in Href. discriminate.
  - intros p Hp. apply filter_In in Hp as [Hp _]. auto.
  - intros s Hs. apply filter_In in Hs as [Hs _]. auto.
Qed.

Lemma exec_insert_stock_consistent k n q :
  fits 50 k -> fits 100 n -> typed_quantity q ->
  preserves consistent (exec_insert_stock k n q).
Proof.
  intros Fk Fn Fq d [H1 H2 H3 H4 H5 H6 H7 H8 H9 T1 T2 T3]. unfold exec_insert_stock.
  assert (Hnext : consistent
            (mkDb (products d) (stock d) (employees d)
                  (products_id_seq d) (stock_id_seq d + 1) (employees_id_seq d))).
  { constructor; simpl; auto; intros x Hx;
    first [specialize (H2 x Hx) | specialize (H5 x Hx) | specialize (H9 x Hx)]; lia. }
  destruct (serial _); cbn [negb]; [|now constructor].
  destruct n as [n|]; simpl; auto.
  destruct (existsb (fun s => s_id s =? _) _) eqn:Hid; simpl; auto.
  destruct (match k with Some k0 => existsb _ (stock d) | None => false end) eqn:Hkey;
    simpl; auto.
  destruct (match k with Some k0 => negb _ | None => false end) eqn:Hfk; simpl; auto.
  constructor; simpl; auto.
  - rewrite map_app. simpl. apply NoDup_snoc; auto.
    apply not_in_ids. exact H5.
  - apply below_snoc; auto.
  - rewrite stock_keys_snoc. simpl. destruct k as [k|]; [|now rewrite app_nil_r].
    apply NoDup_snoc; auto. rewrite existsb_false in Hkey.
    intros Hin. apply in_stock_keys in Hin as (s & Hs & Hsk).
    specialize (Hkey s Hs). unfold null_eqb in Hkey. rewrite Hsk, String.eqb_refl in Hkey.
    discriminate.
  - intros s k' Hs Hk'. apply in_app_iff in Hs as [Hs|[<-|[]]]; eauto.
    simpl in Hk'. subst k. apply negb_false_iff in Hfk.
    apply existsb_exists in Hfk as (p & Hp & Hpk). apply String.eqb_eq in Hpk. eauto.
  - intros s Hs. apply in_app_iff in Hs as [Hs|[<-|[]]]; auto.
    repeat split; assumption.
Qed.

Lemma insert_stock_consistent k n q : preserves consistent (insert_stock k n q).
Proof.
  unfold insert_stock.
  apply preserves_integer; intros q' Fq.
  apply preserves_varchar; intros k' Fk.
  apply preserves_varchar; intros n' Fn.
  now apply exec_insert_stock_consistent.
Qed.

Lemma exec_update_stock_jumlah_consistent where_ q :
  typed_quantity q ->
  preserves consistent (exec_update_stock_jumlah where_ q).
Proof.
  intros Fq d [H1 H2 H3 H4 H5 H6 H7 H8 H9 T1 T2 T3]. unfold exec_update_stock_jumlah. simpl.
  set (set := set_jumlah_stok q).
  constructor; simpl; auto.
  - eapply Permutation_NoDup; [|exact H4].
    symmetry. now apply update_keeps_key.
  - intros s Hs. apply in_update in Hs as [[Hs _]|(s0 & Hs0 & _ & ->)]; simpl; auto.
  - eapply Permutation_NoDup; [|exact H6].
    symmetry. now apply update_keeps_stock_keys.
  - intros s k Hs Hk. apply in_update in Hs as [[Hs _]|(s0 & Hs0 & _ & ->)]; eauto.
  - intros s Hs. apply in_update in Hs as [[Hs _]|(s0 & Hs0 & _ & ->)]; auto.
    destruct (T2 s0 Hs0) as (Tk & Tn & _). repeat split; assumption.
Qed.

Lemma update_stock_jumlah_consistent where_ q :
  preserves consistent (update_stock_jumlah where_ q).
Proof.
  unfold update_stock_jumlah.
  apply preserves_integer; intros q' Fq.
  now apply exec_update_stock_jumlah_consistent.
Qed.

Lemma exec_update_stock_nama_consistent n id :
  fits 100 n ->
  preserves consistent (exec_update_stock_nama n id).
Proof.
  intros Fn d [H1 H2 H3 H4 H5 H6 H7 H8 H9 T1 T2 T3]. unfold exec_update_stock_nama.
  destruct (scalar _) as [[k|]|e]; simpl; try (constructor; now auto).
  destruct (existsb _ _); simpl; [|constructor; now auto].
  destruct n as [n|]; simpl; [|constructor; now auto].
  set (set := set_nama_produk n).
  constructor; simpl; auto.
  - eapply Permutation_NoDup; [|exact H4].
    symmetry. now apply update_keeps_key.
  - intros s Hs. apply in_update in Hs as [[Hs _]|(s0 & Hs0 & _ & ->)]; simpl; auto.
  - eapply Permutation_NoDup; [|exact H6].
    symmetry. now apply update_keeps_stock_keys.
  - intros s k' Hs Hk. apply in_update in Hs as [[Hs _]|(s0 & Hs0 & _ & ->)]; eauto.
  - intros s Hs. apply in_update in Hs as [[Hs _]|(s0 & Hs0 & _ & ->)]; auto.
    destruct (T2 s0 Hs0) as (Tk & _ & Tq). repeat split; assumption.
Qed.

Lemma update_stock_nama_consistent n id :
  preserves consistent (update_stock_nama n id).
Proof.
  unfold update_stock_nama.
  apply preserves_varchar; intros n' Fn.
  now apply exec_update_stock_nama_consistent.
Qed.

Lemma delete_stock_consistent where_ : preserves consistent (Pg.delete_stock where_).
Proof.
  intros d [H1 H2 H3 H4 H5 H6 H7 H8 H9 T1 T2 T3]. unfold Pg.delete_stock. simpl.
  constructor; simpl; auto using NoDup_map_filter, stock_keys_filter.
  - intros s Hs. apply filter_In in Hs as [Hs _]. auto.
  - intros s k Hs Hk. apply filter_In in Hs as [Hs _]. eauto.
  - intros s Hs. apply filter_In in Hs as [Hs _]. auto.
Qed.

Lemma exec_insert_employee_consistent n p m :
  fits 100 n -> fits 100 p -> fits 100 m ->
  preserves consistent (exec_insert_employee n p m).
Proof.
  intros Fn Fp Fm d [H1 H2 H3 H4 H5 H6 H7 H8 H9 T1 T2 T3]. unfold exec_insert_employee.
  assert (Hnext : consistent
            (mkDb (products d) (stock d) (employees d)
                  (products_id_seq d) (stock_id_seq d) (employees_id_seq d + 1))).
  { constructor; simpl; auto; intros x Hx;
    first [specialize (H2 x Hx) | specialize (H5 x Hx) | specialize (H9 x Hx)]; lia. }
  destruct (serial _); cbn [negb]; [|now constructor].
  destruct n as [n|]; simpl; auto.
  destruct (existsb _ _) eqn:Hid; simpl; auto.
  constructor; simpl; auto.
  - rewrite map_app. simpl. apply NoDup_snoc; auto.
    apply not_in_ids. exact H9.
  - apply below_snoc; auto.
  - intros e He. apply in_app_iff in He as [He|[<-|[]]]; auto.
    repeat split; assumption.
Qed.

Lemma insert_employee_consistent n p m : preserves consistent (insert_employee n p m).
Proof.
  unfold insert_employee.
  apply preserves_varchar; intros n' Fn.
  apply preserves_varchar; intros p' Fp.
  apply preserves_varchar; intros m' Fm.
  now apply exec_insert_employee_consistent.
Qed.

Lemma exec_update_employees_consistent id n p m :
  fits 100 n -> fits 100 p -> fits 100 m ->
  preserves consistent (exec_update_employees id n p m).
Proof.
  intros Fn Fp Fm d [H1 H2 H3 H4 H5 H6 H7 H8 H9 T1 T2 T3]. unfold exec_update_employees.
  destruct (existsb _ _); [|constructor; now auto].
  destruct n as [n|]; simpl; [|constructor; now auto].
  set (set := set_employee n p m).
  constructor; simpl; auto.
  - eapply Permutation_NoDup; [|exact H8].
    symmetry. now apply update_keeps_key.
  - intros e He. apply in_update in He as [[He _]|(e0 & He0 & _ & ->)]; simpl; auto.
  - intros e He. apply in_update in He as [[He _]|(e0 & He0 & _ & ->)]; auto.
    repeat split; assumption.
Qed.

Lemma update_employees_consistent id n p m :
  preserves consistent (update_employees id n p m).
Proof.
  unfold update_employees.
  apply preserves_varchar; intros n' Fn.
  apply preserves_varchar; intros p' Fp.
  apply preserves_varchar; intros m' Fm.
  now apply exec_update_employees_consistent.
Qed.

Lemma delete_employees_consistent id : preserves consistent (Pg.delete_employees id).
Proof.
  intros d [H1 H2 H3 H4 H5 H6 H7 H8 H9 T1 T2 T3]. unfold Pg.delete_employees. simpl.
  constructor; simpl; auto using NoDup_map_filter.
  - intros e He. apply filter_In in He as [He _]. auto.
  - intros e He. apply filter_In in He as [He _]. auto.
Qed.

Lemma select_consistent {A} (rows : db -> list A) :
  preserves consistent (fun d => (Done (rows d), d)).
Proof. intros d H. exact H. Qed.

Lemma empty_consistent : consistent empty.
Proof.
  constructor; simpl; intros; try constructor; contradiction.
Qed.
End Constraints.

(** ** Every request keeps the constraints *)

Create HintDb pg discriminated.

#[local] Hint Resolve preserves_ret preserves_bind preserves_if
  insert_product_consistent update_products_consistent delete_products_consistent
  insert_stock_consistent update_stock_jumlah_consistent update_stock_nama_consistent
  delete_stock_consistent insert_employee_consistent update_employees_consistent
  delete_employees_consistent select_consistent preserves_with_id preserves_lift : pg.

Ltac keeps :=
  intros; apply preserves_try_catch; [|assumption];
  repeat first
    [ apply preserves_bind; [solve [auto with pg]|intros ?]
    | apply preserves_if
    | apply preserves_ret
    | solve [auto with pg] ].

Section Requests.
Import Pg Http Schema.

Lemma snd_serve {A} (h : handler A) d :
  snd (let (res, d') := h d in (status res, d')) = snd (h d).
Proof. now destruct (h d). Qed.

Lemma part000_serve_consistent r d :
  consistent d -> consistent (snd (Part000.serve r d)).
Proof.
  intros H. destruct r; simpl; rewrite snd_serve.
  - unfold Part000.post_products. keeps.
  - unfold Part000.put_products. keeps.
  - unfold Part000.delete_products. keeps.
  - unfold Part000.post_stock. keeps.
  - unfold Part000.put_stock. keeps.
  - unfold Part000.delete_stock. keeps.
  - unfold Part000.post_employees. keeps.
  - unfold Part000.put_employees. keeps.
  - unfold Part000.delete_employees. keeps.
Qed.

Lemma inventory_post_stock_consistent b d :
  consistent d -> consistent (snd (InventoryBackend.post_stock b d)).
Proof.
  intros H. unfold InventoryBackend.post_stock.
  destruct (falsy (id_produk b) || not_number (jumlah_stok b)); [exact H|].
  apply preserves_try_catch; [|assumption].
  apply preserves_bind; [unfold select_products; auto with pg|].
  intros [|product rows]; [apply preserves_ret|].
  apply preserves_bind; [unfold select_stock; auto with pg|].
  intros [|existing rest]; (apply preserves_bind; [auto with pg|intros; apply preserves_ret]).
Qed.

Lemma inventory_serve_consistent r d :
  consistent d -> consistent (snd (InventoryBackend.serve r d)).
Proof.
  intros H. destruct r; simpl; rewrite snd_serve.
  - unfold InventoryBackend.post_products.
    destruct (falsy (id_produk b) || falsy (nama_produk b)); [exact H|]. keeps.
  - unfold InventoryBackend.put_products. keeps.
  - unfold InventoryBackend.delete_products. keeps.
  - now apply inventory_post_stock_consistent.
  - unfold InventoryBackend.put_stock. keeps.
  - unfold InventoryBackend.delete_stock. keeps.
  - unfold InventoryBackend.post_employees.
    destruct (falsy (nama b) || falsy (posisi b)); [exact H|]. keeps.
  - unfold InventoryBackend.put_employees. keeps.
  - unfold InventoryBackend.delete_employees. keeps.
Qed.

Lemma reachable_consistent d : reachable d -> consistent d.
Proof.
  induction 1 as [|d r _ IH|d r _ IH].
  - exact empty_consistent.
  - now apply part000_serve_consistent.
  - now apply inventory_serve_consistent.
Qed.
End Requests.

(** ** [ILIKE] against substring search *)

Section IlikeFacts.
Import Ilike.



Lemma lower_string_app (s t : string) :
  lower_string (s ++ t) = (lower_string s ++ lower_string t)%string.
Proof.
  induction s as [|c s IH]; simpl; [reflexivity|]. now rewrite IH.
Qed.






Lemma lower_pattern s :
  lower_string (Part000.pattern s) = Part000.pattern (lower_string s).
Proof.
  unfold Part000.pattern. simpl. now rewrite lower_string_app.
Qed.



(** What [prefixb] and [infixb] decide. *)
Lemma prefixb_spec s text :
  prefixb s text = true <-> exists post, text = (s ++ post)%string.
Proof.
  revert text. induction s as [|c s IH]; intros text; simpl.
  - split; [intros _; now exists text | reflexivity].
  - destruct text as [|a t].
    + split; [discriminate | intros [post H]; discriminate].
    + rewrite andb_true_iff, Ascii.eqb_eq, IH. split.
      * intros [-> [post ->]]. now exists post.
      * intros [post H]. injection H as -> ->. split; eauto.
Qed.

Lemma infixb_spec s text :
  infixb s text = true <-> exists pre post, text = (pre ++ s ++ post)%string.
Proof.
  induction text as [|a t IH].
  - simpl. rewrite orb_false_r, prefixb_spec. split.
    + intros [post H]. exists EmptyString, post. exact H.
    + intros (pre & post & H). destruct pre; [now exists post|discriminate].
  - simpl. rewrite orb_true_iff, prefixb_spec, IH. split.
    + intros [[post H]|(pre & post & H)].
      * exists EmptyString, post. exact H.
      * exists (String a pre), post. simpl. now rewrite H.
    + intros (pre & post & H). destruct pre as [|b pre].
      * left. now exists post.
      * right. simpl in H. injection H as -> ->. eauto.
Qed.

Lemma contains_ci_spec s text :
  contains_ci s text = true <->
  exists pre post, lower_string text = (pre ++ lower_string s ++ post)%string.
Proof. apply infixb_spec. Qed.

End IlikeFacts.

(** * The properties of the specification *)

(** ** Search (C8) *)

Section Search.
Import Pg Ilike Http Spec.


End Search.




(** ** Creating a product twice (C2) *)

Section CreateTwice.
Import Pg Http Schema Spec.

Lemma existsb_id_fresh {A} (key : A -> Z) (l : list A) (id : Z) :
  (forall x, In x l -> key x < id) -> existsb (fun x => key x =? id) l = false.
Proof.
  intros H. apply existsb_false. intros x Hx. specialize (H x Hx). lia.
Qed.





Lemma falsy_some s : s <> "" -> falsy (Some s) = false.
Proof. intros H. simpl. now apply String.eqb_neq. Qed.
End CreateTwice.




(** ** Required fields (C7) *)

Section Required.
Import Pg Http Spec.

Lemma insert_product_null k n c d :
  k = None \/ n = None ->
  exists e d',
    insert_product k n c d = (Raise e, d') /\
    (e = string_data_right_truncation \/ e = sequence_generator_limit_exceeded \/
     e = not_null_violation) /\
    same_tables d' d.
Proof.
  intros H. unfold insert_product, bind, lift.
  destruct (varchar 50 k) as [k'|e] eqn:Ek;
    [|exists e, d; apply varchar_raise in Ek; now repeat split; auto].
  destruct (varchar 100 n) as [n'|e] eqn:En;
    [|exists e, d; apply varchar_raise in En; now repeat split; auto].
  destruct (varchar 100 c) as [c'|e] eqn:Ec;
    [|exists e, d; apply varchar_raise in Ec; now repeat split; auto].
  apply varchar_null in Ek, En.
  assert (H' : k' = None \/ n' = None) by tauto.
  unfold exec_insert_product.
  destruct (serial _); cbn [negb];
    [|exists sequence_generator_limit_exceeded, d; repeat split; auto].
  exists not_null_violation. eexists.
  destruct H' as [-> | ->]; [|destruct k']; (split; [reflexivity|]); now repeat split; auto.
Qed.

Lemma insert_employee_null p m d :
  exists e d',
    insert_employee None p m d = (Raise e, d') /\
    (e = string_data_right_truncation \/ e = sequence_generator_limit_exceeded \/
     e = not_null_violation) /\
    same_tables d' d.
Proof.
  unfold insert_employee, bind, lift. simpl varchar at 1.
  destruct (varchar 100 p) as [p'|e] eqn:Ep;
    [|exists e, d; apply varchar_raise in Ep; now repeat split; auto].
  destruct (varchar 100 m) as [m'|e] eqn:Em;
    [|exists e, d; apply varchar_raise in Em; now repeat split; auto].
  unfold exec_insert_employee.
  destruct (serial _); cbn [negb];
    [|exists sequence_generator_limit_exceeded, d; repeat split; auto].
  exists not_null_violation. eexists.
  split; [reflexivity|]. now repeat split; auto.
Qed.
End Required.

(** C7, as the code has it: [inventory_backend.js] answers 400, before any
    statement and with the database unchanged, a product create whose
    business key or name is absent or empty and an employee create whose
    name or position is absent or empty.  [part_000] checks nothing before
    the [INSERT]: a product create without key or name and an employee
    create without name are refused by the [NOT NULL] constraint and
    answered 500, the three tables unchanged. *)
Theorem C7_required_fields (d : Pg.db) (b : Http.req_body) :
  (Http.falsy (Http.id_produk b) || Http.falsy (Http.nama_produk b) = true ->
   InventoryBackend.post_products b d
   = (Http.mkResponse 400 (Http.Send "ID Produk dan Nama Produk wajib diisi."), d)) /\
  (Http.falsy (Http.nama b) || Http.falsy (Http.posisi b) = true ->
   InventoryBackend.post_employees b d
   = (Http.mkResponse 400 (Http.Send "Nama dan Posisi wajib diisi."), d)) /\
  (Http.id_produk b = None \/ Http.nama_produk b = None ->
   Http.status (fst (Part000.post_products b d)) = 500 /\
   Spec.same_tables (snd (Part000.post_products b d)) d) /\
  (Http.nama b = None ->
   Http.status (fst (Part000.post_employees b d)) = 500 /\
   Spec.same_tables (snd (Part000.post_employees b d)) d).
Proof.
  split; [|split; [|split]].
  - intros H. unfold InventoryBackend.post_products. now rewrite H.
  - intros H. unfold InventoryBackend.post_employees. now rewrite H.
  - intros H.
    destruct (insert_product_null _ _ (Http.kategori_produk b) d H) as (e & d' & E & He & Hd).
    unfold Part000.post_products, Pg.try_catch, Pg.bind. rewrite E.
    now destruct He as [-> | [-> | ->]].
  - intros H.
    destruct (insert_employee_null (Http.posisi b) (Http.email b) d) as (e & d' & E & He & Hd).
    unfold Part000.post_employees, Pg.try_catch, Pg.bind. rewrite H, E.
    now destruct He as [-> | [-> | ->]].
Qed.

Lemma C7_required_fields_witness :
  let b := Http.mkBody (Some "P1") None None None None None None in
  InventoryBackend.post_products b Pg.empty
  = (Http.mkResponse 400 (Http.Send "ID Produk dan Nama Produk wajib diisi."), Pg.empty) /\
  InventoryBackend.post_employees b Pg.empty
  = (Http.mkResponse 400 (Http.Send "Nama dan Posisi wajib diisi."), Pg.empty) /\
  Http.status (fst (Part000.post_products b Pg.empty)) = 500 /\
  Http.status (fst (Part000.post_employees b Pg.empty)) = 500.
Proof.
  intros b.
  destruct (C7_required_fields Pg.empty b) as (H1 & H2 & H3 & H4).
  split; [apply H1; reflexivity|].
  split; [apply H2; reflexivity|].
  split; [apply H3; right; reflexivity | apply H4; reflexivity].
Defined.

(** C7 as stated fails: [part_000] answers an employee create without a
    position with 201 and inserts the row. *)
Lemma C7_part000_accepts_missing_position :
  ~ (forall d b,
        (Http.id_produk b = None \/ Http.nama_produk b = None ->
         Spec.answered_unchanged 400 (InventoryBackend.post_products b) d /\
         Spec.answered_unchanged 400 (Part000.post_products b) d) /\
        (Http.nama b = None \/ Http.posisi b = None ->
         Spec.answered_unchanged 400 (InventoryBackend.post_employees b) d /\
         Spec.answered_unchanged 400 (Part000.post_employees b) d)).
Proof.
  intros H.
  destruct (H Pg.empty (Http.mkBody None None None None (Some "Ana") None None))
    as [_ Hemp].
  destruct Hemp as [_ [Hstatus _]]; [now right|].
  vm_compute in Hstatus. discriminate Hstatus.
Qed.

(** ** Stock for a product that does not exist (C5) *)

Section NoProduct.
Import Pg Http Schema Spec.


Lemma existsb_no_stock k d :
  no_stock_for k d -> existsb (fun s => null_eqb (s_id_produk s) k) (stock d) = false.
Proof.
  intros H. apply existsb_false. intros s Hs. specialize (H s Hs).
  unfold null_eqb. destruct (s_id_produk s) as [k'|]; [|reflexivity].
  apply String.eqb_neq. congruence.
Qed.




End NoProduct.




(** ** Updating or deleting what is not there (C6) *)

Section NotFound.
Import Pg Http Schema Spec.





Lemma update_stock_jumlah_raise where_ q e d :
  integer q = Raise e -> update_stock_jumlah where_ q d = (Raise e, d).
Proof.
  intros Fq. unfold update_stock_jumlah, bind, lift. now rewrite Fq.
Qed.




Lemma null_eqb_none k d s :
  no_stock_for k d -> In s (stock d) -> null_eqb (s_id_produk s) k = false.
Proof.
  intros H Hs. specialize (H s Hs). unfold null_eqb.
  destruct (s_id_produk s) as [k'|]; [|reflexivity].
  apply String.eqb_neq. congruence.
Qed.
End NotFound.






(** ** Keys select one row *)

Section Unique.
Import Pg Schema Spec.

Lemma filter_map_comm {A} (P : A -> bool) (f : A -> A) (l : list A) :
  (forall x, P (f x) = P x) -> filter P (map f l) = map f (filter P l).
Proof.
  intros H. induction l as [|a l IH]; simpl; [reflexivity|].
  rewrite H. destruct (P a); simpl; now rewrite IH.
Qed.

Lemma NoDup_map_inj {A B} (key : A -> B) (l : list A) x y :
  NoDup (map key l) -> In x l -> In y l -> key x = key y -> x = y.
Proof.
  induction l as [|a l IH]; simpl; intros Hnd Hx Hy Hk; [contradiction|].
  inversion Hnd as [|? ? Hnot Hnd']; subst.
  destruct Hx as [<-|Hx], Hy as [<-|Hy]; auto.
  - exfalso. apply Hnot. rewrite Hk. now apply in_map.
  - exfalso. apply Hnot. rewrite <- Hk. now apply in_map.
Qed.

Lemma filter_unique {A} (P : A -> bool) (l : list A) x :
  NoDup l -> In x l -> P x = true ->
  (forall y, In y l -> P y = true -> y = x) -> filter P l = [x].
Proof.
  induction l as [|a l IH]; simpl; intros Hnd Hx Px Huniq; [contradiction|].
  inversion Hnd as [|? ? Hnot Hnd']; subst.
  destruct Hx as [->|Hx].
  - rewrite Px. f_equal. apply filter_nil. intros y Hy.
    destruct (P y) eqn:Py; [|reflexivity].
    exfalso. apply Hnot. now rewrite <- (Huniq y (or_intror Hy) Py).
  - destruct (P a) eqn:Pa.
    + exfalso. apply Hnot. now rewrite (Huniq a (or_introl eq_refl) Pa).
    + apply IH; auto.
Qed.

Lemma select_product_by_id d p :
  consistent d -> In p (products d) ->
  filter (fun p' => p_id p' =? p_id p) (products d) = [p].
Proof.
  intros H Hp. apply filter_unique; auto.
  - exact (NoDup_map_inv _ _ (products_pkey d H)).
  - apply Z.eqb_refl.
  - intros y Hy Hid. apply Z.eqb_eq in Hid.
    exact (NoDup_map_inj p_id _ y p (products_pkey d H) Hy Hp Hid).
Qed.

Lemma select_product_by_key d p :
  consistent d -> In p (products d) ->
  filter (fun p' => String.eqb (p_id_produk p') (p_id_produk p)) (products d) = [p].
Proof.
  intros H Hp. apply filter_unique; auto.
  - exact (NoDup_map_inv _ _ (products_pkey d H)).
  - apply String.eqb_refl.
  - intros y Hy Hk. apply String.eqb_eq in Hk.
    exact (NoDup_map_inj p_id_produk _ y p (products_id_produk_key d H) Hy Hp Hk).
Qed.

Lemma filter_stock_key l s k :
  NoDup (stock_keys l) -> In s l -> s_id_produk s = Some k ->
  filter (fun s' => null_eqb (s_id_produk s') k) l = [s].
Proof.
  induction l as [|a l IH]; simpl; intros Hnd Hs Hk; [contradiction|].
  destruct Hs as [->|Hs].
  - rewrite Hk in *. simpl in *. rewrite String.eqb_refl. f_equal.
    inversion Hnd as [|? ? Hnot _]; subst.
    apply filter_nil. intros y Hy. unfold null_eqb.
    destruct (s_id_produk y) as [k'|] eqn:Hy'; [|reflexivity].
    apply String.eqb_neq. intros ->. apply Hnot. apply in_stock_keys. eauto.
  - assert (Hin : In k (stock_keys l)) by (apply in_stock_keys; eauto).
    destruct (s_id_produk a) as [k'|] eqn:Ha; simpl in *.
    + inversion Hnd as [|? ? Hnot Hnd']; subst.
      replace (String.eqb k' k) with false; [now apply IH|].
      symmetry. apply String.eqb_neq. intros ->. contradiction.
    + now apply IH.
Qed.

Lemma null_eqb_eq column k : null_eqb column k = true <-> column = Some k.
Proof.
  unfold null_eqb. destruct column as [k'|].
  - rewrite String.eqb_eq. split; congruence.
  - split; discriminate.
Qed.

Lemma select_stock_by_key d s k :
  consistent d -> In s (stock d) -> s_id_produk s = Some k ->
  filter (fun s' => null_eqb (s_id_produk s') k) (stock d) = [s].
Proof.
  intros H. apply filter_stock_key. exact (stock_id_produk_key d H).
Qed.

Lemma select_stock_none d k :
  no_stock_for k d ->
  filter (fun s => null_eqb (s_id_produk s) k) (stock d) = [].
Proof.
  intros H. apply filter_nil. intros s Hs. now apply (null_eqb_none k d).
Qed.

Lemma exec_insert_stock_fresh d p n q :
  consistent d -> In p (products d) -> no_stock_for (p_id_produk p) d ->
  serial (stock_id_seq d) = true ->
  exec_insert_stock (Some (p_id_produk p)) (Some n) q d
  = (Done [mkStock (stock_id_seq d) (Some (p_id_produk p)) n q],
     mkDb (products d)
          (stock d ++ [mkStock (stock_id_seq d) (Some (p_id_produk p)) n q])
          (employees d)
          (products_id_seq d) (stock_id_seq d + 1) (employees_id_seq d)).
Proof.
  intros H Hp Hk Hs. unfold exec_insert_stock. rewrite Hs. cbn [negb].
  rewrite existsb_id_fresh by apply (stock_id_below d H).
  rewrite existsb_no_stock by exact Hk.
  replace (existsb _ (products d)) with true; [reflexivity|].
  symmetry. apply existsb_exists. exists p. split; auto. apply String.eqb_refl.
Qed.

Lemma insert_stock_fresh d p n q q' :
  consistent d -> In p (products d) -> no_stock_for (p_id_produk p) d ->
  serial (stock_id_seq d) = true ->
  integer q = Done q' -> fits 100 (Some n) ->
  insert_stock (Some (p_id_produk p)) (Some n) q d
  = (Done [mkStock (stock_id_seq d) (Some (p_id_produk p)) n q'],
     mkDb (products d)
          (stock d ++ [mkStock (stock_id_seq d) (Some (p_id_produk p)) n q'])
          (employees d)
          (products_id_seq d) (stock_id_seq d + 1) (employees_id_seq d)).
Proof.
  intros H Hp Hk Hs Fq Fn.
  rewrite (insert_stock_exec _ _ _ q') by
    (try assumption; apply (products_typed d H p Hp)).
  now apply exec_insert_stock_fresh.
Qed.
End Unique.

(** ** What the writes of [inventory_backend.js] leave behind *)

Section InventoryWrites.
Import Pg Http Schema Spec.

Lemma filter_update_key {A} (where_ : A -> bool) (set : A -> A) (l : list A) :
  (forall x, where_ (set x) = where_ x) ->
  filter where_ (update where_ set l) = map set (filter where_ l).
Proof.
  intros H. unfold update. rewrite filter_app.
  rewrite (filter_nil where_ (filter _ l)).
  - simpl. apply filter_id. intros x Hx. apply in_map_iff in Hx as (y & <- & Hy).
    apply filter_In in Hy as [_ Hy]. now rewrite H.
  - intros x Hx. apply filter_In in Hx as [_ Hx]. now apply negb_true_iff.
Qed.

(** A stock create for a key that has a row: the sum is written over the
    quantity of that row, when it is an [INTEGER]. *)
Lemma post_stock_accumulates d b k dq s q' :
  consistent d -> id_produk b = Some k -> k <> "" -> jumlah_stok b = Some dq ->
  In s (stock d) -> s_id_produk s = Some k ->
  integer (Some (InventoryBackend.plus (s_jumlah_stok s) dq)) = Done q' ->
  InventoryBackend.post_stock b d
  = (mkResponse 201 (Json (Some (set_jumlah_stok q' s))),
     mkDb (products d)
          (update (fun s' => null_eqb (s_id_produk s') k) (set_jumlah_stok q') (stock d))
          (employees d)
          (products_id_seq d) (stock_id_seq d) (employees_id_seq d)).
Proof.
  intros H Hb Hk Hq Hs Hsk Fq.
  destruct (stock_id_produk_fkey d H s k Hs Hsk) as (p & Hp & Hpk). subst k.
  unfold InventoryBackend.post_stock.
  rewrite Hb, Hq, falsy_some by exact Hk. cbn [orb not_number].
  unfold try_catch, bind, select_products, select_stock.
  rewrite select_product_by_key by assumption.
  rewrite select_stock_by_key with (s := s) by assumption.
  cbv beta iota. rewrite (update_stock_jumlah_exec _ _ _ _ Fq).
  unfold exec_update_stock_jumlah.
  rewrite select_stock_by_key with (s := s) by assumption.
  reflexivity.
Qed.

(** The same request when the sum is no [INTEGER]. *)
Lemma post_stock_overflows d b k dq s e :
  consistent d -> id_produk b = Some k -> k <> "" -> jumlah_stok b = Some dq ->
  In s (stock d) -> s_id_produk s = Some k ->
  integer (Some (InventoryBackend.plus (s_jumlah_stok s) dq)) = Raise e ->
  InventoryBackend.post_stock b d
  = (mkResponse 500 (Send "Gagal menambah/memperbarui stok."), d).
Proof.
  intros H Hb Hk Hq Hs Hsk Fq.
  destruct (stock_id_produk_fkey d H s k Hs Hsk) as (p & Hp & Hpk). subst k.
  unfold InventoryBackend.post_stock.
  rewrite Hb, Hq, falsy_some by exact Hk. cbn [orb not_number].
  unfold try_catch, bind, select_products, select_stock.
  rewrite select_product_by_key by assumption.
  rewrite select_stock_by_key with (s := s) by assumption.
  cbv beta iota. now rewrite (update_stock_jumlah_raise _ _ e) by exact Fq.
Qed.

Lemma post_stock_inserts d b p q q' :
  consistent d -> id_produk b = Some (p_id_produk p) -> p_id_produk p <> "" ->
  jumlah_stok b = Some q -> In p (products d) -> no_stock_for (p_id_produk p) d ->
  integer (Some q) = Done q' -> serial (stock_id_seq d) = true ->
  InventoryBackend.post_stock b d
  = (mkResponse 201
       (Json (Some (mkStock (stock_id_seq d) (Some (p_id_produk p)) (p_nama_produk p) q'))),
     mkDb (products d)
          (stock d ++ [mkStock (stock_id_seq d) (Some (p_id_produk p)) (p_nama_produk p) q'])
          (employees d)
          (products_id_seq d) (stock_id_seq d + 1) (employees_id_seq d)).
Proof.
  intros H Hb Hk Hq Hp Hnone Fq Hs.
  unfold InventoryBackend.post_stock.
  rewrite Hb, Hq, falsy_some by exact Hk. cbn [orb not_number].
  unfold try_catch, bind, select_products, select_stock.
  rewrite select_product_by_key by assumption.
  rewrite select_stock_none by assumption.
  rewrite (insert_stock_fresh _ _ _ _ q') by
    (try assumption; apply (products_typed d H p Hp)).
  reflexivity.
Qed.

Lemma rename_product_id id n c p : p_id (rename_product id n c p) = p_id p.
Proof. unfold rename_product. now destruct (p_id p =? id). Qed.

Lemma rename_product_key id n c p :
  p_id_produk (rename_product id n c p) = p_id_produk p.
Proof. unfold rename_product. now destruct (p_id p =? id). Qed.

Lemma rename_stock_key k n s : s_id_produk (rename_stock k n s) = s_id_produk s.
Proof. unfold rename_stock. now destruct (null_eqb _ _). Qed.

Lemma restock_key k q s : s_id_produk (restock k q s) = s_id_produk s.
Proof. unfold restock. now destruct (null_eqb _ _). Qed.

Lemma restock_nama k q s : s_nama_produk (restock k q s) = s_nama_produk s.
Proof. unfold restock. now destruct (null_eqb _ _). Qed.

(** The tables an update leaves, row by row. *)
Lemma update_rename_product id n c l :
  Permutation (update (fun p => p_id p =? id) (set_product n c) l)
              (map (rename_product id n c) l).
Proof. apply update_permutation. Qed.

Lemma update_rename_stock k n l :
  Permutation (update (fun s => null_eqb (s_id_produk s) k) (set_nama_produk n) l)
              (map (rename_stock k n) l).
Proof. apply update_permutation. Qed.

Lemma update_restock k q l :
  Permutation (update (fun s => null_eqb (s_id_produk s) k) (set_jumlah_stok (Some q)) l)
              (map (restock k q) l).
Proof. apply update_permutation. Qed.

Lemma rowCount_cons {A} (x : A) (l : list A) : (rowCount (x :: l) =? 0) = false.
Proof. unfold rowCount. apply Z.eqb_neq. simpl. lia. Qed.

Lemma exec_update_products_by_id d p n c :
  consistent d -> In p (products d) ->
  exec_update_products (fun p' => p_id p' =? p_id p) (Some n) c d
  = (Done [set_product n c p],
     mkDb (update (fun p' => p_id p' =? p_id p) (set_product n c) (products d))
          (stock d) (employees d)
          (products_id_seq d) (stock_id_seq d) (employees_id_seq d)).
Proof.
  intros H Hp. unfold exec_update_products.
  replace (existsb _ (products d)) with true
    by (symmetry; apply existsb_exists; exists p; split; auto; apply Z.eqb_refl).
  rewrite select_product_by_id by assumption. reflexivity.
Qed.

Lemma update_products_by_id d p n0 c0 n c :
  consistent d -> In p (products d) ->
  varchar 100 n0 = Done (Some n) -> varchar 100 c0 = Done c ->
  update_products (fun p' => p_id p' =? p_id p) n0 c0 d
  = (Done [set_product n c p],
     mkDb (update (fun p' => p_id p' =? p_id p) (set_product n c) (products d))
          (stock d) (employees d)
          (products_id_seq d) (stock_id_seq d) (employees_id_seq d)).
Proof.
  intros H Hp Fn Fc. unfold update_products, bind, lift. rewrite Fn, Fc.
  now apply exec_update_products_by_id.
Qed.

Lemma update_stock_nama_by_id d p id k n0 n :
  consistent d -> In p (products d) -> p_id p = id -> p_id_produk p = k ->
  varchar 100 n0 = Done (Some n) ->
  exists rows,
    update_stock_nama n0 id d
    = (Done rows,
       mkDb (products d)
            (update (fun s => null_eqb (s_id_produk s) k) (set_nama_produk n) (stock d))
            (employees d)
            (products_id_seq d) (stock_id_seq d) (employees_id_seq d)).
Proof.
  intros H Hp <- <- Fn. unfold update_stock_nama, bind, lift. rewrite Fn.
  unfold exec_update_stock_nama.
  rewrite select_product_by_id by assumption. cbn [map scalar].
  destruct (existsb _ (stock d)) eqn:Hex.
  - eexists. reflexivity.
  - exists []. rewrite existsb_false in Hex.
    rewrite update_none by exact Hex. now destruct d.
Qed.

(** An update of an existing product, with the name and the category as
    their columns store them. *)
Lemma put_products_stores d b p id n c :
  consistent d -> In p (products d) -> read id = Reads (p_id p) ->
  varchar 100 (nama_produk b) = Done (Some n) ->
  varchar 100 (kategori_produk b) = Done c ->
  InventoryBackend.put_products id b d
  = (mkResponse 200 (Json (Some (set_product n c p))),
     mkDb (update (fun p' => p_id p' =? p_id p) (set_product n c) (products d))
          (update (fun s => null_eqb (s_id_produk s) (p_id_produk p)) (set_nama_produk n)
                  (stock d))
          (employees d)
          (products_id_seq d) (stock_id_seq d) (employees_id_seq d)).
Proof.
  intros H Hp Hid Fn Fc.
  assert (H1 := update_products_consistent
                  (fun p' => p_id p' =? p_id p) (nama_produk b) (kategori_produk b) d H).
  unfold InventoryBackend.put_products, try_catch, bind. rewrite Hid. cbn [with_id].
  rewrite (update_products_by_id d p _ _ n c) in * by assumption.
  cbn [snd] in H1. rewrite rowCount_cons. cbv beta iota.
  destruct (update_stock_nama_by_id _ (set_product n c p)
              (p_id p) (p_id_produk p) (nama_produk b) n H1) as [rows ->].
  - cbn [products].
    apply (update_in (fun p' => p_id p' =? p_id p) (set_product n c)) in Hp.
    now rewrite Z.eqb_refl in Hp.
  - reflexivity.
  - reflexivity.
  - exact Fn.
  - reflexivity.
Qed.

Lemma put_products_renames d b p n :
  consistent d -> In p (products d) -> nama_produk b = Some n ->
  product_fields_fit b ->
  InventoryBackend.put_products (p_id p) b d
  = (mkResponse 200 (Json (Some (set_product n (kategori_produk b) p))),
     mkDb (update (fun p' => p_id p' =? p_id p) (set_product n (kategori_produk b))
                  (products d))
          (update (fun s => null_eqb (s_id_produk s) (p_id_produk p)) (set_nama_produk n)
                  (stock d))
          (employees d)
          (products_id_seq d) (stock_id_seq d) (employees_id_seq d)).
Proof.
  intros H Hp Hn [Fn Fc].
  apply put_products_stores; try assumption; try reflexivity.
  - rewrite (varchar_fits _ _ Fn). now rewrite Hn.
  - apply varchar_fits, Fc.
Qed.

(** A statement that finds no row, or that throws, leaves the state. *)
Lemma update_products_none_state where_ n c d :
  (forall p, In p (products d) -> where_ p = false) ->
  snd (update_products where_ n c d) = d /\
  (forall rows, fst (update_products where_ n c d) = Done rows -> rows = []).
Proof.
  intros H. unfold update_products, bind, lift.
  destruct (varchar 100 n) as [n'|e]; [|split; [reflexivity|discriminate]].
  destruct (varchar 100 c) as [c'|e]; [|split; [reflexivity|discriminate]].
  unfold exec_update_products.
  rewrite (proj2 (existsb_false where_ (products d)) H).
  split; [reflexivity|]. now intros rows [= <-].
Qed.
End InventoryWrites.

(** ** Accumulating stock (C3) *)

(** C3, as the code has it: in [inventory_backend.js], against a
    consistent store, a stock create with the integer quantity [dq] for a
    key that has a stock row of quantity [q] is answered 201 with that row
    at quantity [q + dq] when [q + dq] is an [INTEGER]; afterwards it is the
    only row for the key, the other rows are as they were and no row was
    added.  When [q + dq] is beyond [INTEGER] the request is answered 500
    and the database stays as it was.  In particular, creating stock 5 and
    then 3 for a product without stock, where the sequence of [stock] has an
    id left, leaves one row of quantity 8. *)
Theorem C3_upsert_accumulates
        (d : Pg.db) (b : Http.req_body) (k : string) (dq : Z) :
  Schema.consistent d ->
  Http.id_produk b = Some k -> k <> "" -> Http.jumlah_stok b = Some dq ->
  (forall s q,
      In s (Pg.stock d) -> Pg.s_id_produk s = Some k -> Pg.s_jumlah_stok s = Some q ->
      Pg.int4 (q + dq) = true ->
      let row := Pg.mkStock (Pg.s_id s) (Some k) (Pg.s_nama_produk s) (Some (q + dq)) in
      exists d',
        InventoryBackend.post_stock b d = (Http.mkResponse 201 (Http.Json (Some row)), d') /\
        filter (fun s' => Pg.null_eqb (Pg.s_id_produk s') k) (Pg.stock d') = [row] /\
        Permutation (Pg.stock d') (map (Schema.restock k (q + dq)) (Pg.stock d)) /\
        Pg.products d' = Pg.products d) /\
  (forall s q,
      In s (Pg.stock d) -> Pg.s_id_produk s = Some k -> Pg.s_jumlah_stok s = Some q ->
      Pg.int4 (q + dq) = false ->
      Spec.answered_unchanged 500 (InventoryBackend.post_stock b) d) /\
  (forall p,
      In p (Pg.products d) -> Pg.p_id_produk p = k -> Spec.no_stock_for k d ->
      Pg.serial (Pg.stock_id_seq d) = true ->
      exists r1 d1 r2 d2,
        InventoryBackend.post_stock (Http.with_jumlah_stok b (Some 5)) d = (r1, d1) /\
        InventoryBackend.post_stock (Http.with_jumlah_stok b (Some 3)) d1 = (r2, d2) /\
        Http.status r1 = 201 /\ Http.status r2 = 201 /\
        filter (fun s' => Pg.null_eqb (Pg.s_id_produk s') k) (Pg.stock d2)
        = [Pg.mkStock (Pg.stock_id_seq d) (Some k) (Pg.p_nama_produk p) (Some 8)]).
Proof.
  intros H Hb Hk Hq.
  assert (Hacc : forall d0 b0 (dq0 : Z) s q,
             Schema.consistent d0 ->
             Http.id_produk b0 = Some k -> Http.jumlah_stok b0 = Some dq0 ->
             In s (Pg.stock d0) -> Pg.s_id_produk s = Some k -> Pg.s_jumlah_stok s = Some q ->
             Pg.int4 (q + dq0) = true ->
             let row := Pg.mkStock (Pg.s_id s) (Some k) (Pg.s_nama_produk s) (Some (q + dq0)) in
             exists d',
               InventoryBackend.post_stock b0 d0
               = (Http.mkResponse 201 (Http.Json (Some row)), d') /\
               filter (fun s' => Pg.null_eqb (Pg.s_id_produk s') k) (Pg.stock d') = [row] /\
               Permutation (Pg.stock d') (map (Schema.restock k (q + dq0)) (Pg.stock d0)) /\
               Pg.products d' = Pg.products d0).
  { intros d0 b0 dq0 s q H0 Hb0 Hq0 Hs Hsk Hsq Hint row.
    assert (Hrow : Pg.set_jumlah_stok (Some (q + dq0)) s = row).
    { unfold Pg.set_jumlah_stok, row. now rewrite Hsk. }
    eexists. split; [|split; [|split]].
    - rewrite (post_stock_accumulates d0 b0 k dq0 s (Some (q + dq0))); try assumption.
      + rewrite Hrow. reflexivity.
      + rewrite Hsq. apply integer_int4. exact Hint.
    - cbn [Pg.stock]. rewrite filter_update_key by reflexivity.
      rewrite (select_stock_by_key d0 s k) by assumption.
      simpl. now rewrite Hrow.
    - cbn [Pg.stock]. apply update_restock.
    - reflexivity. }
  split; [|split].
  - intros s q. now apply Hacc.
  - intros s q Hs Hsk Hsq Hint.
    destruct (integer_raises _ Hint) as [e He].
    unfold Spec.answered_unchanged.
    rewrite (post_stock_overflows d b k dq s e); try assumption; [now split|].
    now rewrite Hsq.
  - intros p Hp Hpk Hnone Hs. subst k.
    pose (row5 := Pg.mkStock (Pg.stock_id_seq d) (Some (Pg.p_id_produk p))
                             (Pg.p_nama_produk p) (Some 5)).
    assert (H1 := inventory_post_stock_consistent (Http.with_jumlah_stok b (Some 5)) d H).
    assert (E := post_stock_inserts d (Http.with_jumlah_stok b (Some 5)) p 5 (Some 5)
                   H Hb Hk eq_refl Hp Hnone eq_refl Hs).
    rewrite E in H1. cbn [snd] in H1.
    destruct (Hacc _ (Http.with_jumlah_stok b (Some 3)) 3 row5 5 H1)
      as (d2 & Hpost & Hfilter & _); try reflexivity; try assumption.
    { cbn [Pg.stock]. apply in_app_iff. right. now left. }
    do 4 eexists. split; [exact E|]. split; [exact Hpost|].
    split; [reflexivity|]. split; [reflexivity|]. exact Hfilter.
Qed.

Lemma C3_upsert_accumulates_witness :
  let d := Pg.mkDb [Pg.mkProduct 1 "P1" "Widget" None]
                   [Pg.mkStock 1 (Some "P1") "Widget" (Some 5)] [] 2 2 1 in
  let b := Http.mkBody (Some "P1") None None (Some 3) None None None in
  exists d',
    InventoryBackend.post_stock b d
    = (Http.mkResponse 201 (Http.Json (Some (Pg.mkStock 1 (Some "P1") "Widget" (Some 8)))), d') /\
    filter (fun s' => Pg.null_eqb (Pg.s_id_produk s') "P1") (Pg.stock d')
    = [Pg.mkStock 1 (Some "P1") "Widget" (Some 8)] /\
    Permutation (Pg.stock d') (map (Schema.restock "P1" 8) (Pg.stock d)) /\
    Pg.products d' = Pg.products d.
Proof.
  intros d b.
  assert (H : Schema.consistent d).
  { apply reachable_consistent.
    exact (Schema.reachable_inventory_backend _
             (InventoryBackend.PostStock
                (Http.mkBody (Some "P1") None None (Some 5) None None None))
             (Schema.reachable_inventory_backend _
                (InventoryBackend.PostProducts
                   (Http.mkBody (Some "P1") (Some "Widget") None None None None None))
                Schema.reachable_empty)). }
  destruct (C3_upsert_accumulates d b "P1" 3 H) as [Hacc _].
  - reflexivity.
  - discriminate.
  - reflexivity.
  - apply (Hacc (Pg.mkStock 1 (Some "P1") "Widget" (Some 5)) 5).
    + now left.
    + reflexivity.
    + reflexivity.
    + reflexivity.
Defined.

(** C3 as stated fails: for a row that holds 2147483647 units, a stock
    create of one more unit is answered 500 and the row keeps its
    quantity. *)
Lemma C3_sum_beyond_integer_answers_500 :
  ~ (forall d b k (dq : Z) s q,
        Schema.consistent d ->
        Http.id_produk b = Some k -> k <> "" -> Http.jumlah_stok b = Some dq ->
        In s (Pg.stock d) -> Pg.s_id_produk s = Some k -> Pg.s_jumlah_stok s = Some q ->
        let row := Pg.mkStock (Pg.s_id s) (Some k) (Pg.s_nama_produk s) (Some (q + dq)) in
        exists d',
          InventoryBackend.post_stock b d
          = (Http.mkResponse 201 (Http.Json (Some row)), d')).
Proof.
  intros H.
  pose (s := Pg.mkStock 1 (Some "P1") "Widget" (Some 2147483647)).
  pose (d := Pg.mkDb [Pg.mkProduct 1 "P1" "Widget" None] [s] [] 2 2 1).
  pose (b := Http.mkBody (Some "P1") None None (Some 1) None None None).
  destruct (H d b "P1" 1 s 2147483647) as [d' Hpost].
  - apply reachable_consistent.
    exact (Schema.reachable_inventory_backend _
             (InventoryBackend.PostStock
                (Http.mkBody (Some "P1") None None (Some 2147483647) None None None))
             (Schema.reachable_inventory_backend _
                (InventoryBackend.PostProducts
                   (Http.mkBody (Some "P1") (Some "Widget") None None None None None))
                Schema.reachable_empty)).
  - reflexivity.
  - discriminate.
  - reflexivity.
  - now left.
  - reflexivity.
  - reflexivity.
  - vm_compute in Hpost. discriminate Hpost.
Qed.

(** ** [inventory_backend.js] keeps the names in step *)

Section Synced.
Import Pg Http Schema Spec.

Lemma exec_insert_product_sound k n c :
  fits 50 k -> fits 100 n -> fits 100 c ->
  preserves sound (exec_insert_product k n c).
Proof.
  intros Fk Fn Fc d [Hc Hs]. split; [now apply exec_insert_product_consistent|].
  unfold exec_insert_product.
  destruct (serial _); cbn [negb]; [|exact Hs].
  destruct k as [k|], n as [n|]; try exact Hs.
  destruct (existsb (fun p => p_id p =? _) _); [exact Hs|].
  destruct (existsb (fun p => String.eqb (p_id_produk p) k) _) eqn:Hkey; [exact Hs|].
  rewrite existsb_false in Hkey.
  intros s p Hin Hp Hsk. cbn [snd products stock] in *.
  apply in_app_iff in Hp as [Hp|[<-|[]]]; [now apply Hs|].
  cbn [p_id_produk] in Hsk.
  destruct (stock_id_produk_fkey d Hc s k Hin Hsk) as (p' & Hp' & Hk').
  specialize (Hkey p' Hp'). rewrite Hk', String.eqb_refl in Hkey. discriminate.
Qed.

Lemma insert_product_sound k n c : preserves sound (insert_product k n c).
Proof.
  unfold insert_product.
  apply preserves_varchar; intros k' Fk.
  apply preserves_varchar; intros n' Fn.
  apply preserves_varchar; intros c' Fc.
  now apply exec_insert_product_sound.
Qed.

Lemma delete_products_sound where_ : preserves sound (Pg.delete_products where_).
Proof.
  intros d [Hc Hs]. split; [now apply delete_products_consistent|].
  intros s p Hin Hp. cbn [snd Pg.delete_products products stock] in *.
  apply filter_In in Hin as [Hin _]. apply filter_In in Hp as [Hp _]. now apply Hs.
Qed.

Lemma update_stock_jumlah_sound where_ q : preserves sound (update_stock_jumlah where_ q).
Proof.
  unfold update_stock_jumlah.
  apply preserves_integer; intros q' Fq.
  intros d [Hc Hs]. split; [now apply exec_update_stock_jumlah_consistent|].
  intros s p Hin Hp. cbn [snd exec_update_stock_jumlah products stock] in *.
  apply in_update in Hin as [[Hin _]|(s0 & Hin & _ & ->)]; [now apply Hs|].
  exact (Hs s0 p Hin Hp).
Qed.

Lemma delete_stock_sound where_ : preserves sound (Pg.delete_stock where_).
Proof.
  intros d [Hc Hs]. split; [now apply delete_stock_consistent|].
  intros s p Hin Hp. cbn [snd Pg.delete_stock products stock] in *.
  apply filter_In in Hin as [Hin _]. now apply Hs.
Qed.

Lemma insert_employee_sound n p m : preserves sound (insert_employee n p m).
Proof.
  intros d [Hc Hs]. split; [now apply insert_employee_consistent|].
  unfold insert_employee, bind, lift.
  destruct (varchar 100 n) as [n'|]; [|exact Hs].
  destruct (varchar 100 p) as [p'|]; [|exact Hs].
  destruct (varchar 100 m) as [m'|]; [|exact Hs].
  unfold exec_insert_employee.
  destruct (serial _); cbn [negb]; [|exact Hs].
  destruct n'; [destruct (existsb _ _)|]; exact Hs.
Qed.

Lemma update_employees_sound id n p m : preserves sound (update_employees id n p m).
Proof.
  intros d [Hc Hs]. split; [now apply update_employees_consistent|].
  unfold update_employees, bind, lift.
  destruct (varchar 100 n) as [n'|]; [|exact Hs].
  destruct (varchar 100 p) as [p'|]; [|exact Hs].
  destruct (varchar 100 m) as [m'|]; [|exact Hs].
  unfold exec_update_employees. destruct (existsb _ _); [destruct n'|]; exact Hs.
Qed.

Lemma delete_employees_sound id : preserves sound (Pg.delete_employees id).
Proof.
  intros d [Hc Hs]. split; [now apply delete_employees_consistent|]. exact Hs.
Qed.

Lemma put_products_sound id b d : sound d -> sound (snd (InventoryBackend.put_products id b d)).
Proof.
  intros [Hc Hs]. split.
  { apply (inventory_serve_consistent (InventoryBackend.PutProducts id b)) in Hc.
    simpl in Hc. now rewrite snd_serve in Hc. }
  destruct (read id) as [z| |] eqn:Hid;
    [|unfold InventoryBackend.put_products, try_catch, bind; rewrite Hid; exact Hs..].
  destruct (existsb (fun p => p_id p =? z) (products d)) eqn:Hex.
  - apply existsb_exists in Hex as (p & Hp & Hz). apply Z.eqb_eq in Hz. subst z.
    destruct (varchar 100 (nama_produk b)) as [[n|]|e] eqn:Fn;
      [destruct (varchar 100 (kategori_produk b)) as [c|e] eqn:Fc|..].
    + rewrite (put_products_stores d b p id n c) by assumption. cbn [snd].
      intros s' p' Hin' Hp'. cbn [products stock] in *.
      apply in_update in Hin' as [[Hin Hw]|(s & Hin & Hw & ->)];
        apply in_update in Hp' as [[Hp0 Hw0]|(p0 & Hp0 & Hw0 & ->)];
        cbn [s_id_produk s_nama_produk p_id_produk p_nama_produk set_nama_produk set_product];
        intros Hk.
      * now apply Hs.
      * exfalso. apply Z.eqb_eq in Hw0.
        assert (p0 = p) by exact (NoDup_map_inj p_id _ p0 p (products_pkey d Hc) Hp0 Hp Hw0).
        subst p0. unfold null_eqb in Hw. rewrite Hk, String.eqb_refl in Hw. discriminate.
      * exfalso. apply null_eqb_eq in Hw. rewrite Hw in Hk. injection Hk as Hk.
        assert (p = p') by exact (NoDup_map_inj p_id_produk _ p p'
                                     (products_id_produk_key d Hc) Hp Hp0 Hk).
        subst p'. now rewrite Z.eqb_refl in Hw0.
      * reflexivity.
    + unfold InventoryBackend.put_products, try_catch, bind, update_products, bind, lift.
      rewrite Hid. cbn [with_id]. rewrite Fn, Fc. exact Hs.
    + unfold InventoryBackend.put_products, try_catch, bind, update_products, bind, lift.
      rewrite Hid. cbn [with_id]. rewrite Fn.
      destruct (varchar 100 (kategori_produk b)); [|exact Hs].
      unfold exec_update_products.
      replace (existsb _ (products d)) with true
        by (symmetry; apply existsb_exists; exists p; split; auto; apply Z.eqb_refl).
      exact Hs.
    + unfold InventoryBackend.put_products, try_catch, bind, update_products, bind, lift.
      rewrite Hid. cbn [with_id]. rewrite Fn. exact Hs.
  - unfold InventoryBackend.put_products, try_catch, bind. rewrite Hid. cbn [with_id].
    destruct (update_products_none_state (fun p => p_id p =? z) (nama_produk b)
                (kategori_produk b) d) as [Hd Hrows]; [now apply existsb_false|].
    destruct (update_products _ _ _ d) as [[rows|e] d']; cbn [snd fst] in *; subst d'.
    + rewrite (Hrows rows eq_refl). exact Hs.
    + exact Hs.
Qed.

Lemma post_stock_sound b d : sound d -> sound (snd (InventoryBackend.post_stock b d)).
Proof.
  intros [Hc Hs]. split; [now apply inventory_post_stock_consistent|].
  unfold InventoryBackend.post_stock.
  destruct (falsy (id_produk b) || not_number (jumlah_stok b)); [exact Hs|].
  set (k := match id_produk b with Some k => k | None => "" end).
  set (q := match jumlah_stok b with Some q => q | None => Int 0 end).
  unfold try_catch, bind, select_products, select_stock.
  destruct (filter _ (products d)) as [|product ps] eqn:Hsel; [exact Hs|].
  assert (Hprod : In product (products d) /\ String.eqb (p_id_produk product) k = true).
  { apply (proj1 (filter_In (fun p => String.eqb (p_id_produk p) k) product (products d))).
    rewrite Hsel. now left. }
  destruct Hprod as [Hprod Hk]. apply String.eqb_eq in Hk.
  destruct (filter _ (stock d)) as [|existing rest] eqn:Hex.
  - assert (Hnone : no_stock_for (p_id_produk product) d).
    { intros s Hin Hsk. rewrite Hk in Hsk.
      assert (Hf : In s (filter (fun s => null_eqb (s_id_produk s) k) (stock d))).
      { apply filter_In. split; auto. unfold null_eqb. rewrite Hsk. apply String.eqb_refl. }
      rewrite Hex in Hf. contradiction. }
    rewrite <- Hk.
    destruct (serial (stock_id_seq d)) eqn:Hseq;
      [|destruct (insert_stock_exhausted (Some (p_id_produk product))
                   (Some (p_nama_produk product)) (Some q) d Hseq) as (e & -> & _); exact Hs].
    destruct (integer (Some q)) as [q'|e] eqn:Fq.
    + rewrite (insert_stock_fresh _ _ _ _ q') by
        (try assumption; apply (products_typed d Hc product Hprod)).
      cbn [snd ret].
      intros s p Hin Hp Hsk. cbn [products stock] in *.
      apply in_app_iff in Hin as [Hin|[<-|[]]]; [now apply Hs|].
      cbn [s_id_produk s_nama_produk] in *. injection Hsk as Hsk.
      f_equal. symmetry.
      exact (NoDup_map_inj p_id_produk _ p product (products_id_produk_key d Hc) Hp Hprod
                           (eq_sym Hsk)).
    + unfold insert_stock, bind, lift. rewrite Fq. exact Hs.
  - assert (Hu := update_stock_jumlah_sound
                    (fun s => null_eqb (s_id_produk s) k)
                    (Some (InventoryBackend.plus (s_jumlah_stok existing) q)) d (conj Hc Hs)).
    destruct Hu as [_ Hu].
    destruct (update_stock_jumlah _ _ d) as [[rows|e] d']; exact Hu.
Qed.

Lemma inventory_serve_sound r d :
  sound d -> sound (snd (InventoryBackend.serve r d)).
Proof.
  intros H. destruct r; simpl; rewrite snd_serve.
  - unfold InventoryBackend.post_products.
    destruct (falsy (id_produk b) || falsy (nama_produk b)); [exact H|].
    apply preserves_try_catch; [|assumption].
    apply preserves_bind; [apply insert_product_sound | intros; apply preserves_ret].
  - now apply put_products_sound.
  - unfold InventoryBackend.delete_products.
    apply preserves_try_catch; [|assumption].
    apply preserves_bind; [apply preserves_with_id; intros; apply delete_products_sound|].
    intros; apply preserves_if; apply preserves_ret.
  - now apply post_stock_sound.
  - unfold InventoryBackend.put_stock.
    apply preserves_try_catch; [|assumption].
    apply preserves_bind; [apply preserves_with_id; intros; apply update_stock_jumlah_sound|].
    intros; apply preserves_if; apply preserves_ret.
  - unfold InventoryBackend.delete_stock.
    apply preserves_try_catch; [|assumption].
    apply preserves_bind; [apply preserves_with_id; intros; apply delete_stock_sound|].
    intros; apply preserves_if; apply preserves_ret.
  - unfold InventoryBackend.post_employees.
    destruct (falsy (nama b) || falsy (posisi b)); [exact H|].
    apply preserves_try_catch; [|assumption].
    apply preserves_bind; [apply insert_employee_sound | intros; apply preserves_ret].
  - unfold InventoryBackend.put_employees.
    apply preserves_try_catch; [|assumption].
    apply preserves_bind; [apply preserves_with_id; intros; apply update_employees_sound|].
    intros; apply preserves_if; apply preserves_ret.
  - unfold InventoryBackend.delete_employees.
    apply preserves_try_catch; [|assumption].
    apply preserves_bind; [apply preserves_with_id; intros; apply delete_employees_sound|].
    intros; apply preserves_if; apply preserves_ret.
Qed.

Lemma reachable_inventory_sound d : reachable_inventory d -> sound d.
Proof.
  induction 1 as [|d r _ IH].
  - split; [exact empty_consistent | intros s p []].
  - now apply inventory_serve_sound.
Qed.
End Synced.

(** ** The name on a new stock row (C10) *)

Section StockName.
Import Pg Http Schema Spec.

Lemma post_stock_returns_row b d row d' :
  InventoryBackend.post_stock b d = (mkResponse 201 (Json (Some row)), d') ->
  In row (stock d') /\ exists k, s_id_produk row = Some k.
Proof.
  unfold InventoryBackend.post_stock.
  destruct (falsy (id_produk b) || not_number (jumlah_stok b)); [discriminate|].
  set (k := match id_produk b with Some k => k | None => "" end).
  set (q := match jumlah_stok b with Some q => q | None => Int 0 end).
  unfold try_catch, bind, select_products, select_stock.
  destruct (filter _ (products d)) as [|product ps]; [discriminate|].
  destruct (filter _ (stock d)) as [|existing rest] eqn:Hex.
  - unfold insert_stock, bind, lift.
    destruct (integer (Some q)) as [q'|]; [|discriminate].
    destruct (varchar 50 (Some k)) as [k'|] eqn:Fk; [|discriminate].
    destruct (varchar 100 (Some (p_nama_produk product))) as [[n'|]|];
      [|unfold exec_insert_stock; destruct (serial _); discriminate|discriminate].
    unfold exec_insert_stock.
    destruct (serial _); cbn [negb]; [|discriminate].
    destruct (existsb (fun s => s_id s =? _) _); [discriminate|].
    destruct (match k' with Some _ => _ | None => _ end); [discriminate|].
    destruct (match k' with Some _ => _ | None => _ end); [discriminate|].
    cbn [ret hd_error]. intros E. injection E as <- <-. cbn [stock s_id_produk].
    split; [apply in_app_iff; right; now left|].
    destruct k' as [k'|]; [eauto|].
    apply varchar_null in Fk. destruct Fk as [Fk _]. now specialize (Fk eq_refl).
  - assert (Hin : In existing (stock d) /\ null_eqb (s_id_produk existing) k = true).
    { apply (proj1 (filter_In (fun s => null_eqb (s_id_produk s) k) existing (stock d))).
      rewrite Hex. now left. }
    destruct Hin as [Hin Hk].
    unfold update_stock_jumlah, bind, lift.
    destruct (integer _) as [q'|]; [|discriminate].
    unfold exec_update_stock_jumlah. rewrite Hex. cbn [map ret hd_error].
    intros E. injection E as <- <-. cbn [stock s_id_produk set_jumlah_stok].
    split.
    + apply in_update. right. exists existing. now repeat split.
    + unfold null_eqb in Hk. destruct (s_id_produk existing) as [k'|]; [eauto|discriminate].
Qed.
End StockName.

(** C10: [POST /api/stock] of [inventory_backend.js] does not read the
    [nama_produk] of the request; the row it inserts for a product without
    stock, when the quantity is an [INTEGER] and the sequence of [stock] has
    an id left, carries the name of that product; and in every state this server reaches, the row a stock create
    returns carries the name of the product it references. *)
Theorem C10_stock_name_from_product (d : Pg.db) (b : Http.req_body) :
  (forall n, InventoryBackend.post_stock (Http.with_nama_produk b n) d
             = InventoryBackend.post_stock b d) /\
  (forall p (q : Z),
      Schema.consistent d -> In p (Pg.products d) ->
      Http.id_produk b = Some (Pg.p_id_produk p) -> Pg.p_id_produk p <> "" ->
      Http.jumlah_stok b = Some q -> Pg.int4 q = true ->
      Spec.no_stock_for (Pg.p_id_produk p) d -> Pg.serial (Pg.stock_id_seq d) = true ->
      let row := Pg.mkStock (Pg.stock_id_seq d) (Some (Pg.p_id_produk p))
                            (Pg.p_nama_produk p) (Some q) in
      exists d',
        InventoryBackend.post_stock b d = (Http.mkResponse 201 (Http.Json (Some row)), d') /\
        Permutation (Pg.stock d') (row :: Pg.stock d) /\
        Pg.products d' = Pg.products d) /\
  (Schema.reachable_inventory d ->
   forall row d',
     InventoryBackend.post_stock b d = (Http.mkResponse 201 (Http.Json (Some row)), d') ->
     In row (Pg.stock d') /\
     exists p, In p (Pg.products d') /\
               Pg.s_id_produk row = Some (Pg.p_id_produk p) /\
               Pg.s_nama_produk row = Pg.p_nama_produk p).
Proof.
  split; [|split].
  - intros n. reflexivity.
  - intros p q H Hp Hb Hk Hq Hint Hnone Hs row. eexists.
    rewrite (post_stock_inserts d b p q (Some q)); try assumption.
    + split; [reflexivity|]. split; [|reflexivity].
      cbn [Pg.stock]. symmetry. apply Permutation_cons_append.
    + now apply integer_int4.
  - intros Hreach row d' E.
    assert (Hsound := post_stock_sound b d (reachable_inventory_sound d Hreach)).
    rewrite E in Hsound. cbn [snd] in Hsound. destruct Hsound as [Hc Hs].
    destruct (post_stock_returns_row b d row d' E) as [Hin [k Hk]].
    split; [exact Hin|].
    destruct (Schema.stock_id_produk_fkey d' Hc row k Hin Hk) as (p & Hp & Hpk).
    exists p. subst k. split; [exact Hp|]. split; [exact Hk|].
    now apply Hs.
Qed.

Lemma C10_stock_name_from_product_witness :
  let d := Pg.mkDb [Pg.mkProduct 1 "P1" "Widget" None] [] [] 2 1 1 in
  let b := Http.mkBody (Some "P1") (Some "Sprocket") None (Some 5) None None None in
  exists d',
    InventoryBackend.post_stock b d
    = (Http.mkResponse 201 (Http.Json (Some (Pg.mkStock 1 (Some "P1") "Widget" (Some 5)))), d') /\
    Permutation (Pg.stock d') [Pg.mkStock 1 (Some "P1") "Widget" (Some 5)] /\
    Pg.products d' = Pg.products d.
Proof.
  intros d b.
  destruct (C10_stock_name_from_product d b) as (_ & Hins & _).
  apply (Hins (Pg.mkProduct 1 "P1" "Widget" None) 5).
  - apply reachable_consistent.
    exact (Schema.reachable_inventory_backend _
             (InventoryBackend.PostProducts
                (Http.mkBody (Some "P1") (Some "Widget") None None None None None))
             Schema.reachable_empty).
  - now left.
  - reflexivity.
  - discriminate.
  - reflexivity.
  - reflexivity.
  - intros s [].
  - reflexivity.
Defined.

(** ** The stock listings *)

Section Listings.
Import Pg Http Schema Spec.

Lemma in_insert_desc {A} (key : A -> Z) (a x : A) (l : list A) :
  In x (insert_desc key a l) <-> x = a \/ In x l.
Proof.
  induction l as [|y l IH]; simpl.
  - intuition.
  - destruct (key y <? key a); simpl; [intuition|].
    rewrite IH. intuition.
Qed.

Lemma in_order_by_desc {A} (key : A -> Z) (x : A) (l : list A) :
  In x (order_by_desc key l) <-> In x l.
Proof.
  induction l as [|a l IH]; simpl; [reflexivity|].
  rewrite in_insert_desc, IH. intuition.
Qed.

Lemma filter_nil_inv {A} (P : A -> bool) (l : list A) :
  filter P l = [] -> forall x, In x l -> P x = false.
Proof.
  intros H x Hx. destruct (P x) eqn:Px; [|reflexivity].
  assert (Hin : In x (filter P l)) by (apply filter_In; now split).
  rewrite H in Hin. contradiction.
Qed.

(** A row of the join is a stock row with a product of the same key, or
    with none when no product has it. *)
Lemma in_left_join d s op :
  In (s, op) (left_join d) <->
  In s (stock d) /\
  match op with
  | Some p => In p (products d) /\ null_eqb (s_id_produk s) (p_id_produk p) = true
  | None => forall p, In p (products d) -> null_eqb (s_id_produk s) (p_id_produk p) = false
  end.
Proof.
  unfold left_join. rewrite in_flat_map. split.
  - intros (s0 & Hs0 & Hin).
    destruct (filter _ (products d)) as [|p1 ps] eqn:Hf.
    + destruct Hin as [E|[]]. injection E as <- <-. split; auto.
      now apply filter_nil_inv.
    + apply in_map_iff in Hin as (p' & E & Hp'). injection E as <- <-. split; auto.
      rewrite <- Hf in Hp'. now apply filter_In in Hp'.
  - intros [Hs Hop]. exists s. split; auto.
    destruct op as [p|].
    + assert (Hin : In p (filter (fun p => null_eqb (s_id_produk s) (p_id_produk p))
                                 (products d))) by now apply filter_In.
      destruct (filter _ (products d)) as [|p1 ps]; [contradiction|].
      apply in_map_iff. now exists p.
    + rewrite filter_nil by exact Hop. now left.
Qed.

(** Every stock row is in the join, with a product or with none. *)
Lemma stock_row_joined d s :
  In s (stock d) -> exists op, In (s, op) (left_join d).
Proof.
  intros Hs.
  destruct (filter (fun p => null_eqb (s_id_produk s) (p_id_produk p)) (products d))
    as [|p ps] eqn:Hf.
  - exists None. apply in_left_join. split; [exact Hs|]. now apply filter_nil_inv.
  - exists (Some p). apply in_left_join. split; [exact Hs|].
    apply (proj1 (filter_In (fun p => null_eqb (s_id_produk s) (p_id_produk p)) p
                            (products d))).
    rewrite Hf. now left.
Qed.

Lemma inventory_get_stock_rows d row :
  In row (rows (fst (InventoryBackend.get_stock d))) <->
  exists s op, In (s, op) (left_join d) /\ row = InventoryBackend.select_listing (s, op).
Proof.
  unfold InventoryBackend.get_stock, try_catch, bind, select_left_join, ret, rows.
  cbn [fst payload]. rewrite in_map_iff. split.
  - intros ([s op] & <- & Hin). exists s, op. split; auto.
    apply in_order_by_desc in Hin. rewrite filter_id in Hin by reflexivity. exact Hin.
  - intros (s & op & Hin & ->). exists (s, op). split; auto.
    apply in_order_by_desc. now rewrite filter_id by reflexivity.
Qed.

Lemma part000_get_stock_rows search d row :
  In row (rows (fst (Part000.get_stock search d))) ->
  exists s op, In (s, op) (left_join d) /\ row = Part000.select_listing (s, op).
Proof.
  unfold Part000.get_stock, try_catch, bind, select_left_join, ret, rows.
  cbn [fst payload]. rewrite in_map_iff.
  intros ([s op] & <- & Hin). exists s, op. split; auto.
  now apply filter_In in Hin.
Qed.

Lemma no_stock_not_listed k d :
  no_stock_for k d ->
  (forall row, In row (rows (fst (InventoryBackend.get_stock d))) ->
               InventoryBackend.l_id_produk row <> Some k) /\
  (forall search row, In row (rows (fst (Part000.get_stock search d))) ->
                      Part000.l_id_produk row <> Some k).
Proof.
  intros H. split.
  - intros row Hrow. apply inventory_get_stock_rows in Hrow as (s & op & Hin & ->).
    apply in_left_join in Hin as [Hs _]. simpl. now apply H.
  - intros search row Hrow.
    apply part000_get_stock_rows in Hrow as (s & op & Hin & ->).
    apply in_left_join in Hin as [Hs _]. simpl. now apply H.
Qed.

Lemma delete_products_cascades where_ d p :
  In p (products d) -> where_ p = true ->
  exists gone rest,
    Pg.delete_products where_ d = (Done (gone :: rest), snd (Pg.delete_products where_ d)) /\
    no_stock_for (p_id_produk p) (snd (Pg.delete_products where_ d)).
Proof.
  intros Hp Hw. unfold Pg.delete_products. cbn [snd].
  assert (Hin : In p (filter where_ (products d))) by now apply filter_In.
  destruct (filter where_ (products d)) as [|gone rest] eqn:Hf; [contradiction|].
  exists gone, rest. split; [reflexivity|].
  intros s Hs Hk. cbn [stock] in Hs. apply filter_In in Hs as [_ Href].
  unfold references in Href. rewrite Hk in Href.
  apply negb_true_iff in Href. rewrite existsb_false in Href.
  specialize (Href p Hin). rewrite String.eqb_refl in Href. discriminate.
Qed.
End Listings.

(** ** Deleting a product (C4) *)

(** C4: deleting a product, by id in [inventory_backend.js] (204) or by
    business key in [part_000] (200), leaves no stock row with its business
    key, so that the stock listing of either server has no row for that key
    afterwards; and in every state the two servers can reach, the business
    key of a stock row is the business key of a product. *)
Theorem C4_delete_cascades (d : Pg.db) (p : Pg.product) :
  In p (Pg.products d) ->
  (exists d',
      InventoryBackend.delete_products (Pg.p_id p) d
      = (Http.mkResponse 204 Http.NoBody, d') /\
      Spec.no_stock_for (Pg.p_id_produk p) d' /\
      (forall row, In row (Http.rows (fst (InventoryBackend.get_stock d'))) ->
                   InventoryBackend.l_id_produk row <> Some (Pg.p_id_produk p)) /\
      (forall search row, In row (Http.rows (fst (Part000.get_stock search d'))) ->
                          Part000.l_id_produk row <> Some (Pg.p_id_produk p))) /\
  (exists r d',
      Part000.delete_products (Pg.p_id_produk p) d = (r, d') /\
      Http.status r = 200 /\
      Spec.no_stock_for (Pg.p_id_produk p) d' /\
      (forall row, In row (Http.rows (fst (InventoryBackend.get_stock d'))) ->
                   InventoryBackend.l_id_produk row <> Some (Pg.p_id_produk p)) /\
      (forall search row, In row (Http.rows (fst (Part000.get_stock search d'))) ->
                          Part000.l_id_produk row <> Some (Pg.p_id_produk p))) /\
  (forall d0, Schema.reachable d0 ->
              forall s k, In s (Pg.stock d0) -> Pg.s_id_produk s = Some k ->
                          exists p0, In p0 (Pg.products d0) /\ Pg.p_id_produk p0 = k).
Proof.
  intros Hp. split; [|split].
  - destruct (delete_products_cascades (fun p' => Pg.p_id p' =? Pg.p_id p) d p Hp
                                       (Z.eqb_refl _))
      as (gone & rest & E & Hnone).
    eexists. unfold InventoryBackend.delete_products, Pg.try_catch, Pg.bind.
    cbn [Http.read Http.route Pg.with_id].
    rewrite E, rowCount_cons. cbn [Pg.ret].
    split; [reflexivity|]. split; [exact Hnone|]. now apply no_stock_not_listed.
  - destruct (delete_products_cascades
                (fun p' => String.eqb (Pg.p_id_produk p') (Pg.p_id_produk p)) d p Hp
                (String.eqb_refl _))
      as (gone & rest & E & Hnone).
    do 2 eexists. unfold Part000.delete_products, Pg.try_catch, Pg.bind.
    rewrite E, rowCount_cons. cbn [Pg.ret].
    split; [reflexivity|]. split; [reflexivity|].
    split; [exact Hnone|]. now apply no_stock_not_listed.
  - intros d0 Hreach. exact (Schema.stock_id_produk_fkey d0 (reachable_consistent d0 Hreach)).
Qed.

Lemma C4_delete_cascades_witness :
  let d := Pg.mkDb [Pg.mkProduct 1 "P1" "Widget" None]
                   [Pg.mkStock 1 (Some "P1") "Widget" (Some 5)] [] 2 2 1 in
  exists d',
    InventoryBackend.delete_products 1 d = (Http.mkResponse 204 Http.NoBody, d') /\
    Spec.no_stock_for "P1" d' /\
    (forall row, In row (Http.rows (fst (InventoryBackend.get_stock d'))) ->
                 InventoryBackend.l_id_produk row <> Some "P1") /\
    (forall search row, In row (Http.rows (fst (Part000.get_stock search d'))) ->
                        Part000.l_id_produk row <> Some "P1").
Proof.
  intros d.
  destruct (C4_delete_cascades d (Pg.mkProduct 1 "P1" "Widget" None)) as [H _].
  - now left.
  - exact H.
Defined.

(** ** Renaming a product (C1) *)

Section Rename.
Import Pg Http Schema Spec.

(** [inventory_backend.js]: after a rename the stock rows of the product
    carry the new name, and the stock listing shows it. *)
Lemma inventory_put_products_propagates d b p n s :
  consistent d -> In p (products d) -> nama_produk b = Some n ->
  product_fields_fit b ->
  In s (stock d) -> s_id_produk s = Some (p_id_produk p) ->
  exists r d',
    InventoryBackend.put_products (p_id p) b d = (r, d') /\
    status r = 200 /\
    (forall s', In s' (stock d') -> s_id_produk s' = Some (p_id_produk p) ->
                s_nama_produk s' = n) /\
    (exists row, In row (rows (fst (InventoryBackend.get_stock d'))) /\
                 InventoryBackend.l_id_produk row = Some (p_id_produk p)) /\
    (forall row, In row (rows (fst (InventoryBackend.get_stock d'))) ->
                 InventoryBackend.l_id_produk row = Some (p_id_produk p) ->
                 InventoryBackend.l_nama_produk row = Some n).
Proof.
  intros H Hp Hn Hfit Hs Hk.
  do 2 eexists. rewrite (put_products_renames d b p n) by assumption.
  split; [reflexivity|]. split; [reflexivity|].
  set (d' := mkDb _ _ _ _ _ _).
  assert (Hp' : In (set_product n (kategori_produk b) p) (products d')).
  { cbn [d' products].
    apply (update_in (fun p' => p_id p' =? p_id p) (set_product n (kategori_produk b))) in Hp.
    now rewrite Z.eqb_refl in Hp. }
  assert (Huniq : forall p', In p' (products d') -> p_id_produk p' = p_id_produk p ->
                             p_nama_produk p' = n).
  { intros p' Hin Hkey. cbn [d' products] in Hin.
    apply in_update in Hin as [[Hp0 Hw]|(p0 & Hp0 & Hw & ->)]; [|reflexivity].
    assert (p' = p)
      by exact (NoDup_map_inj p_id_produk _ p' p (products_id_produk_key d H) Hp0 Hp Hkey).
    subst p'. now rewrite Z.eqb_refl in Hw. }
  assert (Hs' : In (set_nama_produk n s) (stock d')).
  { cbn [d' stock].
    apply (update_in (fun s' => null_eqb (s_id_produk s') (p_id_produk p))
                     (set_nama_produk n)) in Hs.
    now rewrite (proj2 (null_eqb_eq _ _) Hk) in Hs. }
  split; [|split].
  - intros s' Hin Hkey. cbn [d' stock] in Hin.
    apply in_update in Hin as [[Hs0 Hw]|(s0 & Hs0 & Hw & ->)]; [|reflexivity].
    now rewrite (proj2 (null_eqb_eq _ _) Hkey) in Hw.
  - exists (InventoryBackend.select_listing
              (set_nama_produk n s, Some (set_product n (kategori_produk b) p))).
    split.
    + apply inventory_get_stock_rows. do 2 eexists. split; [|reflexivity].
      apply in_left_join. split; [exact Hs'|].
      split; [exact Hp'|]. cbn [set_nama_produk set_product s_id_produk p_id_produk].
      now apply null_eqb_eq.
    + simpl. exact Hk.
  - intros row Hrow Hkey.
    apply inventory_get_stock_rows in Hrow as (s' & op & Hin & ->).
    apply in_left_join in Hin as [Hs0 Hop]. simpl in Hkey |- *.
    destruct op as [p'|].
    + destruct Hop as [Hin' Hkk]. apply null_eqb_eq in Hkk.
      f_equal. apply Huniq; congruence.
    + specialize (Hop _ Hp'). cbn [set_product p_id_produk] in Hop.
      rewrite (proj2 (null_eqb_eq _ _) Hkey) in Hop. discriminate.
Qed.

Lemma part000_get_stock_all d :
  rows (fst (Part000.get_stock None d)) = map Part000.select_listing (left_join d).
Proof.
  unfold Part000.get_stock, try_catch, bind, select_left_join, ret, rows.
  cbn [fst payload]. now rewrite filter_id by reflexivity.
Qed.

(** With a stale copy in the table the two listings show different names. *)
Lemma stale_listings_differ d s p :
  consistent d -> stale d s p ->
  map part000_columns (rows (fst (Part000.get_stock None d)))
  <> map inventory_columns (rows (fst (InventoryBackend.get_stock d))).
Proof.
  intros H (Hs & Hp & Hk & Hstale) E.
  assert (Hin : In (part000_columns (Part000.select_listing (s, Some p)))
                   (map part000_columns (rows (fst (Part000.get_stock None d))))).
  { apply in_map. rewrite part000_get_stock_all. apply in_map.
    apply in_left_join. split; auto. split; auto. now apply null_eqb_eq. }
  rewrite E in Hin. apply in_map_iff in Hin as (row & Hcols & Hrow).
  apply inventory_get_stock_rows in Hrow as (s' & op & Hjoin & ->).
  apply in_left_join in Hjoin as [Hs' Hop].
  unfold inventory_columns, part000_columns in Hcols. simpl in Hcols.
  injection Hcols as _ Hkey Hname _.
  destruct op as [p'|]; [|discriminate].
  destruct Hop as [Hp' Hkk]. apply null_eqb_eq in Hkk.
  injection Hname as Hname. apply Hstale. rewrite <- Hname. f_equal.
  apply (NoDup_map_inj p_id_produk _ p' p (products_id_produk_key d H) Hp' Hp).
  congruence.
Qed.
End Rename.

(** C1 in [part_000]: [PUT /api/products/:id_produk] never writes to the
    stock table, whatever the request; renaming the product "Widget" of a
    store with one stock row to "Gadget" is answered 200 with the renamed
    product, and the stock listing that follows still shows "Widget". *)
Theorem C1_part000_rename_not_propagated :
  (forall k b d, Pg.stock (snd (Part000.put_products k b d)) = Pg.stock d) /\
  (let d := Pg.mkDb [Pg.mkProduct 1 "P1" "Widget" None]
                    [Pg.mkStock 1 (Some "P1") "Widget" (Some 5)] [] 2 2 1 in
   let b := Http.mkBody None (Some "Gadget") None None None None None in
   exists d',
     Part000.put_products "P1" b d
     = (Http.mkResponse 200 (Http.Json (Some (Pg.mkProduct 1 "P1" "Gadget" None))), d') /\
     Http.rows (fst (Part000.get_stock None d'))
     = [Part000.mkListing 1 (Some "P1") "Widget" (Some 5) None] /\
     Http.rows (fst (InventoryBackend.get_stock (snd (InventoryBackend.put_products 1 b d))))
     = [InventoryBackend.mkListing 1 (Some "P1") (Some "Gadget") (Some 5)]).
Proof.
  split.
  - intros k b d.
    unfold Part000.put_products, Pg.try_catch, Pg.bind, Pg.update_products, Pg.bind, Pg.lift.
    destruct (Pg.varchar 100 (Http.nama_produk b)) as [n|]; [|reflexivity].
    destruct (Pg.varchar 100 (Http.kategori_produk b)) as [c|]; [|reflexivity].
    unfold Pg.exec_update_products.
    destruct (existsb _ _); [|reflexivity].
    destruct n; [|reflexivity].
    destruct (Pg.rowCount _ =? 0); reflexivity.
  - eexists. split; [reflexivity|]. split; reflexivity.
Qed.

(** ** The two stock listings (C9) *)

(** C9: the stock listing of [inventory_backend.js] has a row for every
    stock row of the table, and a row of it shows the name of the product
    that has the row's business key, read from the products table (and no
    name when there is no such product); the listing of [part_000] has a
    row for every stock row too, and a row of it shows the name stored on
    the stock row.  In every consistent state with a stale copy the two
    listings differ on the columns they share, and such a state is
    reachable. *)
Theorem C9_stock_listings_differ :
  (forall d row,
      In row (Http.rows (fst (InventoryBackend.get_stock d))) ->
      exists s, In s (Pg.stock d) /\
                InventoryBackend.l_id row = Pg.s_id s /\
                InventoryBackend.l_id_produk row = Pg.s_id_produk s /\
                match InventoryBackend.l_nama_produk row with
                | Some n => exists p, In p (Pg.products d) /\
                                      Pg.s_id_produk s = Some (Pg.p_id_produk p) /\
                                      Pg.p_nama_produk p = n
                | None => forall p, In p (Pg.products d) ->
                                    Pg.s_id_produk s <> Some (Pg.p_id_produk p)
                end) /\
  (forall d s,
      In s (Pg.stock d) ->
      Http.status (fst (InventoryBackend.get_stock d)) = 200 /\
      exists row, In row (Http.rows (fst (InventoryBackend.get_stock d))) /\
                  InventoryBackend.l_id row = Pg.s_id s /\
                  InventoryBackend.l_id_produk row = Pg.s_id_produk s /\
                  InventoryBackend.l_jumlah_stok row = Pg.s_jumlah_stok s) /\
  (forall d search row,
      In row (Http.rows (fst (Part000.get_stock search d))) ->
      exists s, In s (Pg.stock d) /\
                Part000.l_id row = Pg.s_id s /\
                Part000.l_id_produk row = Pg.s_id_produk s /\
                Part000.l_nama_produk row = Pg.s_nama_produk s) /\
  (forall d s,
      In s (Pg.stock d) ->
      Http.status (fst (Part000.get_stock None d)) = 200 /\
      exists row, In row (Http.rows (fst (Part000.get_stock None d))) /\
                  Part000.l_id row = Pg.s_id s /\
                  Part000.l_id_produk row = Pg.s_id_produk s /\
                  Part000.l_nama_produk row = Pg.s_nama_produk s /\
                  Part000.l_jumlah_stok row = Pg.s_jumlah_stok s) /\
  (forall d s p,
      Schema.consistent d -> Spec.stale d s p ->
      map Spec.part000_columns (Http.rows (fst (Part000.get_stock None d)))
      <> map Spec.inventory_columns (Http.rows (fst (InventoryBackend.get_stock d)))) /\
  (exists d s p, Schema.reachable d /\ Spec.stale d s p).
Proof.
  split; [|split; [|split; [|split; [|split]]]].
  - intros d row Hrow.
    apply inventory_get_stock_rows in Hrow as (s & op & Hin & ->).
    apply in_left_join in Hin as [Hs Hop]. exists s. simpl.
    split; [exact Hs|]. split; [reflexivity|]. split; [reflexivity|].
    destruct op as [p|].
    + destruct Hop as [Hp Hk]. apply null_eqb_eq in Hk. now exists p.
    + intros p Hp Hk. specialize (Hop p Hp).
      rewrite (proj2 (null_eqb_eq _ _) Hk) in Hop. discriminate.
  - intros d s Hs. split; [reflexivity|].
    destruct (stock_row_joined d s Hs) as [op Hin].
    exists (InventoryBackend.select_listing (s, op)). split; [|now repeat split].
    apply inventory_get_stock_rows. eauto.
  - intros d search row Hrow.
    apply part000_get_stock_rows in Hrow as (s & op & Hin & ->).
    apply in_left_join in Hin as [Hs _]. exists s. simpl. now repeat split.
  - intros d s Hs. split; [reflexivity|].
    destruct (stock_row_joined d s Hs) as [op Hin].
    exists (Part000.select_listing (s, op)). split; [|now repeat split].
    rewrite part000_get_stock_all. now apply in_map.
  - intros d s p. apply stale_listings_differ.
  - exists (Pg.mkDb [Pg.mkProduct 1 "P1" "Gadget" None]
                    [Pg.mkStock 1 (Some "P1") "Widget" (Some 5)] [] 2 2 1),
           (Pg.mkStock 1 (Some "P1") "Widget" (Some 5)),
           (Pg.mkProduct 1 "P1" "Gadget" None).
    split.
    + exact (Schema.reachable_part000 _
               (Part000.PutProducts "P1"
                  (Http.mkBody None (Some "Gadget") None None None None None))
               (Schema.reachable_part000 _
                  (Part000.PostStock
                     (Http.mkBody (Some "P1") (Some "Widget") None (Some 5) None None None))
                  (Schema.reachable_part000 _
                     (Part000.PostProducts
                        (Http.mkBody (Some "P1") (Some "Widget") None None None None None))
                     Schema.reachable_empty))).
    + repeat split; try (now left). discriminate.
Qed.

Lemma C9_stock_listings_differ_witness :
  let d := Pg.mkDb [Pg.mkProduct 1 "P1" "Gadget" None]
                   [Pg.mkStock 1 (Some "P1") "Widget" (Some 5)] [] 2 2 1 in
  map Spec.part000_columns (Http.rows (fst (Part000.get_stock None d)))
  <> map Spec.inventory_columns (Http.rows (fst (InventoryBackend.get_stock d))).
Proof.
  intros d.
  destruct C9_stock_listings_differ as (_ & _ & _ & _ & Hdiff & _).
  apply (Hdiff d (Pg.mkStock 1 (Some "P1") "Widget" (Some 5))
               (Pg.mkProduct 1 "P1" "Gadget" None)).
  - apply reachable_consistent.
    exact (Schema.reachable_part000 _
             (Part000.PutProducts "P1"
                (Http.mkBody None (Some "Gadget") None None None None None))
             (Schema.reachable_part000 _
                (Part000.PostStock
                   (Http.mkBody (Some "P1") (Some "Widget") None (Some 5) None None None))
                (Schema.reachable_part000 _
                   (Part000.PostProducts
                      (Http.mkBody (Some "P1") (Some "Widget") None None None None None))
                   Schema.reachable_empty))).
  - repeat split; try (now left). discriminate.
Defined.

(** * Further properties of the two servers *)

(** ** The dashboard *)

Section Dashboard.
Import Pg Http Schema Spec Props.











Lemma length_snoc {A} (l : list A) (x : A) :
  Z.of_nat (List.length (l ++ [x])) = Z.of_nat (List.length l) + 1.
Proof. rewrite length_app. simpl. lia. Qed.
End Dashboard.



(** ** Listings in descending id order *)

Section Ordering.
Import Pg Http Schema Spec.

Lemma insert_desc_permutation {A} (key : A -> Z) (x : A) (l : list A) :
  Permutation (insert_desc key x l) (x :: l).
Proof.
  induction l as [|y l IH]; simpl; [reflexivity|].
  destruct (key y <? key x); [reflexivity|].
  rewrite IH. apply perm_swap.
Qed.

Lemma order_by_desc_permutation {A} (key : A -> Z) (l : list A) :
  Permutation (order_by_desc key l) l.
Proof.
  induction l as [|x l IH]; simpl; [reflexivity|].
  rewrite insert_desc_permutation. now apply perm_skip.
Qed.

Lemma insert_desc_sorted {A} (key : A -> Z) (x : A) (l : list A) :
  StronglySorted (fun a b => key b <= key a) l ->
  StronglySorted (fun a b => key b <= key a) (insert_desc key x l).
Proof.
  induction 1 as [|y l Hs IH Hy]; simpl.
  - constructor; constructor.
  - destruct (Z.ltb_spec (key y) (key x)) as [Hlt|Hge].
    + constructor; [now constructor|].
      constructor; [lia|].
      rewrite Forall_forall in *. intros z Hz. specialize (Hy z Hz). lia.
    + constructor; [exact IH|].
      rewrite Forall_forall in *. intros z Hz.
      apply in_insert_desc in Hz as [->|Hz]; [lia | now apply Hy].
Qed.

Lemma order_by_desc_sorted {A} (key : A -> Z) (l : list A) :
  StronglySorted (fun a b => key b <= key a) (order_by_desc key l).
Proof.
  induction l as [|x l IH]; simpl; [constructor|].
  now apply insert_desc_sorted.
Qed.

Lemma sorted_map {A B} (f : A -> B) (keyA : A -> Z) (keyB : B -> Z) (l : list A) :
  (forall a, keyB (f a) = keyA a) ->
  StronglySorted (fun a b => keyA b <= keyA a) l ->
  StronglySorted (fun a b => keyB b <= keyB a) (map f l).
Proof.
  intros Hk. induction 1 as [|x l Hs IH Hx]; simpl; constructor; auto.
  rewrite Forall_forall in *. intros y Hy.
  apply in_map_iff in Hy as (a & <- & Ha). rewrite !Hk. now apply Hx.
Qed.


Lemma filter_true {A} (l : list A) : filter (fun _ => true) l = l.
Proof. now apply filter_id. Qed.
End Ordering.

(** X2: the three listings of [inventory_backend.js] are answered 200 with
    every row of the table (for stock, of the join) exactly as often as it
    is there, the highest id first. *)
Theorem inventory_listings_newest_first (d : Pg.db) :
  (Http.status (fst (InventoryBackend.get_products d)) = 200 /\
   Permutation (Http.rows (fst (InventoryBackend.get_products d))) (Pg.products d) /\
   StronglySorted (fun a b => Pg.p_id b <= Pg.p_id a)
                  (Http.rows (fst (InventoryBackend.get_products d)))) /\
  (Http.status (fst (InventoryBackend.get_employees d)) = 200 /\
   Permutation (Http.rows (fst (InventoryBackend.get_employees d))) (Pg.employees d) /\
   StronglySorted (fun a b => Pg.e_id b <= Pg.e_id a)
                  (Http.rows (fst (InventoryBackend.get_employees d)))) /\
  (Http.status (fst (InventoryBackend.get_stock d)) = 200 /\
   Permutation (Http.rows (fst (InventoryBackend.get_stock d)))
               (map InventoryBackend.select_listing (Pg.left_join d)) /\
   StronglySorted (fun a b => InventoryBackend.l_id b <= InventoryBackend.l_id a)
                  (Http.rows (fst (InventoryBackend.get_stock d)))).
Proof.
  unfold InventoryBackend.get_products, InventoryBackend.get_employees,
    InventoryBackend.get_stock, Pg.try_catch, Pg.bind, Pg.ret,
    Pg.select_products, Pg.select_employees, Pg.select_left_join, Http.rows.
  cbn [fst Http.payload Http.status]. rewrite !filter_true.
  repeat split.
  - apply order_by_desc_permutation.
  - apply order_by_desc_sorted.
  - apply order_by_desc_permutation.
  - apply order_by_desc_sorted.
  - apply Permutation_map, order_by_desc_permutation.
  - apply (sorted_map _ (fun sp => Pg.s_id (fst sp))).
    + now intros [s op].
    + apply order_by_desc_sorted.
Qed.

(** ** A product after its creation *)



(** ** Products: create then delete, and update *)

Section ProductWrites.
Import Pg Http Schema Spec.




(** An update that matches the one row [x] of id [key x]: the table holds
    the new version of [x] in its place, up to the order of the rows. *)
Lemma update_one {A} (where_ : A -> bool) (key : A -> Z) (set : A -> A)
      (l : list A) (x row : A) :
  NoDup (map key l) -> In x l ->
  (forall y, In y l -> where_ y = (key y =? key x)) -> set x = row ->
  Permutation (update where_ set l) (map (fun y => if key y =? key x then row else y) l).
Proof.
  intros Hnd Hx Hw Hrow. etransitivity; [apply update_permutation|].
  erewrite map_ext_in; [reflexivity|]. intros y Hy. cbv beta.
  rewrite Hw by exact Hy.
  destruct (Z.eqb_spec (key y) (key x)) as [Hi|_]; [|reflexivity].
  now rewrite (NoDup_map_inj key _ y x Hnd Hy Hx Hi).
Qed.

End ProductWrites.





(** X6: an update of an existing product that carries no name, and an
    update of an existing employee that carries no name, break the
    [NOT NULL] constraint: both servers answer 500 and the database is as it
    was, the other fields of the request are not written either. *)
Theorem put_without_name_refused (d : Pg.db) (b : Http.req_body) :
  (forall p, In p (Pg.products d) -> Http.nama_produk b = None ->
             Spec.answered_unchanged 500 (Part000.put_products (Pg.p_id_produk p) b) d /\
             Spec.answered_unchanged 500 (InventoryBackend.put_products (Pg.p_id p) b) d) /\
  (forall e, In e (Pg.employees d) -> Http.nama b = None ->
             Spec.answered_unchanged 500 (Part000.put_employees (Pg.e_id e) b) d /\
             Spec.answered_unchanged 500 (InventoryBackend.put_employees (Pg.e_id e) b) d).
Proof.
  split.
  - intros p Hp Hn.
    unfold Spec.answered_unchanged, Part000.put_products, InventoryBackend.put_products,
      Pg.try_catch, Pg.bind, Pg.update_products, Pg.bind, Pg.lift.
    cbn [Http.read Http.route Pg.with_id]. rewrite Hn. cbn [Pg.varchar].
    destruct (Pg.varchar 100 (Http.kategori_produk b)); [|now repeat split].
    unfold Pg.exec_update_products.
    replace (existsb (fun p' => String.eqb (Pg.p_id_produk p') (Pg.p_id_produk p)) _)
      with true
      by (symmetry; apply existsb_exists; exists p; split; auto; apply String.eqb_refl).
    replace (existsb (fun p' => Pg.p_id p' =? Pg.p_id p) _) with true
      by (symmetry; apply existsb_exists; exists p; split; auto; apply Z.eqb_refl).
    now repeat split.
  - intros e He Hn.
    unfold Spec.answered_unchanged, Part000.put_employees, InventoryBackend.put_employees,
      Pg.try_catch, Pg.bind, Pg.update_employees, Pg.bind, Pg.lift.
    cbn [Http.read Http.route Pg.with_id]. rewrite Hn. cbn [Pg.varchar].
    destruct (Pg.varchar 100 (Http.posisi b)); [|now repeat split].
    destruct (Pg.varchar 100 (Http.email b)); [|now repeat split].
    unfold Pg.exec_update_employees.
    replace (existsb _ _) with true
      by (symmetry; apply existsb_exists; exists e; split; auto; apply Z.eqb_refl).
    now repeat split.
Qed.

Lemma put_without_name_refused_witness :
  let d := Pg.mkDb [Pg.mkProduct 1 "P1" "Widget" None] [] [] 2 1 1 in
  let b := Http.mkBody None None (Some "Tools") None None None None in
  Spec.answered_unchanged 500 (Part000.put_products "P1" b) d /\
  Spec.answered_unchanged 500 (InventoryBackend.put_products 1 b) d.
Proof.
  intros d b.
  destruct (put_without_name_refused d b) as [H _].
  apply (H (Pg.mkProduct 1 "P1" "Widget" None)); [now left | reflexivity].
Defined.

(** ** Stock rows: create in [part_000], update and delete in both *)

Section StockWrites.
Import Pg Http Schema Spec.

Lemma select_stock_by_id d s :
  consistent d -> In s (stock d) ->
  filter (fun s' => s_id s' =? s_id s) (stock d) = [s].
Proof.
  intros H Hs. apply filter_unique; auto.
  - exact (NoDup_map_inv _ _ (stock_pkey d H)).
  - apply Z.eqb_refl.
  - intros y Hy Hid. apply Z.eqb_eq in Hid.
    exact (NoDup_map_inj s_id _ y s (stock_pkey d H) Hy Hs Hid).
Qed.

Lemma stock_key_is_id d s k s' :
  consistent d -> In s (stock d) -> s_id_produk s = Some k -> In s' (stock d) ->
  null_eqb (s_id_produk s') k = (s_id s' =? s_id s).
Proof.
  intros H Hs Hk Hs'.
  destruct (Z.eqb_spec (s_id s') (s_id s)) as [Hi|Hi].
  - rewrite (NoDup_map_inj s_id _ s' s (stock_pkey d H) Hs' Hs Hi). now apply null_eqb_eq.
  - destruct (null_eqb _ _) eqn:E; [|reflexivity]. exfalso. apply Hi. f_equal.
    assert (Hsel := select_stock_by_key d s k H Hs Hk).
    assert (Hin : In s' (filter (fun x => null_eqb (s_id_produk x) k) (stock d)))
      by now apply filter_In.
    rewrite Hsel in Hin. destruct Hin as [<-|[]]. reflexivity.
Qed.


Lemma inventory_put_stock_state d b s q :
  consistent d -> In s (stock d) -> integer (jumlah_stok b) = Done q ->
  exists d',
    InventoryBackend.put_stock (s_id s) b d
    = (mkResponse 200 (Json (Some (set_jumlah_stok q s))), d') /\
    stock d' = update (fun x => s_id x =? s_id s) (set_jumlah_stok q) (stock d) /\
    products d' = products d /\
    consistent d'.
Proof.
  intros H Hs Fq.
  assert (Hc := inventory_serve_consistent (InventoryBackend.PutStock (s_id s) b) d H).
  simpl in Hc. rewrite snd_serve in Hc. revert Hc.
  unfold InventoryBackend.put_stock, try_catch, bind, ret. cbn [read route with_id].
  rewrite (update_stock_jumlah_exec _ _ _ _ Fq). unfold exec_update_stock_jumlah.
  rewrite select_stock_by_id by assumption. cbn [map].
  rewrite rowCount_cons. cbn [hd_error snd]. intros Hc.
  eexists. split; [reflexivity|]. split; [reflexivity|]. split; [reflexivity|exact Hc].
Qed.

End StockWrites.





(** X9: an update of an existing stock row, by id in
    [inventory_backend.js] and by business key in [part_000], with a
    quantity that is absent or an [INTEGER], is answered 200 with the row
    at the quantity of the request (NULL when the request has none); the
    table then holds that row with the id, the key and the name it had, and
    every other row as it was, and the products table stays. *)
Theorem put_stock_replaces_quantity
        (d : Pg.db) (b : Http.req_body) (s : Pg.stock_row) (q : option Z) :
  Schema.consistent d -> In s (Pg.stock d) ->
  Pg.integer (Http.jumlah_stok b) = Pg.Done q ->
  let row := Pg.mkStock (Pg.s_id s) (Pg.s_id_produk s) (Pg.s_nama_produk s) q in
  let stock' := map (fun x => if Pg.s_id x =? Pg.s_id s then row else x) (Pg.stock d) in
  (exists d',
      InventoryBackend.put_stock (Pg.s_id s) b d
      = (Http.mkResponse 200 (Http.Json (Some row)), d') /\
      Permutation (Pg.stock d') stock' /\ Pg.products d' = Pg.products d) /\
  (forall k, Pg.s_id_produk s = Some k ->
     exists d',
       Part000.put_stock k b d = (Http.mkResponse 200 (Http.Json (Some row)), d') /\
       Permutation (Pg.stock d') stock' /\ Pg.products d' = Pg.products d).
Proof.
  intros H Hs Fq row stock'.
  split.
  - destruct (inventory_put_stock_state d b s q H Hs Fq) as (d' & E & Hstock & Hprod & _).
    exists d'. split; [exact E|]. split; [|exact Hprod].
    rewrite Hstock. apply update_one; try assumption; try reflexivity.
    exact (Schema.stock_pkey d H).
  - intros k Hk. eexists.
    unfold Part000.put_stock, Pg.try_catch, Pg.bind, Pg.ret.
    rewrite (update_stock_jumlah_exec _ _ _ _ Fq). unfold Pg.exec_update_stock_jumlah.
    rewrite (select_stock_by_key d s k) by assumption. cbn [map].
    rewrite rowCount_cons.
    cbn [hd_error Pg.stock Pg.products].
    split; [reflexivity|]. split; [|reflexivity].
    apply update_one; try assumption; try reflexivity.
    + exact (Schema.stock_pkey d H).
    + intros y Hy. now apply (stock_key_is_id d).
Qed.

Lemma put_stock_replaces_quantity_witness :
  let d := Pg.mkDb [Pg.mkProduct 1 "P1" "Widget" None]
                   [Pg.mkStock 1 (Some "P1") "Widget" (Some 5)] [] 2 2 1 in
  let b := Http.mkBody None None None None None None None in
  exists d',
    InventoryBackend.put_stock 1 b d
    = (Http.mkResponse 200 (Http.Json (Some (Pg.mkStock 1 (Some "P1") "Widget" None))), d') /\
    Permutation (Pg.stock d') [Pg.mkStock 1 (Some "P1") "Widget" None] /\
    Pg.products d' = Pg.products d.
Proof.
  intros d b.
  destruct (put_stock_replaces_quantity d b (Pg.mkStock 1 (Some "P1") "Widget" (Some 5)) None)
    as [H _].
  - apply reachable_consistent.
    exact (Schema.reachable_part000 _
             (Part000.PostStock
                (Http.mkBody (Some "P1") (Some "Widget") None (Some 5) None None None))
             (Schema.reachable_part000 _
                (Part000.PostProducts
                   (Http.mkBody (Some "P1") (Some "Widget") None None None None None))
                Schema.reachable_empty)).
  - now left.
  - reflexivity.
  - exact H.
Defined.

(** X10: a delete of an existing stock row, by id in
    [inventory_backend.js] (204) and by business key in [part_000] (200
    with the deleted row), removes that row and no other, and leaves the
    products table alone. *)
Theorem delete_stock_removes_one (d : Pg.db) (s : Pg.stock_row) :
  Schema.consistent d -> In s (Pg.stock d) ->
  let stock' := filter (fun x => negb (Pg.s_id x =? Pg.s_id s)) (Pg.stock d) in
  (forall x, In x stock' <-> In x (Pg.stock d) /\ x <> s) /\
  (exists d',
      InventoryBackend.delete_stock (Pg.s_id s) d = (Http.mkResponse 204 Http.NoBody, d') /\
      Pg.stock d' = stock' /\ Pg.products d' = Pg.products d) /\
  (forall k, Pg.s_id_produk s = Some k ->
     exists d',
       Part000.delete_stock k d
       = (Http.mkResponse 200
            (Http.Json (Http.mkDeleted "Stok berhasil dihapus" (Some s))), d') /\
       Pg.stock d' = stock' /\ Pg.products d' = Pg.products d).
Proof.
  intros H Hs stock'. split; [|split].
  - intros x. unfold stock'. rewrite filter_In, negb_true_iff, Z.eqb_neq. split.
    + intros [Hx Hi]. split; [exact Hx|]. intros ->. now apply Hi.
    + intros [Hx Hne]. split; [exact Hx|]. intros Hi. apply Hne.
      exact (NoDup_map_inj Pg.s_id _ x s (Schema.stock_pkey d H) Hx Hs Hi).
  - eexists. unfold InventoryBackend.delete_stock, Pg.try_catch, Pg.bind, Pg.ret.
    cbn [Http.read Http.route Pg.with_id]. unfold Pg.delete_stock.
    rewrite select_stock_by_id, rowCount_cons by assumption. now repeat split.
  - intros k Hk. eexists.
    unfold Part000.delete_stock, Pg.try_catch, Pg.bind, Pg.ret, Pg.delete_stock.
    rewrite (select_stock_by_key d s k), rowCount_cons by assumption.
    cbn [hd_error Pg.stock Pg.products].
    split; [reflexivity|]. split; [|reflexivity].
    apply filter_ext_in. intros x Hx. now rewrite (stock_key_is_id d s k x).
Qed.

Lemma delete_stock_removes_one_witness :
  let d := Pg.mkDb [Pg.mkProduct 1 "P1" "Widget" None]
                   [Pg.mkStock 1 (Some "P1") "Widget" (Some 5)] [] 2 2 1 in
  exists d',
    Part000.delete_stock "P1" d
    = (Http.mkResponse 200
         (Http.Json (Http.mkDeleted "Stok berhasil dihapus"
                       (Some (Pg.mkStock 1 (Some "P1") "Widget" (Some 5))))), d') /\
    Pg.stock d' = [] /\ Pg.products d' = Pg.products d.
Proof.
  intros d.
  destruct (delete_stock_removes_one d (Pg.mkStock 1 (Some "P1") "Widget" (Some 5)))
    as (_ & _ & H).
  - apply reachable_consistent.
    exact (Schema.reachable_part000 _
             (Part000.PostStock
                (Http.mkBody (Some "P1") (Some "Widget") None (Some 5) None None None))
             (Schema.reachable_part000 _
                (Part000.PostProducts
                   (Http.mkBody (Some "P1") (Some "Widget") None None None None None))
                Schema.reachable_empty)).
  - now left.
  - exact (H "P1" eq_refl).
Defined.

(** ** Employees *)

Section EmployeeWrites.
Import Pg Http Schema Spec.




End EmployeeWrites.





(** ** What a request may touch *)

(** The cases of the parameters of a statement, and of its checks. *)
Ltac params :=
  unfold Pg.insert_product, Pg.update_products, Pg.insert_stock, Pg.update_stock_jumlah,
    Pg.update_stock_nama, Pg.insert_employee, Pg.update_employees, Pg.bind, Pg.lift;
  repeat match goal with
         | |- context [Pg.varchar ?n ?v] => destruct (Pg.varchar n v)
         | |- context [Pg.integer ?v] => destruct (Pg.integer v)
         end.

Ltac cases :=
  repeat match goal with
         | |- context [if ?c then _ else _] => destruct c
         | |- context [match ?x with Some _ => _ | None => _ end] => destruct x
         | |- context [match ?x with Pg.Done _ => _ | Pg.Raise _ => _ end] => destruct x
         end.

Section Frames.
Import Pg Http Schema Spec Props.

Lemma frame_preserves {X A} (f : db -> X) (q : query A) (x : X) :
  (forall d, f (snd (q d)) = f d) -> preserves (fun d => f d = x) q.
Proof. intros H d Hd. now rewrite H. Qed.

Lemma insert_product_frame k n c d :
  stock (snd (insert_product k n c d)) = stock d /\
  employees (snd (insert_product k n c d)) = employees d.
Proof. params; unfold exec_insert_product; cases; now split. Qed.

Lemma update_products_frame w n c d :
  stock (snd (update_products w n c d)) = stock d /\
  employees (snd (update_products w n c d)) = employees d.
Proof. params; unfold exec_update_products; cases; now split. Qed.

Lemma insert_stock_frame k n q d :
  products (snd (insert_stock k n q d)) = products d /\
  employees (snd (insert_stock k n q d)) = employees d.
Proof. params; unfold exec_insert_stock; cases; now split. Qed.

Lemma update_stock_jumlah_frame w q d :
  products (snd (update_stock_jumlah w q d)) = products d /\
  employees (snd (update_stock_jumlah w q d)) = employees d.
Proof. params; now split. Qed.

Lemma update_stock_nama_frame n id d :
  products (snd (update_stock_nama n id d)) = products d /\
  employees (snd (update_stock_nama n id d)) = employees d.
Proof. params; unfold exec_update_stock_nama; cases; now split. Qed.

Lemma insert_employee_frame n p m d :
  products (snd (insert_employee n p m d)) = products d /\
  stock (snd (insert_employee n p m d)) = stock d.
Proof. params; unfold exec_insert_employee; cases; now split. Qed.

Lemma update_employees_frame id n p m d :
  products (snd (update_employees id n p m d)) = products d /\
  stock (snd (update_employees id n p m d)) = stock d.
Proof. params; unfold exec_update_employees; cases; now split. Qed.

Lemma handler_frame {X A} (f : db -> X) (body : query A) (h : sqlstate -> A) d :
  (forall x, preserves (fun d' => f d' = x) body) ->
  f (snd (try_catch body h d)) = f d.
Proof.
  intros Hb. now apply (preserves_try_catch (fun d' => f d' = f d)).
Qed.
End Frames.

Ltac frames :=
  apply handler_frame; intros ?;
  repeat first
    [ apply frame_preserves; intros ?;
      first [ apply insert_product_frame | apply update_products_frame
            | apply insert_stock_frame | apply update_stock_jumlah_frame
            | apply update_stock_nama_frame
            | apply insert_employee_frame | apply update_employees_frame
            | reflexivity ]
    | apply preserves_with_id; intros ?
    | apply preserves_bind; [|intros ?]
    | apply preserves_if
    | apply preserves_ret ].

Section FramedRequests.
Import Pg Http Schema Spec Props.

Lemma inventory_post_stock_frame b d :
  products (snd (InventoryBackend.post_stock b d)) = products d /\
  employees (snd (InventoryBackend.post_stock b d)) = employees d.
Proof.
  unfold InventoryBackend.post_stock.
  destruct (falsy (id_produk b) || not_number (jumlah_stok b)); [now split|].
  unfold try_catch, bind, select_products, select_stock.
  destruct (filter _ (products d)) as [|product ps]; [now split|].
  destruct (filter _ (stock d)) as [|existing rest].
  - match goal with |- context [insert_stock ?k ?n ?q d] =>
      destruct (insert_stock_frame k n q d) as [Hp He];
      destruct (insert_stock k n q d) as [[rows|e] d'] end; now split.
  - match goal with |- context [update_stock_jumlah ?w ?q d] =>
      destruct (update_stock_jumlah_frame w q d) as [Hp He];
      destruct (update_stock_jumlah w q d) as [[rows|e] d'] end; now split.
Qed.
End FramedRequests.

(** X13: in both servers a request about employees leaves the products and
    the stock table as they are, any other request leaves the employees
    table as it is, and a request about stock leaves the products table as
    it is. *)
Theorem requests_stay_within_their_tables (d : Pg.db) :
  (forall r, Props.within_its_tables (Props.part000_on_employees r) (Props.part000_on_stock r)
                                     d (snd (Part000.serve r d))) /\
  (forall r, Props.within_its_tables (Props.inventory_on_employees r)
                                     (Props.inventory_on_stock r)
                                     d (snd (InventoryBackend.serve r d))).
Proof.
  split; intros r; unfold Props.within_its_tables;
    destruct r; simpl; rewrite snd_serve.
  - split; [|discriminate]. unfold Part000.post_products. frames.
  - split; [|discriminate]. unfold Part000.put_products. frames.
  - split; [|discriminate]. unfold Part000.delete_products. frames.
  - split; [|intros _]; unfold Part000.post_stock; frames.
  - split; [|intros _]; unfold Part000.put_stock; frames.
  - split; [|intros _]; unfold Part000.delete_stock; frames.
  - split; [|discriminate]. split; unfold Part000.post_employees; frames.
  - split; [|discriminate]. split; unfold Part000.put_employees; frames.
  - split; [|discriminate]. split; unfold Part000.delete_employees; frames.
  - split; [|discriminate]. unfold InventoryBackend.post_products.
    destruct (Http.falsy _ || Http.falsy _); [reflexivity|]. frames.
  - split; [|discriminate]. unfold InventoryBackend.put_products. frames.
  - split; [|discriminate]. unfold InventoryBackend.delete_products. frames.
  - split; [|intros _]; apply inventory_post_stock_frame.
  - split; [|intros _]; unfold InventoryBackend.put_stock; frames.
  - split; [|intros _]; unfold InventoryBackend.delete_stock; frames.
  - split; [|discriminate]. unfold InventoryBackend.post_employees.
    destruct (Http.falsy _ || Http.falsy _); [now split|]. split; frames.
  - split; [|discriminate]. split; unfold InventoryBackend.put_employees; frames.
  - split; [|discriminate]. split; unfold InventoryBackend.delete_employees; frames.
Qed.

(** ** Ids and business keys are never rewritten *)

Section Identity.
Import Pg Http Schema Spec Props.

Lemma keeps_identity_refl d : keeps_identity d d.
Proof.
  repeat split; try lia; intros x Hx; right; exists x; now repeat split.
Qed.

Lemma keeps_identity_trans d0 d1 d2 :
  keeps_identity d0 d1 -> keeps_identity d1 d2 -> keeps_identity d0 d2.
Proof.
  intros (Hp1 & Hs1 & HP1 & HS1) (Hp2 & Hs2 & HP2 & HS2).
  split; [lia|]. split; [lia|]. split.
  - intros p Hp. destruct (HP2 p Hp) as [Hnew|(p1 & Hin1 & Hid & Hkey)]; [left; lia|].
    destruct (HP1 p1 Hin1) as [Hnew|(p0 & Hin0 & Hid0 & Hkey0)]; [left; lia|].
    right. exists p0. split; [exact Hin0|]. split; congruence.
  - intros s Hs. destruct (HS2 s Hs) as [Hnew|(s1 & Hin1 & Hid & Hkey)]; [left; lia|].
    destruct (HS1 s1 Hin1) as [Hnew|(s0 & Hin0 & Hid0 & Hkey0)]; [left; lia|].
    right. exists s0. split; [exact Hin0|]. split; congruence.
Qed.

(** A state whose rows come from [d] by a map that keeps ids and keys, by a
    filter, or by appending a row with the next id. *)
Lemma keeps_identity_step d products' stock' employees' sp ss se :
  products_id_seq d <= sp -> stock_id_seq d <= ss ->
  (forall p, In p products' ->
             products_id_seq d <= p_id p \/
             exists p0, In p0 (products d) /\ p_id p0 = p_id p /\
                        p_id_produk p0 = p_id_produk p) ->
  (forall s, In s stock' ->
             stock_id_seq d <= s_id s \/
             exists s0, In s0 (stock d) /\ s_id s0 = s_id s /\
                        s_id_produk s0 = s_id_produk s) ->
  keeps_identity d (mkDb products' stock' employees' sp ss se).
Proof. intros. now repeat split. Qed.

Lemma same_product d p :
  In p (products d) ->
  products_id_seq d <= p_id p \/
  exists p0, In p0 (products d) /\ p_id p0 = p_id p /\ p_id_produk p0 = p_id_produk p.
Proof. intros Hp. right. exists p. now repeat split. Qed.

Lemma same_stock d s :
  In s (stock d) ->
  stock_id_seq d <= s_id s \/
  exists s0, In s0 (stock d) /\ s_id s0 = s_id s /\ s_id_produk s0 = s_id_produk s.
Proof. intros Hs. right. exists s. now repeat split. Qed.

Lemma exec_insert_product_identity k n c d :
  keeps_identity d (snd (exec_insert_product k n c d)).
Proof.
  unfold exec_insert_product.
  assert (Hbump : keeps_identity d
            (mkDb (products d) (stock d) (employees d)
                  (products_id_seq d + 1) (stock_id_seq d) (employees_id_seq d)))
    by (apply keeps_identity_step; try lia; auto using same_product, same_stock).
  destruct (serial _); cbn [negb]; [|apply keeps_identity_refl].
  destruct k, n; try exact Hbump.
  destruct (existsb _ _); [exact Hbump|]. destruct (existsb _ _); [exact Hbump|].
  apply keeps_identity_step; try lia; auto using same_stock.
  intros p Hp. apply in_app_iff in Hp as [Hp|[<-|[]]]; [now apply same_product|].
  left. simpl. lia.
Qed.

Lemma insert_product_identity k n c d : keeps_identity d (snd (insert_product k n c d)).
Proof. params; first [apply exec_insert_product_identity | apply keeps_identity_refl]. Qed.

Lemma exec_update_products_identity w n c d :
  keeps_identity d (snd (exec_update_products w n c d)).
Proof.
  unfold exec_update_products.
  destruct (existsb _ _); [|apply keeps_identity_refl].
  destruct n; [|apply keeps_identity_refl].
  apply keeps_identity_step; try lia; auto using same_stock.
  intros p Hp. apply in_update in Hp as [[Hp _]|(p0 & Hp0 & _ & ->)];
    [now apply same_product|].
  right. exists p0. now repeat split.
Qed.

Lemma update_products_identity w n c d : keeps_identity d (snd (update_products w n c d)).
Proof. params; first [apply exec_update_products_identity | apply keeps_identity_refl]. Qed.

Lemma delete_products_identity w d : keeps_identity d (snd (Pg.delete_products w d)).
Proof.
  apply keeps_identity_step; try lia.
  - intros p Hp. apply filter_In in Hp as [Hp _]. now apply same_product.
  - intros s Hs. apply filter_In in Hs as [Hs _]. now apply same_stock.
Qed.

Lemma exec_insert_stock_identity k n q d :
  keeps_identity d (snd (exec_insert_stock k n q d)).
Proof.
  unfold exec_insert_stock.
  assert (Hbump : keeps_identity d
            (mkDb (products d) (stock d) (employees d)
                  (products_id_seq d) (stock_id_seq d + 1) (employees_id_seq d)))
    by (apply keeps_identity_step; try lia; auto using same_product, same_stock).
  destruct (serial _); cbn [negb]; [|apply keeps_identity_refl].
  destruct n; [|exact Hbump].
  destruct (existsb _ _); [exact Hbump|].
  destruct (match k with Some _ => _ | None => _ end); [exact Hbump|].
  destruct (match k with Some _ => _ | None => _ end); [exact Hbump|].
  apply keeps_identity_step; try lia; auto using same_product.
  intros row Hs. apply in_app_iff in Hs as [Hs|[<-|[]]]; [now apply same_stock|].
  left. simpl. lia.
Qed.

Lemma insert_stock_identity k n q d : keeps_identity d (snd (insert_stock k n q d)).
Proof. params; first [apply exec_insert_stock_identity | apply keeps_identity_refl]. Qed.

Lemma exec_update_stock_jumlah_identity w q d :
  keeps_identity d (snd (exec_update_stock_jumlah w q d)).
Proof.
  apply keeps_identity_step; try lia; auto using same_product.
  intros s Hs. apply in_update in Hs as [[Hs _]|(s0 & Hs0 & _ & ->)];
    [now apply same_stock|].
  right. exists s0. now repeat split.
Qed.

Lemma update_stock_jumlah_identity w q d :
  keeps_identity d (snd (update_stock_jumlah w q d)).
Proof. params; first [apply exec_update_stock_jumlah_identity | apply keeps_identity_refl]. Qed.

Lemma exec_update_stock_nama_identity n id d :
  keeps_identity d (snd (exec_update_stock_nama n id d)).
Proof.
  unfold exec_update_stock_nama.
  destruct (scalar _) as [[k|]|]; try apply keeps_identity_refl.
  destruct (existsb _ _); [|apply keeps_identity_refl].
  destruct n; [|apply keeps_identity_refl].
  apply keeps_identity_step; try lia; auto using same_product.
  intros row Hs. apply in_update in Hs as [[Hs _]|(s0 & Hs0 & _ & ->)];
    [now apply same_stock|].
  right. exists s0. now repeat split.
Qed.

Lemma update_stock_nama_identity n id d :
  keeps_identity d (snd (update_stock_nama n id d)).
Proof. params; first [apply exec_update_stock_nama_identity | apply keeps_identity_refl]. Qed.

Lemma delete_stock_identity w d : keeps_identity d (snd (Pg.delete_stock w d)).
Proof.
  apply keeps_identity_step; try lia; auto using same_product.
  intros s Hs. apply filter_In in Hs as [Hs _]. now apply same_stock.
Qed.

Lemma unchanged_identity d d' :
  products d' = products d -> stock d' = stock d ->
  products_id_seq d' = products_id_seq d -> stock_id_seq d' = stock_id_seq d ->
  keeps_identity d d'.
Proof.
  intros Hp Hs Hps Hss. unfold keeps_identity. rewrite Hp, Hs, Hps, Hss.
  apply keeps_identity_refl.
Qed.

Lemma insert_employee_identity n p m d : keeps_identity d (snd (insert_employee n p m d)).
Proof.
  params; unfold exec_insert_employee; cases; now apply unchanged_identity.
Qed.

Lemma update_employees_identity id n p m d :
  keeps_identity d (snd (update_employees id n p m d)).
Proof.
  params; unfold exec_update_employees; cases; now apply unchanged_identity.
Qed.

Lemma delete_employees_identity id d : keeps_identity d (snd (Pg.delete_employees id d)).
Proof. now apply unchanged_identity. Qed.

Lemma identity_preserves {A} (q : query A) d0 :
  (forall d, keeps_identity d (snd (q d))) -> preserves (keeps_identity d0) q.
Proof. intros H d Hd. exact (keeps_identity_trans d0 d _ Hd (H d)). Qed.

Lemma handler_identity {A} (body : query A) (h : sqlstate -> A) d :
  (forall d0, preserves (keeps_identity d0) body) ->
  keeps_identity d (snd (try_catch body h d)).
Proof.
  intros Hb. apply (preserves_try_catch (keeps_identity d)); [apply Hb|].
  apply keeps_identity_refl.
Qed.
End Identity.

Ltac identities :=
  apply handler_identity; intros ?;
  repeat first
    [ apply identity_preserves; intros ?;
      first [ apply insert_product_identity | apply update_products_identity
            | apply delete_products_identity | apply insert_stock_identity
            | apply update_stock_jumlah_identity | apply update_stock_nama_identity
            | apply delete_stock_identity | apply insert_employee_identity
            | apply update_employees_identity | apply delete_employees_identity
            | apply keeps_identity_refl ]
    | apply preserves_with_id; intros ?
    | apply preserves_bind; [|intros ?]
    | apply preserves_if
    | apply preserves_ret ].

Section IdentityRequests.
Import Pg Http Schema Spec Props.

Lemma inventory_post_stock_identity b d :
  keeps_identity d (snd (InventoryBackend.post_stock b d)).
Proof.
  unfold InventoryBackend.post_stock.
  destruct (falsy (id_produk b) || not_number (jumlah_stok b)); [apply keeps_identity_refl|].
  apply handler_identity. intros d0.
  apply preserves_bind; [apply identity_preserves; intros ?; apply keeps_identity_refl|].
  intros [|product ps]; [apply preserves_ret|].
  apply preserves_bind; [apply identity_preserves; intros ?; apply keeps_identity_refl|].
  intros [|existing rest]; (apply preserves_bind; [|intros ?; apply preserves_ret]);
    apply identity_preserves; intros ?.
  - apply insert_stock_identity.
  - apply update_stock_jumlah_identity.
Qed.
End IdentityRequests.

(** X14: no request of either server rewrites an id or a business key:
    after a request, every product and every stock row was there before
    under the same id and the same business key, or its id is at least the
    value its sequence had before the request.  The relation is transitive,
    so it holds over any run of requests. *)
Theorem requests_keep_identity (d : Pg.db) :
  (forall r, Props.keeps_identity d (snd (Part000.serve r d))) /\
  (forall r, Props.keeps_identity d (snd (InventoryBackend.serve r d))) /\
  (forall d1 d2, Props.keeps_identity d d1 -> Props.keeps_identity d1 d2 ->
                 Props.keeps_identity d d2).
Proof.
  split; [|split].
  - intros r. destruct r; simpl; rewrite snd_serve.
    + unfold Part000.post_products. identities.
    + unfold Part000.put_products. identities.
    + unfold Part000.delete_products. identities.
    + unfold Part000.post_stock. identities.
    + unfold Part000.put_stock. identities.
    + unfold Part000.delete_stock. identities.
    + unfold Part000.post_employees. identities.
    + unfold Part000.put_employees. identities.
    + unfold Part000.delete_employees. identities.
  - intros r. destruct r; simpl; rewrite snd_serve.
    + unfold InventoryBackend.post_products.
      destruct (Http.falsy _ || Http.falsy _); [apply keeps_identity_refl|]. identities.
    + unfold InventoryBackend.put_products. identities.
    + unfold InventoryBackend.delete_products. identities.
    + apply inventory_post_stock_identity.
    + unfold InventoryBackend.put_stock. identities.
    + unfold InventoryBackend.delete_stock. identities.
    + unfold InventoryBackend.post_employees.
      destruct (Http.falsy _ || Http.falsy _); [apply keeps_identity_refl|]. identities.
    + unfold InventoryBackend.put_employees. identities.
    + unfold InventoryBackend.delete_employees. identities.
  - intros d1 d2. apply keeps_identity_trans.
Qed.

(** ** Searching *)

Section MoreSearch.
Import Pg Ilike Http Schema Spec Props.

Lemma lower_string_empty s : String.eqb (lower_string s) "" = String.eqb s "".
Proof. now destruct s. Qed.

Lemma ilike_lower column s1 s2 :
  lower_string s1 = lower_string s2 ->
  ilike column (Part000.pattern s1) = ilike column (Part000.pattern s2).
Proof.
  intros E. unfold ilike. destruct column; [|reflexivity].
  now rewrite !lower_pattern, E.
Qed.

Lemma falsy_lower s1 s2 :
  lower_string s1 = lower_string s2 -> falsy (Some s1) = falsy (Some s2).
Proof.
  intros E. simpl. now rewrite <- (lower_string_empty s1), <- (lower_string_empty s2), E.
Qed.

End MoreSearch.



(** X16: the three searches of [part_000] do not see the case of the
    letters of the parameter: two parameters that are equal once lower-cased,
    wildcards and all, are answered alike. *)
Theorem search_ignores_case (s1 s2 : string) (d : Pg.db) :
  Ilike.lower_string s1 = Ilike.lower_string s2 ->
  Part000.get_products (Some s1) d = Part000.get_products (Some s2) d /\
  Part000.get_stock (Some s1) d = Part000.get_stock (Some s2) d /\
  Part000.get_employees (Some s1) d = Part000.get_employees (Some s2) d.
Proof.
  intros E.
  assert (Hf := falsy_lower s1 s2 E).
  split; [|split].
  - unfold Part000.get_products, Pg.try_catch, Pg.bind, Pg.select_products, Pg.ret.
    do 3 f_equal. apply filter_ext. intros p. unfold Part000.products_where.
    rewrite Hf. destruct (Http.falsy (Some s2)); [reflexivity|].
    now rewrite !(ilike_lower _ s1 s2 E).
  - unfold Part000.get_stock, Pg.try_catch, Pg.bind, Pg.select_left_join, Pg.ret.
    do 4 f_equal. apply filter_ext. intros sp. unfold Part000.stock_where.
    rewrite Hf. destruct (Http.falsy (Some s2)); [reflexivity|].
    now rewrite !(ilike_lower _ s1 s2 E).
  - unfold Part000.get_employees, Pg.try_catch, Pg.bind, Pg.select_employees, Pg.ret.
    do 3 f_equal. apply filter_ext. intros e. unfold Part000.employees_where.
    rewrite Hf. destruct (Http.falsy (Some s2)); [reflexivity|].
    now rewrite !(ilike_lower _ s1 s2 E).
Qed.

Lemma search_ignores_case_witness :
  Part000.get_products (Some "WID%") Pg.empty = Part000.get_products (Some "wid%") Pg.empty.
Proof.
  destruct (search_ignores_case "WID%" "wid%" Pg.empty eq_refl) as [H _].
  exact H.
Defined.

(** ** The statuses of the routes *)

Ltac statuses :=
  repeat match goal with
         | |- context [match ?x with _ => _ end] =>
             lazymatch x with
             | context [match _ with _ => _ end] => fail
             | _ => destruct x
             end
         end;
  cbn; tauto.

Lemma fst_serve {A} (h : Http.handler A) d :
  fst (let (res, d') := h d in (Http.status res, d')) = Http.status (fst (h d)).
Proof. now destruct (h d). Qed.

(** X17: every write route answers with one of the statuses its handler
    names: [part_000] never answers 204, [inventory_backend.js] never 409,
    a create never 200, and only the stock create of [inventory_backend.js]
    answers 404 to a [POST]. *)
Theorem routes_answer_their_statuses (d : Pg.db) :
  (forall r, In (fst (Part000.serve r d)) (Props.part000_statuses r)) /\
  (forall r, In (fst (InventoryBackend.serve r d)) (Props.inventory_statuses r)).
Proof.
  split; intros r; destruct r; simpl; rewrite fst_serve.
  - unfold Part000.post_products, Pg.try_catch, Pg.bind, Pg.ret. statuses.
  - unfold Part000.put_products, Pg.try_catch, Pg.bind, Pg.ret. statuses.
  - unfold Part000.delete_products, Pg.try_catch, Pg.bind, Pg.ret. statuses.
  - unfold Part000.post_stock, Pg.try_catch, Pg.bind, Pg.ret. statuses.
  - unfold Part000.put_stock, Pg.try_catch, Pg.bind, Pg.ret. statuses.
  - unfold Part000.delete_stock, Pg.try_catch, Pg.bind, Pg.ret. statuses.
  - unfold Part000.post_employees, Pg.try_catch, Pg.bind, Pg.ret. statuses.
  - unfold Part000.put_employees, Pg.try_catch, Pg.bind, Pg.ret. statuses.
  - unfold Part000.delete_employees, Pg.try_catch, Pg.bind, Pg.ret. statuses.
  - unfold InventoryBackend.post_products, Pg.try_catch, Pg.bind, Pg.ret. statuses.
  - unfold InventoryBackend.put_products, Pg.try_catch, Pg.bind, Pg.ret. statuses.
  - unfold InventoryBackend.delete_products, Pg.try_catch, Pg.bind, Pg.ret. statuses.
  - unfold InventoryBackend.post_stock, Pg.try_catch, Pg.bind, Pg.ret. statuses.
  - unfold InventoryBackend.put_stock, Pg.try_catch, Pg.bind, Pg.ret. statuses.
  - unfold InventoryBackend.delete_stock, Pg.try_catch, Pg.bind, Pg.ret. statuses.
  - unfold InventoryBackend.post_employees, Pg.try_catch, Pg.bind, Pg.ret. statuses.
  - unfold InventoryBackend.put_employees, Pg.try_catch, Pg.bind, Pg.ret. statuses.
  - unfold InventoryBackend.delete_employees, Pg.try_catch, Pg.bind, Pg.ret. statuses.
Qed.

(** ** One row per key *)

(** X18: in every state the two servers can reach, no two products share
    an id or a business key, no two stock rows share an id or a business
    key (a product has at most one stock row), no two employees share an
    id, and every id is below the next value of its sequence. *)
Theorem reachable_rows_are_unique (d : Pg.db) :
  Schema.reachable d ->
  (forall p1 p2, In p1 (Pg.products d) -> In p2 (Pg.products d) ->
                 Pg.p_id p1 = Pg.p_id p2 \/ Pg.p_id_produk p1 = Pg.p_id_produk p2 ->
                 p1 = p2) /\
  (forall s1 s2, In s1 (Pg.stock d) -> In s2 (Pg.stock d) ->
                 Pg.s_id s1 = Pg.s_id s2 \/
                 (exists k, Pg.s_id_produk s1 = Some k /\ Pg.s_id_produk s2 = Some k) ->
                 s1 = s2) /\
  (forall e1 e2, In e1 (Pg.employees d) -> In e2 (Pg.employees d) ->
                 Pg.e_id e1 = Pg.e_id e2 -> e1 = e2) /\
  (forall p, In p (Pg.products d) -> Pg.p_id p < Pg.products_id_seq d) /\
  (forall s, In s (Pg.stock d) -> Pg.s_id s < Pg.stock_id_seq d) /\
  (forall e, In e (Pg.employees d) -> Pg.e_id e < Pg.employees_id_seq d).
Proof.
  intros Hreach. assert (H := reachable_consistent d Hreach).
  split; [|split; [|split; [|split; [|split]]]].
  - intros p1 p2 H1 H2 [Hid|Hk].
    + exact (NoDup_map_inj Pg.p_id _ p1 p2 (Schema.products_pkey d H) H1 H2 Hid).
    + exact (NoDup_map_inj Pg.p_id_produk _ p1 p2 (Schema.products_id_produk_key d H) H1 H2 Hk).
  - intros s1 s2 H1 H2 [Hid|(k & Hk1 & Hk2)].
    + exact (NoDup_map_inj Pg.s_id _ s1 s2 (Schema.stock_pkey d H) H1 H2 Hid).
    + assert (Hsel := select_stock_by_key d s1 k H H1 Hk1).
      assert (Hin : In s2 (filter (fun x => Pg.null_eqb (Pg.s_id_produk x) k) (Pg.stock d))).
      { apply filter_In. split; [exact H2 | now apply null_eqb_eq]. }
      rewrite Hsel in Hin. destruct Hin as [E|[]]. exact E.
  - intros e1 e2 H1 H2 Hid.
    exact (NoDup_map_inj Pg.e_id _ e1 e2 (Schema.employees_pkey d H) H1 H2 Hid).
  - exact (Schema.products_id_below d H).
  - exact (Schema.stock_id_below d H).
  - exact (Schema.employees_id_below d H).
Qed.

Lemma reachable_rows_are_unique_witness :
  let d := Pg.mkDb [Pg.mkProduct 1 "P1" "Widget" None]
                   [Pg.mkStock 1 (Some "P1") "Widget" (Some 5)] [] 2 2 1 in
  Pg.p_id (Pg.mkProduct 1 "P1" "Widget" None) < Pg.products_id_seq d.
Proof.
  intros d.
  refine (proj1 (proj2 (proj2 (proj2 (reachable_rows_are_unique d _)))) _ (or_introl eq_refl)).
  exact (Schema.reachable_part000 _
           (Part000.PostStock
              (Http.mkBody (Some "P1") (Some "Widget") None (Some 5) None None None))
           (Schema.reachable_part000 _
              (Part000.PostProducts
                 (Http.mkBody (Some "P1") (Some "Widget") None None None None None))
              Schema.reachable_empty)).
Defined.

(** ** When the two stock listings agree *)

Section Agree.
Import Pg Http Schema Spec Props.

Lemma synced_columns d s op :
  sound d -> (forall s', In s' (stock d) -> s_id_produk s' <> None) ->
  In (s, op) (left_join d) ->
  part000_columns (Part000.select_listing (s, op))
  = inventory_columns (InventoryBackend.select_listing (s, op)).
Proof.
  intros [Hc Hs] Hkeyed Hin. apply in_left_join in Hin as [Hin Hop].
  unfold part000_columns, inventory_columns. simpl.
  destruct op as [p|].
  - destruct Hop as [Hp Hk]. apply null_eqb_eq in Hk.
    now rewrite (Hs s p Hin Hp Hk).
  - exfalso. destruct (s_id_produk s) as [k|] eqn:Hk; [|now apply (Hkeyed s Hin)].
    destruct (stock_id_produk_fkey d Hc s k Hin Hk) as (p & Hp & Hpk).
    specialize (Hop p Hp). simpl in Hop.
    rewrite Hpk, String.eqb_refl in Hop. discriminate.
Qed.
End Agree.

(** X19: in a consistent state where every stock row has a business key
    and carries the name of its product, the stock listings of the two
    servers show the same rows on the columns they share, in a different
    order at most. *)
Theorem synced_listings_agree (d : Pg.db) :
  Schema.sound d ->
  (forall s, In s (Pg.stock d) -> Pg.s_id_produk s <> None) ->
  Permutation (map Spec.inventory_columns (Http.rows (fst (InventoryBackend.get_stock d))))
              (map Spec.part000_columns (Http.rows (fst (Part000.get_stock None d)))).
Proof.
  intros Hsound Hkeyed.
  rewrite part000_get_stock_all.
  unfold InventoryBackend.get_stock, Pg.try_catch, Pg.bind, Pg.ret, Pg.select_left_join,
    Http.rows.
  cbn [fst Http.payload]. rewrite filter_true, !map_map.
  rewrite (map_ext_in _ _ (Pg.left_join d)
             (fun sp Hsp => match sp return In sp (Pg.left_join d) -> _ with
                            | (s, op) => synced_columns d s op Hsound Hkeyed
                            end Hsp)).
  apply Permutation_map, order_by_desc_permutation.
Qed.

Lemma synced_listings_agree_witness :
  let d := Pg.mkDb [Pg.mkProduct 1 "P1" "Widget" None; Pg.mkProduct 2 "P2" "Gadget" None]
                   [Pg.mkStock 1 (Some "P1") "Widget" (Some 5);
                    Pg.mkStock 2 (Some "P2") "Gadget" (Some 3)] [] 3 3 1 in
  Permutation (map Spec.inventory_columns (Http.rows (fst (InventoryBackend.get_stock d))))
              (map Spec.part000_columns (Http.rows (fst (Part000.get_stock None d)))).
Proof.
  intros d.
  apply synced_listings_agree.
  - apply reachable_inventory_sound.
    pose (post b := InventoryBackend.PostProducts
                      (Http.mkBody (Some (fst b)) (Some (snd b)) None None None None None)).
    pose (stock b := InventoryBackend.PostStock
                       (Http.mkBody (Some (fst b)) None None (Some (snd b)) None None None)).
    exact (Schema.inventory_step _ (stock ("P2", Pg.Int 3))
             (Schema.inventory_step _ (stock ("P1", Pg.Int 5))
                (Schema.inventory_step _ (post ("P2", "Gadget"))
                   (Schema.inventory_step _ (post ("P1", "Widget"))
                      Schema.inventory_empty)))).
  - intros s [<-|[<-|[]]]; discriminate.
Defined.

(** ** The dashboard after a delete *)

Section DashboardDelete.
Import Pg Http Schema Spec Props.



End DashboardDelete.



(** ** A stock row without a quantity *)

(** X21: in [inventory_backend.js], an update of an existing stock row
    that carries no quantity is answered 200 and stores NULL; a stock
    create of [dq], an [INTEGER], for the key of that row is then answered
    201 with the row at quantity [dq]: the NULL counts for nothing. *)
Theorem inventory_put_then_post_stock
        (d : Pg.db) (b0 b : Http.req_body) (s : Pg.stock_row) (k : string) (dq : Z) :
  Schema.consistent d -> In s (Pg.stock d) ->
  Pg.s_id_produk s = Some k -> k <> "" ->
  Http.jumlah_stok b0 = None ->
  Http.id_produk b = Some k -> Http.jumlah_stok b = Some dq -> Pg.int4 dq = true ->
  exists d1 d2,
    InventoryBackend.put_stock (Pg.s_id s) b0 d
    = (Http.mkResponse 200
         (Http.Json (Some (Pg.mkStock (Pg.s_id s) (Some k) (Pg.s_nama_produk s) None))), d1) /\
    InventoryBackend.post_stock b d1
    = (Http.mkResponse 201
         (Http.Json (Some (Pg.mkStock (Pg.s_id s) (Some k) (Pg.s_nama_produk s) (Some dq)))),
       d2).
Proof.
  intros H Hs Hk Hke Hq0 Hb Hq Hint.
  destruct (inventory_put_stock_state d b0 s None H Hs) as (d1 & E1 & Hstock & _ & H1).
  { now rewrite Hq0. }
  unfold Pg.set_jumlah_stok in E1. rewrite Hk in E1.
  exists d1. eexists. split; [exact E1|].
  rewrite (post_stock_accumulates d1 b k dq
             (Pg.mkStock (Pg.s_id s) (Some k) (Pg.s_nama_produk s) None) (Some dq));
    try assumption.
  - reflexivity.
  - rewrite Hstock. apply in_update. right. exists s.
    split; [exact Hs|]. split; [apply Z.eqb_refl|].
    unfold Pg.set_jumlah_stok. now rewrite Hk.
  - reflexivity.
  - now apply integer_int4.
Qed.

Lemma inventory_put_then_post_stock_witness :
  let d := Pg.mkDb [Pg.mkProduct 1 "P1" "Widget" None]
                   [Pg.mkStock 1 (Some "P1") "Widget" (Some 5)] [] 2 2 1 in
  let b0 := Http.mkBody None None None None None None None in
  let b := Http.mkBody (Some "P1") None None (Some 3) None None None in
  exists d1 d2,
    InventoryBackend.put_stock 1 b0 d
    = (Http.mkResponse 200 (Http.Json (Some (Pg.mkStock 1 (Some "P1") "Widget" None))), d1) /\
    InventoryBackend.post_stock b d1
    = (Http.mkResponse 201 (Http.Json (Some (Pg.mkStock 1 (Some "P1") "Widget" (Some 3)))), d2).
Proof.
  intros d b0 b.
  apply (inventory_put_then_post_stock d b0 b (Pg.mkStock 1 (Some "P1") "Widget" (Some 5))
                                       "P1" 3).
  - apply reachable_consistent.
    exact (Schema.reachable_inventory_backend _
             (InventoryBackend.PostStock
                (Http.mkBody (Some "P1") None None (Some 5) None None None))
             (Schema.reachable_inventory_backend _
                (InventoryBackend.PostProducts
                   (Http.mkBody (Some "P1") (Some "Widget") None None None None None))
                Schema.reachable_empty)).
  - now left.
  - reflexivity.
  - discriminate.
  - reflexivity.
  - reflexivity.
  - reflexivity.
  - reflexivity.
Defined.

(** ** The guard of the stock create *)

(** X22: [POST /api/stock] of [inventory_backend.js] answers 400, the
    database untouched, when the business key is absent or empty or the
    quantity is not a number; a quantity of 0 is a number: for an existing
    product without stock, where the sequence of [stock] has an id left, it
    is answered 201 with a new row of quantity 0. *)
Theorem inventory_post_stock_guard (d : Pg.db) (b : Http.req_body) :
  (Http.falsy (Http.id_produk b) = true \/ Http.jumlah_stok b = None ->
   InventoryBackend.post_stock b d
   = (Http.mkResponse 400 (Http.Send "ID Produk dan Jumlah Stok wajib diisi."), d)) /\
  (forall p,
      Schema.consistent d -> In p (Pg.products d) ->
      Http.id_produk b = Some (Pg.p_id_produk p) -> Pg.p_id_produk p <> "" ->
      Spec.no_stock_for (Pg.p_id_produk p) d ->
      Http.jumlah_stok b = Some 0 ->
      Pg.serial (Pg.stock_id_seq d) = true ->
      exists d',
        InventoryBackend.post_stock b d
        = (Http.mkResponse 201
             (Http.Json (Some (Pg.mkStock (Pg.stock_id_seq d) (Some (Pg.p_id_produk p))
                                          (Pg.p_nama_produk p) (Some 0)))), d')).
Proof.
  split.
  - intros Hbad. unfold InventoryBackend.post_stock.
    replace (Http.falsy (Http.id_produk b) || Http.not_number (Http.jumlah_stok b)) with true;
      [reflexivity|].
    symmetry. apply orb_true_iff. destruct Hbad as [Hk|Hq]; [now left|right].
    now rewrite Hq.
  - intros p H Hp Hb Hk Hnone Hq Hseq. eexists.
    now rewrite (post_stock_inserts d b p 0 (Some 0)).
Qed.

Lemma inventory_post_stock_guard_witness :
  let d := Pg.mkDb [Pg.mkProduct 1 "P1" "Widget" None] [] [] 2 1 1 in
  InventoryBackend.post_stock (Http.mkBody (Some "P1") None None None None None None) d
  = (Http.mkResponse 400 (Http.Send "ID Produk dan Jumlah Stok wajib diisi."), d) /\
  exists d',
    InventoryBackend.post_stock (Http.mkBody (Some "P1") None None (Some 0) None None None) d
    = (Http.mkResponse 201 (Http.Json (Some (Pg.mkStock 1 (Some "P1") "Widget" (Some 0)))), d').
Proof.
  intros d. split.
  - apply (proj1 (inventory_post_stock_guard d _)). now right.
  - apply (proj2 (inventory_post_stock_guard d _) (Pg.mkProduct 1 "P1" "Widget" None)).
    + apply reachable_consistent.
      exact (Schema.reachable_inventory_backend _
               (InventoryBackend.PostProducts
                  (Http.mkBody (Some "P1") (Some "Widget") None None None None None))
               Schema.reachable_empty).
    + now left.
    + reflexivity.
    + discriminate.
    + intros s [].
    + reflexivity.
    + reflexivity.
Defined.

(** ** A sequence that has run out *)

(** X23: once the sequence of a table has handed out the largest
    [INTEGER], a create on that table fails and the database stays as it
    was: [part_000] answers 500, and so does [inventory_backend.js] when the
    request passes its required-field check (for stock: when it names an
    existing product without a stock row). *)
Theorem create_against_exhausted_sequence (d : Pg.db) (b : Http.req_body) :
  (Pg.serial (Pg.products_id_seq d) = false ->
   Spec.answered_unchanged 500 (Part000.post_products b) d /\
   (Http.falsy (Http.id_produk b) || Http.falsy (Http.nama_produk b) = false ->
    Spec.answered_unchanged 500 (InventoryBackend.post_products b) d)) /\
  (Pg.serial (Pg.stock_id_seq d) = false ->
   Spec.answered_unchanged 500 (Part000.post_stock b) d /\
   (forall p,
       Schema.consistent d -> In p (Pg.products d) ->
       Http.id_produk b = Some (Pg.p_id_produk p) -> Pg.p_id_produk p <> "" ->
       Http.not_number (Http.jumlah_stok b) = false ->
       Spec.no_stock_for (Pg.p_id_produk p) d ->
       Spec.answered_unchanged 500 (InventoryBackend.post_stock b) d)) /\
  (Pg.serial (Pg.employees_id_seq d) = false ->
   Spec.answered_unchanged 500 (Part000.post_employees b) d /\
   (Http.falsy (Http.nama b) || Http.falsy (Http.posisi b) = false ->
    Spec.answered_unchanged 500 (InventoryBackend.post_employees b) d)).
Proof.
  unfold Spec.answered_unchanged. split; [|split]; intros Hseq.
  - destruct (insert_product_exhausted (Http.id_produk b) (Http.nama_produk b)
                (Http.kategori_produk b) d Hseq) as (e & E & Hfk & Hu).
    split.
    + unfold Part000.post_products, Pg.try_catch, Pg.bind. rewrite E.
      destruct e; try contradiction; now split.
    + intros Hguard. unfold InventoryBackend.post_products, Pg.try_catch, Pg.bind.
      rewrite Hguard, E. now split.
  - split.
    + destruct (insert_stock_exhausted (Http.id_produk b) (Http.nama_produk b)
                  (Http.jumlah_stok b) d Hseq) as (e & E & Hfk & Hu).
      unfold Part000.post_stock, Pg.try_catch, Pg.bind. rewrite E.
      destruct e; try contradiction; now split.
    + intros p H Hp Hb Hk Hq Hnone.
      unfold InventoryBackend.post_stock.
      rewrite Hb, Hq, falsy_some by exact Hk. cbn [orb].
      unfold Pg.try_catch, Pg.bind, Pg.select_products, Pg.select_stock.
      rewrite select_product_by_key, select_stock_none by assumption.
      destruct (insert_stock_exhausted (Some (Pg.p_id_produk p)) (Some (Pg.p_nama_produk p))
                  (Some match Http.jumlah_stok b with Some q => q | None => Pg.Int 0 end)
                  d Hseq) as (e & E & _).
      rewrite E. now split.
  - destruct (insert_employee_exhausted (Http.nama b) (Http.posisi b) (Http.email b) d Hseq)
      as (e & E & Hfk & Hu).
    split.
    + unfold Part000.post_employees, Pg.try_catch, Pg.bind. rewrite E. now split.
    + intros Hguard. unfold InventoryBackend.post_employees, Pg.try_catch, Pg.bind.
      rewrite Hguard, E. now split.
Qed.

Lemma create_against_exhausted_sequence_witness :
  let d := Pg.mkDb [Pg.mkProduct 1 "P1" "Widget" None] [] [] 2 2147483648 1 in
  let b := Http.mkBody (Some "P1") (Some "Widget") None (Some 5) None None None in
  Spec.answered_unchanged 500 (Part000.post_stock b) d /\
  Spec.answered_unchanged 500 (InventoryBackend.post_stock b) d.
Proof.
  intros d b.
  destruct (create_against_exhausted_sequence d b) as (_ & H & _).
  destruct (H eq_refl) as [H1 H2]. split; [exact H1|].
  apply (H2 (Pg.mkProduct 1 "P1" "Widget" None)).
  - constructor; cbn;
      try (intros ? []; fail); try (intros ? ? []; fail);
      try (intros ? [<-|[]]; repeat split; simpl; lia);
      try (repeat constructor; intros []; fail); repeat constructor.
  - now left.
  - reflexivity.
  - discriminate.
  - reflexivity.
  - intros s [].
Defined.
